(** * Paddle webhook receiver: signature verification, payload validation
      and profile / subscription synchronisation.

    A shallow embedding of the Deno edge function (the [serve] handler and
    the functions it calls).  JavaScript values coming out of [JSON.parse]
    are a tree type with the language's truthiness, property access and
    string conversion; the data store reached through the Supabase client is
    an abstract transition system whose calls are recorded; a thrown
    exception is an explicit completion.  The logger is left out, but for
    the arguments it evaluates that can throw. *)

From Stdlib Require Import String Ascii ZArith List Bool Lia DecimalString DecimalNat.
Import ListNotations.
Set Warnings "-register-all".
Local Open Scope string_scope.
Local Open Scope Z_scope.

(* ===================================================================== *)
(** ** Strings *)

(** Strings are sequences of code units below 256.  An HTTP header value is
    such a byte string; for the other strings the functions below are the
    restriction of the JavaScript ones to that range. *)
Module JsString.

(** [s.split(sep)] for a one-character separator. *)
Fixpoint split (sep : ascii) (s : string) : list string :=
  match s with
  | EmptyString => [EmptyString]
  | String c rest =>
      if Ascii.eqb c sep then EmptyString :: split sep rest
      else match split sep rest with
           | [] => [String c EmptyString]
           | h :: t => String c h :: t
           end
  end.

(** [s.startsWith(p)]. *)
Definition startsWith (p s : string) : bool := String.prefix p s.

(** Unicode simple lower-casing on the code units below 256: A-Z and the
    Latin-1 capitals (all of 192..222 but the multiplication sign). *)
Definition lower_char (c : ascii) : ascii :=
  let n := nat_of_ascii c in
  if ((65 <=? n) && (n <=? 90))%nat
     || ((192 <=? n) && (n <=? 222) && negb (n =? 215))%nat
  then ascii_of_nat (n + 32) else c.

(** [s.toLowerCase()]. *)
Fixpoint toLowerCase (s : string) : string :=
  match s with
  | EmptyString => EmptyString
  | String c rest => String (lower_char c) (toLowerCase rest)
  end.

(** White space skipped by [parseInt]: TAB, LF, VT, FF, CR, SP, NBSP. *)
Definition is_space (c : ascii) : bool :=
  let n := nat_of_ascii c in
  ((9 <=? n) && (n <=? 13) || (n =? 32) || (n =? 160))%nat.

Definition digit_of (c : ascii) : option Z :=
  let n := nat_of_ascii c in
  if ((48 <=? n) && (n <=? 57))%nat then Some (Z.of_nat n - 48) else None.

Fixpoint skip_spaces (s : string) : string :=
  match s with
  | String c rest => if is_space c then skip_spaces rest else s
  | EmptyString => EmptyString
  end.

(** The longest prefix of decimal digits, read most significant first;
    [None] when there is no digit at all. *)
Fixpoint digits (acc : option Z) (s : string) : option Z :=
  match s with
  | String c rest =>
      match digit_of c with
      | Some d => digits (Some (10 * match acc with Some a => a | None => 0 end + d)) rest
      | None => acc
      end
  | EmptyString => acc
  end.

(** [parseInt(s, 10)]; [None] is NaN.  The result is the exact integer:
    a double represents it exactly below 2^53, and above that the rounded
    value is as far from any clock reading as the exact one. *)
Definition parseInt (s : string) : option Z :=
  match skip_spaces s with
  | String "-" rest => option_map Z.opp (digits None rest)
  | String "+" rest => digits None rest
  | t => digits None t
  end.

End JsString.

(* ===================================================================== *)
(** ** JavaScript values *)

(** What [JSON.parse] builds, plus [undefined], which property access on a
    missing key yields.  Numbers are integers: the code tests a number for
    zero and for being positive, prints it in a message, and otherwise passes
    it on.  An object lists its members in order; [JSON.parse] keeps one
    value for a key, and a lookup takes the first. *)
Inductive JValue : Type :=
| JUndefined
| JNull
| JBool (b : bool)
| JNum (n : Z)
| JStr (s : string)
| JArr (xs : list JValue)
| JObj (fields : list (string * JValue)).

(** The message of a thrown error, or a normally produced value. *)
Inductive Completion (A : Type) : Type :=
| Normal (a : A)
| Throw (message : string).
Arguments Normal {A} a.
Arguments Throw {A} message.

Module Js.

(** ToBoolean. *)
Definition truthy (v : JValue) : bool :=
  match v with
  | JUndefined | JNull => false
  | JBool b => b
  | JNum n => negb (n =? 0)
  | JStr s => negb (s =? "")%string
  | JArr _ | JObj _ => true
  end.

(** [a || b]. *)
Definition or (a b : JValue) : JValue := if truthy a then a else b.

(** [v == null]: reading a property of such a value throws. *)
Definition nullish (v : JValue) : bool :=
  match v with
  | JUndefined | JNull => true
  | _ => false
  end.

Fixpoint lookup (k : string) (fields : list (string * JValue)) : JValue :=
  match fields with
  | [] => JUndefined
  | (k', v) :: rest => if (k =? k')%string then v else lookup k rest
  end.

Definition decimal (n : nat) : string :=
  NilZero.string_of_uint (Nat.to_uint n).

(** [v?.k] for a named key [k].  None of the keys the handlers read is an
    inherited property, but for [length] on arrays and strings. *)
Definition opt_get (v : JValue) (k : string) : JValue :=
  match v with
  | JObj fields => lookup k fields
  | JArr xs => if (k =? "length")%string then JNum (Z.of_nat (List.length xs)) else JUndefined
  | JStr s => if (k =? "length")%string then JNum (Z.of_nat (String.length s)) else JUndefined
  | _ => JUndefined
  end.

(** [v.k]: as [v?.k], but a TypeError on [null] and [undefined]. *)
Definition get (v : JValue) (k : string) : Completion JValue :=
  match v with
  | JUndefined => Throw ("Cannot read properties of undefined (reading '" ++ k ++ "')")
  | JNull => Throw ("Cannot read properties of null (reading '" ++ k ++ "')")
  | _ => Normal (opt_get v k)
  end.

(** [v?.[i]]. *)
Definition opt_idx (v : JValue) (i : nat) : JValue :=
  match v with
  | JArr xs => nth i xs JUndefined
  | JStr s => match String.get i s with
              | Some c => JStr (String c EmptyString)
              | None => JUndefined
              end
  | JObj fields => lookup (decimal i) fields
  | _ => JUndefined
  end.

(** [v[i]]. *)
Definition idx (v : JValue) (i : nat) : Completion JValue :=
  match v with
  | JUndefined => Throw ("Cannot read properties of undefined (reading '" ++ decimal i ++ "')")
  | JNull => Throw ("Cannot read properties of null (reading '" ++ decimal i ++ "')")
  | _ => Normal (opt_idx v i)
  end.

(** An object has [k] among its own keys. *)
Definition has_own (k : string) (fields : list (string * JValue)) : bool :=
  existsb (fun kv => (fst kv =? k)%string) fields.

(** The integers a number holds exactly, [Number.isSafeInteger]: these are
    printed digit by digit. *)
Definition safe (n : Z) : bool := Z.abs n <? 2 ^ 53.

(** ToString, as a template literal applies it, and ToPrimitive on arrays
    and objects.
    - A safe integer is printed in decimal.  A larger number is printed with
      the shortest digits that identify it, in exponent notation from 1e21
      on: that text is [big n].
    - An array is joined with commas, [null] and [undefined] elements being
      empty.
    - An object is ["[object Object]"], unless it has a member of its own
      named [toString]: as no value of [JSON.parse] is a function, no method
      then gives a primitive and the conversion throws a TypeError. *)
Fixpoint to_string (big : Z -> string) (v : JValue) : Completion string :=
  match v with
  | JUndefined => Normal "undefined"
  | JNull => Normal "null"
  | JBool true => Normal "true"
  | JBool false => Normal "false"
  | JNum n => Normal (if safe n then NilZero.string_of_int (Z.to_int n) else big n)
  | JStr s => Normal s
  | JArr xs =>
      (fix join (l : list JValue) : Completion string :=
         match l with
         | [] => Normal ""
         | x :: t =>
             match (match x with
                    | JUndefined | JNull => Normal ""
                    | _ => to_string big x
                    end) with
             | Throw e => Throw e
             | Normal e =>
                 match t with
                 | [] => Normal e
                 | _ :: _ =>
                     match join t with
                     | Throw e' => Throw e'
                     | Normal rest => Normal (e ++ "," ++ rest)
                     end
                 end
             end
         end) xs
  | JObj fields =>
      if has_own "toString" fields
      then Throw "Cannot convert object to primitive value"
      else Normal "[object Object]"
  end.

(** [v.toLowerCase()], where [expr] is the text of the expression [v]:
    defined on strings only. *)
Definition toLowerCase (expr : string) (v : JValue) : Completion string :=
  match v with
  | JStr s => Normal (JsString.toLowerCase s)
  | JUndefined => Throw "Cannot read properties of undefined (reading 'toLowerCase')"
  | JNull => Throw "Cannot read properties of null (reading 'toLowerCase')"
  | _ => Throw (expr ++ ".toLowerCase is not a function")
  end.

End Js.

(* ===================================================================== *)
(** ** Configuration, runtime services and requests *)

(** [Deno.env.get] of the four variables the function reads; [None] is
    [undefined]. *)
Record Env : Type := {
  PADDLE_WEBHOOK_SIGNING_SECRET : option string;
  APP_ENVIRONMENT_var : option string;
  SUPABASE_URL : option string;
  SUPABASE_SERVICE_ROLE_KEY : option string
}.

(** Truthiness of a [string | undefined | null]. *)
Definition present (o : option string) : bool :=
  match o with
  | Some s => negb (s =? "")%string
  | None => false
  end.

(** [o || d] for a [string | undefined] and a string. *)
Definition or_default (o : option string) (d : string) : string :=
  match o with
  | Some s => if (s =? "")%string then d else s
  | None => d
  end.

(** [Deno.env.get("APP_ENVIRONMENT") || "development"]. *)
Definition APP_ENVIRONMENT (env : Env) : string :=
  or_default (APP_ENVIRONMENT_var env) "development".

Definition WEBHOOK_TIMESTAMP_TOLERANCE_SECONDS : Z := 300.

(** Services of the platform the function calls and does not define.
    - [hmac_sha256_hex key msg] is
      [createHmac("sha256", key).update(msg).digest("hex")], [None] when it
      throws;
    - [JSON_parse] is [JSON.parse], [None] when it throws;
    - [number_gt_zero s] is [Number(s) > 0] for a string [s];
    - [Number_toString n] is [String(n)] for an integer [n] that is not
      safe. *)
Record Runtime : Type := {
  hmac_sha256_hex : string -> string -> option string;
  JSON_parse : string -> option JValue;
  number_gt_zero : string -> bool;
  Number_toString : Z -> string
}.

(** An incoming request: its method, [headers.get], and what [text()]
    resolves to. *)
Record Request : Type := {
  method : string;
  headers_get : string -> option string;
  text : Completion string
}.

(** [validateEnvironment()]. *)
Definition validateEnvironment (env : Env) : bool :=
  let missing := filter (fun v => negb (present v))
                   [SUPABASE_URL env; SUPABASE_SERVICE_ROLE_KEY env] in
  if (0 <? List.length missing)%nat then false
  else if (APP_ENVIRONMENT env =? "production")%string
          && negb (present (PADDLE_WEBHOOK_SIGNING_SECRET env)) then false
  else true.

(* ===================================================================== *)
(** ** Signature verification *)

Record SignatureResult : Type := {
  sig_isValid : bool;
  sig_reason : string
}.

(** [parts.find((part) => part.startsWith(p))?.split("=")[1]]. *)
Definition header_field (p : string) (parts : list string) : option string :=
  match find (JsString.startsWith p) parts with
  | Some part => nth_error (JsString.split "=" part) 1
  | None => None
  end.

(** The [timestampStr] and the [h1Hash] of a header. *)
Definition header_ts (header : string) : option string :=
  header_field "ts=" (JsString.split ";" header).

Definition header_h1 (header : string) : option string :=
  header_field "h1=" (JsString.split ";" header).

(** [verifyPaddleSignature(req, rawBody)], with [Date.now()] as [nowMs]. *)
Definition verifyPaddleSignature (rt : Runtime) (env : Env) (nowMs : Z)
    (req : Request) (rawBody : string) : SignatureResult :=
  if negb (APP_ENVIRONMENT env =? "production")%string then
    {| sig_isValid := true; sig_reason := "bypassed_for_development" |}
  else if negb (present (PADDLE_WEBHOOK_SIGNING_SECRET env)) then
    {| sig_isValid := false; sig_reason := "missing_signing_secret" |}
  else
    let secret := match PADDLE_WEBHOOK_SIGNING_SECRET env with
                  | Some s => s | None => "" end in
    let signatureHeader := headers_get req "Paddle-Signature" in
    if negb (present signatureHeader) then
      {| sig_isValid := false; sig_reason := "missing_signature_header" |}
    else
      let parts := JsString.split ";"
                     match signatureHeader with Some h => h | None => "" end in
      let timestampStr := header_field "ts=" parts in
      let h1Hash := header_field "h1=" parts in
      if negb (present timestampStr) || negb (present h1Hash) then
        {| sig_isValid := false; sig_reason := "invalid_signature_format" |}
      else
        let timestampStr := match timestampStr with Some s => s | None => "" end in
        let h1Hash := match h1Hash with Some s => s | None => "" end in
        match JsString.parseInt timestampStr with
        | None =>
            {| sig_isValid := false; sig_reason := "invalid_timestamp" |}
        | Some timestamp =>
            let currentTimestamp := nowMs / 1000 in
            let timeDiff := Z.abs (currentTimestamp - timestamp) in
            if WEBHOOK_TIMESTAMP_TOLERANCE_SECONDS <? timeDiff then
              {| sig_isValid := false; sig_reason := "timestamp_too_old" |}
            else
              let signedPayload := timestampStr ++ ":" ++ rawBody in
              match hmac_sha256_hex rt secret signedPayload with
              | Some computedHash =>
                  let isValid := (JsString.toLowerCase computedHash
                                  =? JsString.toLowerCase h1Hash)%string in
                  {| sig_isValid := isValid;
                     sig_reason := if isValid then "valid" else "signature_mismatch" |}
              | None =>
                  {| sig_isValid := false; sig_reason := "hmac_computation_error" |}
              end
        end.

(* ===================================================================== *)
(** ** Payload validation *)

Definition bindC {A B : Type} (c : Completion A) (f : A -> Completion B)
  : Completion B :=
  match c with
  | Normal a => f a
  | Throw e => Throw e
  end.

Record ValidationResult : Type := {
  val_isValid : bool;
  val_errors : list string
}.

(** [validateWebhookPayload(payload)]. *)
Definition validateWebhookPayload (payload : JValue) : Completion ValidationResult :=
  bindC (Js.get payload "event_type") (fun event_type =>
  let errors1 := if negb (Js.truthy event_type) then ["Missing event_type"] else [] in
  bindC (Js.get payload "event_id") (fun event_id =>
  let errors2 := if negb (Js.truthy event_id)
                 then (errors1 ++ ["Missing event_id"])%list else errors1 in
  bindC (Js.get payload "data") (fun data =>
  let errors3 := if negb (Js.truthy data)
                 then (errors2 ++ ["Missing data object"])%list else errors2 in
  bindC (if Js.truthy data then
           bindC (Js.get data "custom_data") (fun custom_data =>
           Normal (if negb (Js.truthy (Js.opt_get custom_data "userId"))
                   then (errors3 ++ ["Missing userId in custom_data"])%list
                   else errors3))
         else Normal errors3) (fun errors =>
  Normal {| val_isValid := (List.length errors =? 0)%nat;
            val_errors := errors |})))).

(* ===================================================================== *)
(** ** The data store *)

(** A PostgREST error, of which the code reads [code] and [message]. *)
Record PgError : Type := {
  code : string;
  message : string
}.

(** What a call on the Supabase client resolves to: [{ data, error: null }]
    or [{ data: null, error }].  The client reports failures in [error]
    and does not throw. *)
Inductive Response : Type :=
| Data (data : JValue)
| Failure (error : PgError).

(** The six calls the function makes, with the row and the [eq] filter they
    carry. *)
Inductive StoreCall : Type :=
| ProfilesSelectSingle (user_id : JValue)
    (* from("profiles").select("*").eq("user_id", _).single() *)
| ProfilesUpdateSingle (row : JValue) (user_id : JValue)
    (* from("profiles").update(row).eq("user_id", _).select().single() *)
| ProfilesInsertSingle (row : JValue)
    (* from("profiles").insert(row).select().single() *)
| PlansSelectSingle (paddle_product_id : JValue)
    (* from("subscription_plans").select("*").eq("paddle_product_id", _).single() *)
| SubscriptionsUpsertSingle (row : JValue)
    (* from("user_subscriptions").upsert(row).select().single() *)
| SubscriptionsUpdate (row : JValue) (paddle_subscription_id : JValue).
    (* from("user_subscriptions").update(row).eq("paddle_subscription_id", _) *)

(** The store itself is not part of the function: any state type with any
    reaction to the calls. *)
Record Store : Type := {
  db : Type;
  exec : StoreCall -> db -> Response * db
}.

(** A call that writes. *)
Definition is_write (c : StoreCall) : bool :=
  match c with
  | ProfilesSelectSingle _ | PlansSelectSingle _ => false
  | _ => true
  end.

(** A call that writes a profile, and the row it writes. *)
Definition profile_row (c : StoreCall) : option JValue :=
  match c with
  | ProfilesUpdateSingle row _ | ProfilesInsertSingle row => Some row
  | _ => None
  end.

(* ===================================================================== *)
(** ** Handlers *)

Record UserValidation : Type := {
  uv_isValid : bool;
  uv_profile : JValue;
  uv_error : JValue
}.

(** The result of [upsertUserProfile] and of [upsertSubscription]:
    [{ success, profile | subscription, error }]. *)
Record UpsertResult : Type := {
  up_success : bool;
  up_row : JValue;
  up_error : JValue
}.

(** The third argument of [upsertUserProfile]. *)
Record ProfileSubscriptionData : Type := {
  psd_status : JValue;
  psd_planName : JValue;
  psd_customerId : JValue
}.

(** The argument of [upsertSubscription]. *)
Record SubscriptionData : Type := {
  sd_userId : JValue;
  sd_planId : JValue;
  sd_paddleSubscriptionId : JValue;
  sd_status : JValue;
  sd_currentPeriodStart : JValue;
  sd_currentPeriodEnd : JValue
}.

Record HandlerResult : Type := {
  success : bool;
  result_message : option string
}.

Record HttpResponse : Type := {
  status : Z;
  body : JValue
}.

Section Sync.

Variable rt : Runtime.
Variable store : Store.
(** [clock k] is what the [k]-th [new Date().toISOString()] of a request
    returns. *)
Variable clock : nat -> string.

(** The store and the number of clock readings so far. *)
Record World : Type := {
  state : db store;
  ticks : nat
}.

(** A run: how it completes, the world it leaves, the store calls it made
    in order. *)
Record Run (A : Type) : Type := {
  value : Completion A;
  final : World;
  calls : list StoreCall
}.
Arguments value {A} r.
Arguments final {A} r.
Arguments calls {A} r.

Definition M (A : Type) : Type := World -> Run A.

Definition ret {A : Type} (a : A) : M A :=
  fun w => {| value := Normal a; final := w; calls := [] |}.

Definition throw {A : Type} (e : string) : M A :=
  fun w => {| value := Throw e; final := w; calls := [] |}.

Definition bind {A B : Type} (m : M A) (f : A -> M B) : M B :=
  fun w =>
    let r := m w in
    match value r with
    | Normal a =>
        let r' := f a (final r) in
        {| value := value r'; final := final r'; calls := calls r ++ calls r' |}
    | Throw e => {| value := Throw e; final := final r; calls := calls r |}
    end.

(** [try { m } catch (error) { handler(error.message) }]. *)
Definition try_catch {A : Type} (m : M A) (handler : string -> M A) : M A :=
  fun w =>
    let r := m w in
    match value r with
    | Normal a => r
    | Throw e =>
        let r' := handler e (final r) in
        {| value := value r'; final := final r'; calls := calls r ++ calls r' |}
    end.

Definition lift {A : Type} (c : Completion A) : M A :=
  match c with
  | Normal a => ret a
  | Throw e => throw e
  end.

(** [await] of a call on the client. *)
Definition call (c : StoreCall) : M Response :=
  fun w =>
    let (resp, st) := exec store c (state w) in
    {| value := Normal resp;
       final := {| state := st; ticks := ticks w |};
       calls := [c] |}.

(** [new Date().toISOString()]. *)
Definition Date_toISOString : M string :=
  fun w =>
    {| value := Normal (clock (ticks w));
       final := {| state := state w; ticks := S (ticks w) |};
       calls := [] |}.

Notation "x <- m ;; k" := (bind m (fun x => k))
  (at level 100, m at next level, right associativity).

(** [validateUser(supabaseClient, userId)].  The logger's arguments are
    evaluated where the source evaluates them: [profile.id] throws on a
    null row. *)
Definition validateUser (userId : JValue) : M UserValidation :=
  try_catch
    (resp <- call (ProfilesSelectSingle userId) ;;
     match resp with
     | Failure error =>
         if (code error =? "PGRST116")%string then
           ret {| uv_isValid := true; uv_profile := JNull; uv_error := JUndefined |}
         else
           ret {| uv_isValid := false; uv_profile := JUndefined;
                  uv_error := JStr (message error) |}
     | Data profile =>
         _ <- lift (Js.get profile "id") ;;
         ret {| uv_isValid := true; uv_profile := profile; uv_error := JUndefined |}
     end)
    (fun msg =>
       ret {| uv_isValid := false; uv_profile := JUndefined; uv_error := JStr msg |}).

(** The object literal [profileData]. *)
Definition profileData (userId email full_name : JValue)
    (subscriptionData : ProfileSubscriptionData) (updated_at : string)
  : list (string * JValue) :=
  [ ("user_id", userId);
    ("email", Js.or email (JStr "unknown@example.com"));
    ("full_name", Js.or full_name (JStr "Unknown User"));
    ("subscription_status", Js.or (psd_status subscriptionData) (JStr "active"));
    ("subscription_plan", Js.or (psd_planName subscriptionData) (JStr "unknown"));
    ("paddle_customer_id", psd_customerId subscriptionData);
    ("updated_at", JStr updated_at) ].

(** [upsertUserProfile(supabaseClient, userId, customData, subscriptionData)]. *)
Definition upsertUserProfile (userId customData : JValue)
    (subscriptionData : ProfileSubscriptionData) : M UpsertResult :=
  try_catch
    (email <- lift (Js.get customData "email") ;;
     full_name <- lift (Js.get customData "full_name") ;;
     updated_at <- Date_toISOString ;;
     let profileData := profileData userId email full_name subscriptionData updated_at in
     resp <- call (ProfilesUpdateSingle (JObj profileData) userId) ;;
     match resp with
     | Failure updateError =>
         if (code updateError =? "PGRST116")%string then
           created_at <- Date_toISOString ;;
           resp' <- call (ProfilesInsertSingle
                            (JObj (profileData ++ [("created_at", JStr created_at)]))) ;;
           match resp' with
           | Failure createError =>
               ret {| up_success := false; up_row := JUndefined;
                      up_error := JStr (message createError) |}
           | Data newProfile =>
               _ <- lift (Js.get newProfile "id") ;;
               ret {| up_success := true; up_row := newProfile; up_error := JUndefined |}
           end
         else
           ret {| up_success := false; up_row := JUndefined;
                  up_error := JStr (message updateError) |}
     | Data updatedProfile =>
         _ <- lift (Js.get updatedProfile "id") ;;
         ret {| up_success := true; up_row := updatedProfile; up_error := JUndefined |}
     end)
    (fun msg =>
       ret {| up_success := false; up_row := JUndefined; up_error := JStr msg |}).

(** [upsertSubscription(supabaseClient, subscriptionData)]. *)
Definition upsertSubscription (subscriptionData : SubscriptionData) : M UpsertResult :=
  try_catch
    (updated_at <- Date_toISOString ;;
     resp <- call (SubscriptionsUpsertSingle
                     (JObj [ ("user_id", sd_userId subscriptionData);
                             ("plan_id", sd_planId subscriptionData);
                             ("paddle_subscription_id",
                              sd_paddleSubscriptionId subscriptionData);
                             ("status", sd_status subscriptionData);
                             ("current_period_start",
                              sd_currentPeriodStart subscriptionData);
                             ("current_period_end",
                              sd_currentPeriodEnd subscriptionData);
                             ("updated_at", JStr updated_at) ])) ;;
     match resp with
     | Failure error =>
         ret {| up_success := false; up_row := JUndefined;
                up_error := JStr (message error) |}
     | Data subscription =>
         _ <- lift (Js.get subscription "id") ;;
         ret {| up_success := true; up_row := subscription; up_error := JUndefined |}
     end)
    (fun msg =>
       ret {| up_success := false; up_row := JUndefined; up_error := JStr msg |}).

Definition failure (msg : string) : HandlerResult :=
  {| success := false; result_message := Some msg |}.

Definition succeeded (msg : string) : HandlerResult :=
  {| success := true; result_message := Some msg |}.

(** [subscription.items?.[0]?.product_id || subscription.items?.[0]?.price_id
     || subscription.product_id], for a [subscription] that is neither
    [null] nor [undefined]. *)
Definition subscription_productId (subscription : JValue) : JValue :=
  let item := Js.opt_idx (Js.opt_get subscription "items") 0 in
  Js.or (Js.or (Js.opt_get item "product_id") (Js.opt_get item "price_id"))
        (Js.opt_get subscription "product_id").

(** ToString of a template literal [`${v}`], with the platform's printing
    of large numbers. *)
Definition ToString (v : JValue) : Completion string :=
  Js.to_string (Number_toString rt) v.

(** [handleSubscriptionEvent(supabaseClient, payload, requestId)]. *)
Definition handleSubscriptionEvent (payload : JValue) : M HandlerResult :=
  subscription <- lift (Js.get payload "data") ;;
  _ <- lift (Js.get payload "event_id") ;;
  custom_data <- lift (Js.get subscription "custom_data") ;;
  let customData := Js.or custom_data (JObj []) in
  userId <- lift (Js.get customData "userId") ;;
  userValidation <- validateUser userId ;;
  if negb (uv_isValid userValidation) then
    error <- lift (ToString (uv_error userValidation)) ;;
    ret (failure ("User validation failed: " ++ error))
  else
    let productId := subscription_productId subscription in
    if negb (Js.truthy productId) then
      ret (failure "Product ID missing in subscription data")
    else
      resp <- call (PlansSelectSingle productId) ;;
      match resp with
      | Failure _ =>
          id <- lift (ToString productId) ;;
          ret (failure ("Subscription plan not found for product ID: " ++ id))
      | Data plan =>
          if negb (Js.truthy plan) then
            id <- lift (ToString productId) ;;
            ret (failure ("Subscription plan not found for product ID: " ++ id))
          else
            planName <- lift (Js.toLowerCase "plan.name" (Js.opt_get plan "name")) ;;
            profileResult <-
              upsertUserProfile userId customData
                {| psd_status := Js.opt_get subscription "status";
                   psd_planName := JStr planName;
                   psd_customerId := Js.opt_get subscription "customer_id" |} ;;
            if negb (up_success profileResult) then
              error <- lift (ToString (up_error profileResult)) ;;
              ret (failure ("Profile update failed: " ++ error))
            else
              let period := Js.opt_get subscription "current_billing_period" in
              subscriptionResult <-
                upsertSubscription
                  {| sd_userId := userId;
                     sd_planId := Js.opt_get plan "id";
                     sd_paddleSubscriptionId := Js.opt_get subscription "id";
                     sd_status := Js.opt_get subscription "status";
                     sd_currentPeriodStart := Js.opt_get period "starts_at";
                     sd_currentPeriodEnd := Js.opt_get period "ends_at" |} ;;
              if negb (up_success subscriptionResult) then
                error <- lift (ToString (up_error subscriptionResult)) ;;
                ret (failure ("Subscription update failed: " ++ error))
              else
                status <- lift (ToString (Js.opt_get subscription "status")) ;;
                name <- lift (ToString (Js.opt_get plan "name")) ;;
                ret (succeeded ("Subscription " ++ status
                                ++ " processed successfully for plan " ++ name))
      end.

(** [x > 0] for the value [x] of [transaction.items?.length]: an array or
    an object is first made a primitive, which throws where ToString
    does. *)
Definition gt_zero (x : JValue) : Completion bool :=
  match x with
  | JUndefined | JNull => Normal false
  | JBool b => Normal b
  | JNum n => Normal (0 <? n)
  | JStr s => Normal (number_gt_zero rt s)
  | JArr _ | JObj _ =>
      match ToString x with
      | Normal s => Normal (number_gt_zero rt s)
      | Throw e => Throw e
      end
  end.

(** The guard of the one-time payment branch,
    [!transaction.subscription_id && transaction.items?.length > 0]: the
    comparison is made, and may throw, only without a [subscription_id]. *)
Definition one_time_purchase (transaction : JValue) : Completion bool :=
  if negb (Js.truthy (Js.opt_get transaction "subscription_id"))
  then gt_zero (Js.opt_get (Js.opt_get transaction "items") "length")
  else Normal false.

(** [handleTransactionCompleted(supabaseClient, payload, requestId)]. *)
Definition handleTransactionCompleted (payload : JValue) : M HandlerResult :=
  transaction <- lift (Js.get payload "data") ;;
  _ <- lift (Js.get payload "event_id") ;;
  custom_data <- lift (Js.get transaction "custom_data") ;;
  let customData := Js.or custom_data (JObj []) in
  userId <- lift (Js.get customData "userId") ;;
  userValidation <- validateUser userId ;;
  if negb (uv_isValid userValidation) then
    error <- lift (ToString (uv_error userValidation)) ;;
    ret (failure ("User validation failed: " ++ error))
  else
    let done := ret (succeeded "Transaction completed event processed successfully") in
    let items := Js.opt_get transaction "items" in
    one_time <- lift (one_time_purchase transaction) ;;
    if one_time then
      item <- lift (Js.idx items 0) ;;
      product_id <- lift (Js.get item "product_id") ;;
      let productId := Js.or product_id (Js.opt_get item "price_id") in
      if Js.truthy productId then
        resp <- call (PlansSelectSingle productId) ;;
        match resp with
        | Failure _ => done
        | Data plan =>
            if Js.truthy plan then
              planName <- lift (Js.toLowerCase "plan.name" (Js.opt_get plan "name")) ;;
              profileResult <-
                upsertUserProfile userId customData
                  {| psd_status := JStr "active";
                     psd_planName := JStr planName;
                     psd_customerId := Js.opt_get transaction "customer_id" |} ;;
              if negb (up_success profileResult) then
                error <- lift (ToString (up_error profileResult)) ;;
                ret (failure ("Profile update failed for one-time payment: " ++ error))
              else done
            else done
        end
      else done
    else done.

(** [handleSubscriptionCanceled(supabaseClient, payload, requestId)]. *)
Definition handleSubscriptionCanceled (payload : JValue) : M HandlerResult :=
  subscription <- lift (Js.get payload "data") ;;
  _ <- lift (Js.get payload "event_id") ;;
  custom_data <- lift (Js.get subscription "custom_data") ;;
  let customData := Js.or custom_data (JObj []) in
  userId <- lift (Js.get customData "userId") ;;
  userValidation <- validateUser userId ;;
  if negb (uv_isValid userValidation) then
    error <- lift (ToString (uv_error userValidation)) ;;
    ret (failure ("User validation failed: " ++ error))
  else
    profileResult <-
      upsertUserProfile userId customData
        {| psd_status := Js.or (Js.opt_get subscription "status") (JStr "canceled");
           psd_planName := JStr "free";
           psd_customerId := Js.opt_get subscription "customer_id" |} ;;
    if negb (up_success profileResult) then
      error <- lift (ToString (up_error profileResult)) ;;
      ret (failure ("Profile update failed for cancellation: " ++ error))
    else
      let status := Js.or (Js.opt_get subscription "status") (JStr "canceled") in
      updated_at <- Date_toISOString ;;
      let ends_at :=
        Js.opt_get (Js.opt_get subscription "current_billing_period") "ends_at" in
      current_period_end <-
        (if Js.truthy ends_at then ret ends_at
         else (now <- Date_toISOString ;; ret (JStr now))) ;;
      resp <- call (SubscriptionsUpdate
                      (JObj [ ("status", status);
                              ("updated_at", JStr updated_at);
                              ("current_period_end", current_period_end) ])
                      (Js.opt_get subscription "id")) ;;
      match resp with
      | Failure subscriptionUpdateError =>
          ret (failure ("Subscription record update failed: "
                        ++ message subscriptionUpdateError))
      | Data _ =>
          ret (succeeded "Subscription cancellation processed successfully")
      end.

(** The body of a JSON response, as the object given to [JSON.stringify]. *)
Definition json_response (st : Z) (fields : list (string * JValue)) : HttpResponse :=
  {| status := st; body := JObj fields |}.

(** The [switch (payload.event_type)] of the request handler. *)
Definition route (payload event_type : JValue) : M HandlerResult :=
  match event_type with
  | JStr "subscription.created" | JStr "subscription.updated" =>
      handleSubscriptionEvent payload
  | JStr "transaction.completed" => handleTransactionCompleted payload
  | JStr "subscription.canceled" => handleSubscriptionCanceled payload
  | _ =>
      printed <- lift (ToString event_type) ;;
      ret (succeeded ("Event type " ++ printed ++ " acknowledged but not processed"))
  end.

(** The function given to [serve]: [env] is the environment read at start
    up, [nowMs] is [Date.now()], [requestId] the random identifier drawn for
    the request.  [createClient] only builds the client. *)
Definition serve (env : Env) (nowMs : Z) (requestId : string) (req : Request)
  : M HttpResponse :=
  if (method req =? "OPTIONS")%string then
    ret {| status := 200; body := JStr "ok" |}
  else if negb (validateEnvironment env) then
    ret (json_response 500 [("error", JStr "Server configuration error")])
  else
    match text req with
    | Throw _ => ret (json_response 400 [("error", JStr "Invalid request body")])
    | Normal rawBody =>
        try_catch
          (let signatureResult := verifyPaddleSignature rt env nowMs req rawBody in
           if negb (sig_isValid signatureResult) then
             ret (json_response 401
                    [ ("error", JStr "Signature verification failed");
                      ("reason", JStr (sig_reason signatureResult)) ])
           else
             match
               match JSON_parse rt rawBody with
               | Some payload =>
                   bindC (Js.get payload "event_type") (fun _ =>
                   bindC (Js.get payload "event_id") (fun _ => Normal payload))
               | None => Throw "Unexpected token"
               end
             with
             | Throw _ =>
                 ret (json_response 400 [("error", JStr "Invalid JSON payload")])
             | Normal payload =>
                 validation <- lift (validateWebhookPayload payload) ;;
                 if negb (val_isValid validation) then
                   ret (json_response 400
                          [ ("error", JStr "Invalid payload structure");
                            ("details", JArr (map JStr (val_errors validation))) ])
                 else
                   event_type <- lift (Js.get payload "event_type") ;;
                   result <- route payload event_type ;;
                   ret (json_response 200
                          [ ("received", JBool (success result));
                            ("message",
                             JStr (or_default (result_message result)
                                              "Event processed successfully"));
                            ("requestId", JStr requestId) ])
             end)
          (fun _ =>
             ret (json_response 500
                    [ ("error", JStr "Internal server error");
                      ("requestId", JStr requestId) ]))
    end.

End Sync.

Arguments value {store A} r.
Arguments final {store A} r.
Arguments calls {store A} r.
Arguments state {store} w.
Arguments ticks {store} w.

(* ===================================================================== *)
(** ** A reference store and runtime, to run the handlers on examples *)

Module Reference.

(** Three tables of rows. *)
Record Tables : Type := {
  profiles : list (list (string * JValue));
  subscription_plans : list (list (string * JValue));
  user_subscriptions : list (list (string * JValue))
}.

(** The textual form of a value in a filter. *)
Fixpoint text_of (v : JValue) : string :=
  match v with
  | JUndefined => "undefined"
  | JNull => "null"
  | JBool true => "true"
  | JBool false => "false"
  | JNum n => NilZero.string_of_int (Z.to_int n)
  | JStr s => s
  | JArr xs =>
      (fix join (l : list JValue) : string :=
         match l with
         | [] => ""
         | x :: t =>
             let e := match x with
                      | JUndefined | JNull => ""
                      | _ => text_of x
                      end in
             match t with
             | [] => e
             | _ :: _ => e ++ "," ++ join t
             end
         end) xs
  | JObj _ => "[object Object]"
  end.

(** The [eq(column, v)] filter: PostgREST compares the textual forms. *)
Definition matches (column : string) (v : JValue) (row : list (string * JValue)) : bool :=
  (text_of (Js.lookup column row) =? text_of v)%string.

Definition has_key (k : string) (row : list (string * JValue)) : bool :=
  existsb (fun kv => (fst kv =? k)%string) row.

(** The columns of [upd] that are defined replace those of [row]. *)
Definition merge (upd row : list (string * JValue)) : list (string * JValue) :=
  let upd' := filter (fun kv => match snd kv with JUndefined => false | _ => true end) upd in
  upd' ++ filter (fun kv => negb (has_key (fst kv) upd')) row.

Definition fields_of (v : JValue) : list (string * JValue) :=
  match v with
  | JObj fields => fields
  | _ => []
  end.

Definition update_where (column : string) (v : JValue) (upd : list (string * JValue))
    (rows : list (list (string * JValue))) : list (list (string * JValue)) :=
  map (fun row => if matches column v row then merge upd row else row) rows.

Definition PGRST116 : PgError :=
  {| code := "PGRST116";
     message := "JSON object requested, multiple (or no) rows returned" |}.

(** [.single()]: exactly one row, or the error PGRST116. *)
Definition single (rows : list (list (string * JValue))) : Response :=
  match rows with
  | [row] => Data (JObj row)
  | _ => Failure PGRST116
  end.

Definition run_call (c : StoreCall) (t : Tables) : Response * Tables :=
  match c with
  | ProfilesSelectSingle uid =>
      (single (filter (matches "user_id" uid) (profiles t)), t)
  | PlansSelectSingle pid =>
      (single (filter (matches "paddle_product_id" pid) (subscription_plans t)), t)
  | ProfilesUpdateSingle row uid =>
      let rows := update_where "user_id" uid (fields_of row) (profiles t) in
      (single (filter (matches "user_id" uid) rows),
       {| profiles := rows;
          subscription_plans := subscription_plans t;
          user_subscriptions := user_subscriptions t |})
  | ProfilesInsertSingle row =>
      let new := merge (fields_of row) [("id", JStr "generated")] in
      (Data (JObj new),
       {| profiles := profiles t ++ [new];
          subscription_plans := subscription_plans t;
          user_subscriptions := user_subscriptions t |})
  | SubscriptionsUpsertSingle row =>
      let key := Js.lookup "paddle_subscription_id" (fields_of row) in
      let new := merge (fields_of row) [("id", JStr "generated")] in
      (Data (JObj new),
       {| profiles := profiles t;
          subscription_plans := subscription_plans t;
          user_subscriptions :=
            filter (fun r => negb (matches "paddle_subscription_id" key r))
                   (user_subscriptions t) ++ [new] |})
  | SubscriptionsUpdate row sid =>
      (Data JNull,
       {| profiles := profiles t;
          subscription_plans := subscription_plans t;
          user_subscriptions :=
            update_where "paddle_subscription_id" sid (fields_of row)
                         (user_subscriptions t) |})
  end.

Definition store : Store := {| db := Tables; exec := run_call |}.

Definition sum_codes (s : string) : nat :=
  fold_right (fun c acc => (nat_of_ascii c + acc)%nat) 0%nat (list_ascii_of_string s).

(** A stand-in for the keyed digest: the decimal sum of the code units of
    key and message, prefixed by a letter. *)
Definition digest (key msg : string) : option string :=
  Some ("C" ++ Js.decimal (sum_codes (key ++ msg))).

(** A stand-in for [Number(s) > 0]: decimal integers only. *)
Definition positive (s : string) : bool :=
  match JsString.parseInt s with
  | Some n => 0 <? n
  | None => false
  end.

Definition quote : string := String (ascii_of_nat 34) EmptyString.

(** The JSON text of a value whose strings need no escape. *)
Fixpoint stringify (v : JValue) : string :=
  match v with
  | JUndefined | JNull => "null"
  | JBool true => "true"
  | JBool false => "false"
  | JNum n => NilZero.string_of_int (Z.to_int n)
  | JStr s => quote ++ s ++ quote
  | JArr xs =>
      "[" ++ (fix elements (l : list JValue) : string :=
                match l with
                | [] => ""
                | [x] => stringify x
                | x :: t => stringify x ++ "," ++ elements t
                end) xs ++ "]"
  | JObj fields =>
      "{" ++ (fix members (l : list (string * JValue)) : string :=
                match l with
                | [] => ""
                | [(k, x)] => quote ++ k ++ quote ++ ":" ++ stringify x
                | (k, x) :: t =>
                    quote ++ k ++ quote ++ ":" ++ stringify x ++ "," ++ members t
                end) fields ++ "}"
  end.

(** A stand-in for the printing of numbers that are not safe: right for
    1e21. *)
Definition exponent (n : Z) : string := "1e+21".

(** A runtime whose parser reads back the texts of the given payloads. *)
Definition runtime (payloads : list JValue) : Runtime :=
  {| hmac_sha256_hex := digest;
     JSON_parse := fun s => find (fun v => (stringify v =? s)%string) payloads;
     number_gt_zero := positive;
     Number_toString := exponent |}.

Definition clock (k : nat) : string := "2025-01-01T00:00:0" ++ Js.decimal k ++ ".000Z".

Definition world (t : Tables) : World store := Build_World store t 0.

Definition production : Env :=
  {| PADDLE_WEBHOOK_SIGNING_SECRET := Some "whsec_k";
     APP_ENVIRONMENT_var := Some "production";
     SUPABASE_URL := Some "https://project.supabase.co";
     SUPABASE_SERVICE_ROLE_KEY := Some "service_role" |}.

Definition production_without_secret : Env :=
  {| PADDLE_WEBHOOK_SIGNING_SECRET := None;
     APP_ENVIRONMENT_var := Some "production";
     SUPABASE_URL := Some "https://project.supabase.co";
     SUPABASE_SERVICE_ROLE_KEY := Some "service_role" |}.

Definition development : Env :=
  {| PADDLE_WEBHOOK_SIGNING_SECRET := None;
     APP_ENVIRONMENT_var := None;
     SUPABASE_URL := Some "https://project.supabase.co";
     SUPABASE_SERVICE_ROLE_KEY := Some "service_role" |}.

(** A POST request with the given [Paddle-Signature] header and body. *)
Definition post (signature : option string) (rawBody : string) : Request :=
  {| method := "POST";
     headers_get := fun name =>
       if (JsString.toLowerCase name =? "paddle-signature")%string
       then signature else None;
     text := Normal rawBody |}.

(** A request signed for the body ["{}"] at second 1700000000, the digest
    written in lower case. *)
Definition signed : Request := post (Some "ts=1700000000;h1=c1534") "{}".

Definition premium_plan : JValue :=
  JObj [ ("id", JStr "plan_premium"); ("paddle_product_id", JStr "pro_premium_001");
         ("name", JStr "Premium") ].

Definition basic_plan : JValue :=
  JObj [ ("id", JStr "plan_basic"); ("paddle_product_id", JStr "pro_basic_001");
         ("name", JStr "Basic") ].

Definition plans : list (list (string * JValue)) :=
  [ fields_of basic_plan; fields_of premium_plan ].

Definition tables : Tables :=
  {| profiles :=
       [ [ ("id", JStr "p1"); ("user_id", JStr "user_1");
           ("email", JStr "ann@example.org"); ("full_name", JStr "Ann Lee");
           ("subscription_status", JStr "active");
           ("subscription_plan", JStr "premium") ] ];
     subscription_plans := plans;
     user_subscriptions := [] |}.


Definition event (event_type : string) (data : list (string * JValue)) : JValue :=
  JObj [ ("event_type", JStr event_type); ("event_id", JStr "evt_1");
         ("data", JObj data) ].

(** A new user subscribes to the premium plan. *)
Definition created : JValue :=
  event "subscription.created"
    [ ("id", JStr "sub_1"); ("customer_id", JStr "ctm_1"); ("status", JStr "active");
      ("items", JArr [JObj [ ("price_id", JStr "pri_premium");
                             ("product_id", JStr "pro_premium_001") ]]);
      ("custom_data", JObj [ ("userId", JStr "user_2");
                             ("email", JStr "bo@example.org") ]) ].

(** A subscription to a product no plan has. *)
Definition created_unknown_product : JValue :=
  event "subscription.created"
    [ ("id", JStr "sub_2"); ("status", JStr "active");
      ("items", JArr [JObj [ ("price_id", JStr "pri_invalid_product_id") ]]);
      ("custom_data", JObj [ ("userId", JStr "user_2") ]) ].


(** A subscription to the plan without a name. *)
Definition created_unnamed_plan : JValue :=
  event "subscription.created"
    [ ("id", JStr "sub_4"); ("status", JStr "active");
      ("items", JArr [JObj [ ("product_id", JStr "pro_x") ]]);
      ("custom_data", JObj [ ("userId", JStr "user_1") ]) ].

(** The known user cancels; the event carries neither email nor name. *)
Definition canceled : JValue :=
  event "subscription.canceled"
    [ ("id", JStr "sub_1"); ("customer_id", JStr "ctm_1");
      ("current_billing_period", JObj [ ("ends_at", JStr "2025-02-01T00:00:00.000Z") ]);
      ("custom_data", JObj [ ("userId", JStr "user_1") ]) ].





(** A purchase whose first line item is [null]. *)
Definition purchase_null_item : JValue :=
  event "transaction.completed"
    [ ("id", JStr "txn_5"); ("items", JArr [JNull]);
      ("custom_data", JObj [ ("userId", JStr "user_1") ]) ].

End Reference.

(* ===================================================================== *)
(** ** Vocabulary of the properties *)

(** [customData] and [userId] as the three handlers compute them. *)
Definition customData_of (payload : JValue) : JValue :=
  Js.or (Js.opt_get (Js.opt_get payload "data") "custom_data") (JObj []).

Definition userId_of (payload : JValue) : JValue :=
  Js.opt_get (customData_of payload) "userId".

(** The user validation passed. *)
Definition passed {store : Store} (r : Run store UserValidation) : bool :=
  match value r with
  | Normal v => uv_isValid v
  | Throw _ => false
  end.

(** The plan lookup found no plan: an error, or no row. *)
Definition no_plan (resp : Response) : bool :=
  match resp with
  | Failure _ => true
  | Data plan => negb (Js.truthy plan)
  end.

(** The world after one more store call. *)
Definition after {store : Store} (c : StoreCall) (w : World store) : World store :=
  Build_World store (snd (exec store c (state w))) (ticks w).

(** The world after one more clock reading. *)
Definition tick {store : Store} (w : World store) : World store :=
  Build_World store (state w) (S (ticks w)).

(** The run [r], after the calls [cs] were made. *)
Definition prepend {store : Store} {A : Type} (cs : list StoreCall) (r : Run store A)
  : Run store A :=
  Build_Run store A (value r) (final r) (cs ++ calls r).

(** None of the calls writes. *)
Definition read_only (cs : list StoreCall) : Prop :=
  Forall (fun c => is_write c = false) cs.

(** A profile row carries the defaults for the fields [customData] lacks. *)
Definition defaults_written (customData : JValue) (c : StoreCall) : Prop :=
  forall row, profile_row c = Some row ->
    (Js.truthy (Js.opt_get customData "email") = false ->
     Js.opt_get row "email" = JStr "unknown@example.com")
    /\ (Js.truthy (Js.opt_get customData "full_name") = false ->
        Js.opt_get row "full_name" = JStr "Unknown User").





(** The plan name as [upsertUserProfile] stores it. *)
Definition stored_plan (name : string) : JValue :=
  Js.or (JStr (JsString.toLowerCase name)) (JStr "unknown").

(* ===================================================================== *)
(** ** The logger *)

Module Logger.

Record LogEntry : Type := {
  log_timestamp : string;
  log_level : string;
  log_message : string;
  log_data : option string;
  log_requestId : string
}.

(** A call on [console]: the method, the line, the second argument. *)
Record ConsoleCall : Type := {
  console_method : string;
  console_line : string;
  console_data : JValue
}.

Definition maxLogs : nat := 100.

(** What one [addLog] reads from the platform: [new Date().toISOString()],
    [Math.random().toString(36).substring(2, 15)], and
    [JSON.stringify(data, null, 2)]. *)
Record Reading : Type := {
  now : string;
  random : string;
  stringify : JValue -> string
}.

(** [level.toUpperCase()] on the level names, which are ASCII. *)
Definition upper_char (c : ascii) : ascii :=
  let n := nat_of_ascii c in
  if ((97 <=? n) && (n <=? 122))%nat then ascii_of_nat (n - 32) else c.

Fixpoint toUpperCase (s : string) : string :=
  match s with
  | EmptyString => EmptyString
  | String c rest => String (upper_char c) (toUpperCase rest)
  end.

(** [addLog(level, message, data)] on the array [logs]: the array it
    leaves and the line it prints. *)
Definition addLog (r : Reading) (level message : string) (data : JValue)
    (logs : list LogEntry) : list LogEntry * ConsoleCall :=
  let logEntry :=
    {| log_timestamp := now r;
       log_level := level;
       log_message := message;
       log_data := if Js.truthy data then Some (stringify r data) else None;
       log_requestId := random r |} in
  let pushed := (logs ++ [logEntry])%list in
  let kept := if (maxLogs <? List.length pushed)%nat
              then skipn (List.length pushed - maxLogs) pushed
              else pushed in
  let consoleMethod :=
    if (level =? "error")%string then "error"
    else if (level =? "warn")%string then "warn" else "log" in
  (kept,
   {| console_method := consoleMethod;
      console_line := "[WEBHOOK " ++ toUpperCase level ++ "] ["
                      ++ log_requestId logEntry ++ "] " ++ message;
      console_data := Js.or data (JStr "") |}).

Definition info := fun r => addLog r "info".
Definition warn := fun r => addLog r "warn".
Definition error := fun r => addLog r "error".
Definition debug := fun r => addLog r "debug".
Definition critical := fun r => addLog r "critical".

(** One call of a public method, as data: the reading it makes, the method
    (its level), the message and the data. *)
Record Call : Type := {
  call_reading : Reading;
  call_level : string;
  call_message : string;
  call_data : JValue
}.

(** The entry a call pushes. *)
Definition entry_of (c : Call) : LogEntry :=
  {| log_timestamp := now (call_reading c);
     log_level := call_level c;
     log_message := call_message c;
     log_data := if Js.truthy (call_data c)
                 then Some (stringify (call_reading c) (call_data c)) else None;
     log_requestId := random (call_reading c) |}.

(** The array after a sequence of calls. *)
Definition after_calls (cs : list Call) (logs : list LogEntry) : list LogEntry :=
  fold_left
    (fun logs c => fst (addLog (call_reading c) (call_level c) (call_message c)
                          (call_data c) logs))
    cs logs.

End Logger.

(* ===================================================================== *)
(** ** Vocabulary of the further properties *)

(** The character [sep] does not occur in [s]. *)
Fixpoint free (sep : ascii) (s : string) : bool :=
  match s with
  | EmptyString => true
  | String c rest => negb (Ascii.eqb c sep) && free sep rest
  end.

(** A header field value: no [;] and no [=] in it. *)
Definition plain (s : string) : bool := free ";" s && free "=" s.

(** The header a sender writes. *)
Definition signature_header (ts h1 : string) : string :=
  "ts=" ++ ts ++ ";h1=" ++ h1.

(** The place of a call in the order the handlers follow. *)
Definition rank (c : StoreCall) : nat :=
  match c with
  | ProfilesSelectSingle _ => 0
  | PlansSelectSingle _ => 1
  | ProfilesUpdateSingle _ _ => 2
  | ProfilesInsertSingle _ => 3
  | SubscriptionsUpsertSingle _ => 4
  | SubscriptionsUpdate _ _ => 5
  end.

(** The ranks of [cs] are at least [lo] and strictly increasing. *)
Fixpoint increasing (lo : nat) (cs : list StoreCall) : Prop :=
  match cs with
  | [] => True
  | c :: rest => (lo <= rank c)%nat /\ increasing (S (rank c)) rest
  end.

(** The event types with a handler of their own. *)
Definition handled (event_type : string) : bool :=
  ((event_type =? "subscription.created") || (event_type =? "subscription.updated")
   || (event_type =? "transaction.completed")
   || (event_type =? "subscription.canceled"))%string.

(** The reasons of a signature failure that reach a response. *)
Definition rejection_reasons : list string :=
  [ "missing_signature_header"; "invalid_signature_format"; "invalid_timestamp";
    "timestamp_too_old"; "signature_mismatch"; "hmac_computation_error" ].

(** The status of the answer, when there is one. *)
Definition status_of (c : Completion HttpResponse) : option Z :=
  match c with
  | Normal resp => Some (status resp)
  | Throw _ => None
  end.

(** ** Further scenarios on the reference store *)

Module Scenarios.

Import Reference.

(** A store that is down: every call fails with a connection error. *)
Definition connection_failure : PgError :=
  {| code := "08006"; message := "connection failure" |}.

Definition store_down : Store :=
  {| db := unit; exec := fun _ t => (Failure connection_failure, t) |}.

Definition world_down : World store_down := Build_World store_down tt 0.

(** The tables, with a plan that has no [name] column. *)
Definition tables_nameless_plan : Tables :=
  {| profiles := profiles tables;
     subscription_plans :=
       [ [ ("id", JStr "plan_x"); ("paddle_product_id", JStr "pro_x") ] ];
     user_subscriptions := [] |}.

(** An event of a type that has no handler. *)
Definition adjusted : JValue :=
  event "adjustment.created"
    [ ("id", JStr "adj_1"); ("custom_data", JObj [ ("userId", JStr "user_1") ]) ].

(** An event without its identifier and without a user. *)
Definition incomplete : JValue :=
  JObj [ ("event_type", JStr "subscription.created");
         ("data", JObj [ ("id", JStr "sub_9") ]) ].

(** A value no template literal can print: an object with a member of its
    own named [toString]. *)
Definition unprintable : JValue := JObj [ ("toString", JNum 1) ].

(** A subscription whose product identifier is such an object. *)
Definition created_unprintable_product : JValue :=
  event "subscription.created"
    [ ("id", JStr "sub_5"); ("status", JStr "active");
      ("items", JArr [JObj [ ("product_id", unprintable) ]]);
      ("custom_data", JObj [ ("userId", JStr "user_2") ]) ].

(** A subscription to the premium plan whose status is such an object. *)
Definition created_unprintable_status : JValue :=
  event "subscription.created"
    [ ("id", JStr "sub_6"); ("status", unprintable);
      ("items", JArr [JObj [ ("product_id", JStr "pro_premium_001") ]]);
      ("custom_data", JObj [ ("userId", JStr "user_2") ]) ].


(** A request signed by the sender for the body ["{}"] at second 1000. *)
Definition sent : Request := post (Some (signature_header "1000" "C1239")) "{}".

(** A request with a digest of the wrong key. *)
Definition forged : Request := post (Some "ts=1700000000;h1=ffff") "{}".

(** The [k]-th call on the logger. *)
Definition logged (k : nat) : Logger.Call :=
  {| Logger.call_reading :=
       {| Logger.now := clock k; Logger.random := "r" ++ Js.decimal k;
          Logger.stringify := stringify |};
     Logger.call_level := "info";
     Logger.call_message := "message " ++ Js.decimal k;
     Logger.call_data := JUndefined |}.

End Scenarios.

(* ===================================================================== *)
(** * Properties *)

(* ===================================================================== *)
(** ** Signature verification *)

(** C1.  Outside production the verifier reports the development bypass
    whatever the request is; in production without a signing secret it
    fails with [missing_signing_secret]; and in production the bypass
    reason is never reported. *)
Theorem verify_environment_gate
    (rt : Runtime) (env : Env) (nowMs : Z) (req : Request) (rawBody : string) :
  (APP_ENVIRONMENT env <> "production" ->
   verifyPaddleSignature rt env nowMs req rawBody
   = {| sig_isValid := true; sig_reason := "bypassed_for_development" |})
  /\ (APP_ENVIRONMENT env = "production" ->
      present (PADDLE_WEBHOOK_SIGNING_SECRET env) = false ->
      verifyPaddleSignature rt env nowMs req rawBody
      = {| sig_isValid := false; sig_reason := "missing_signing_secret" |})
  /\ (APP_ENVIRONMENT env = "production" ->
      sig_reason (verifyPaddleSignature rt env nowMs req rawBody)
      <> "bypassed_for_development").
Proof.
  unfold verifyPaddleSignature. repeat split.
  - intros Hdev. apply String.eqb_neq in Hdev. now rewrite Hdev.
  - intros Hprod Hsecret. now rewrite Hprod, Hsecret.
  - intros Hprod. rewrite Hprod, String.eqb_refl. cbn [negb].
    repeat match goal with
           | |- context [if ?b then _ else _] => destruct b
           | |- context [match ?o with Some _ => _ | None => _ end] => destruct o
           end; cbn; discriminate.
Qed.

Section ProductionRequest.

Variable rt : Runtime.
Variable env : Env.
Variable nowMs : Z.
Variable req : Request.
Variables secret header : string.

Hypothesis production : APP_ENVIRONMENT env = "production".
Hypothesis secret_configured : PADDLE_WEBHOOK_SIGNING_SECRET env = Some secret.
Hypothesis secret_nonempty : secret <> "".
Hypothesis header_received : headers_get req "Paddle-Signature" = Some header.


(** With the configuration and the header in place, the verifier is at its
    parsing step. *)
Lemma verify_at_parsing (rawBody : string) :
  header <> "" ->
  verifyPaddleSignature rt env nowMs req rawBody =
  if negb (present (header_ts header)) || negb (present (header_h1 header))
  then {| sig_isValid := false; sig_reason := "invalid_signature_format" |}
  else
    let timestampStr := match header_ts header with Some s => s | None => "" end in
    let h1Hash := match header_h1 header with Some s => s | None => "" end in
    match JsString.parseInt timestampStr with
    | None => {| sig_isValid := false; sig_reason := "invalid_timestamp" |}
    | Some timestamp =>
        if WEBHOOK_TIMESTAMP_TOLERANCE_SECONDS <? Z.abs (nowMs / 1000 - timestamp) then
          {| sig_isValid := false; sig_reason := "timestamp_too_old" |}
        else
          match hmac_sha256_hex rt secret (timestampStr ++ ":" ++ rawBody) with
          | Some computedHash =>
              let isValid := (JsString.toLowerCase computedHash
                              =? JsString.toLowerCase h1Hash)%string in
              {| sig_isValid := isValid;
                 sig_reason := if isValid then "valid" else "signature_mismatch" |}
          | None => {| sig_isValid := false; sig_reason := "hmac_computation_error" |}
          end
    end.
Proof.
  intros Hne. unfold verifyPaddleSignature, header_ts, header_h1.
  rewrite production, secret_configured, header_received.
  rewrite String.eqb_refl. cbn [negb present].
  apply String.eqb_neq in secret_nonempty, Hne.
  rewrite secret_nonempty, Hne. reflexivity.
Qed.

(** A header in which a field was found is not empty. *)
Lemma field_found_nonempty (p v : string) :
  p <> "" -> header_field p (JsString.split ";" header) = Some v -> header <> "".
Proof.
  intros Hp Hf ->. unfold header_field in Hf. cbn in Hf.
  destruct p as [|c p]; [congruence|]. cbn in Hf. discriminate.
Qed.

Lemma parseInt_empty : JsString.parseInt "" = None.
Proof. reflexivity. Qed.

(** C4 (amended).  In production, with a secret configured and a header
    received: a header without a non-empty [ts] field or without a non-empty
    [h1] field is rejected with [invalid_signature_format]; a header with
    both whose [ts] does not start with an integer is rejected with
    [invalid_timestamp]. *)
Theorem malformed_header_rejected (rawBody : string) :
  header <> "" ->
  (present (header_ts header) = false
   \/ present (header_h1 header) = false ->
   verifyPaddleSignature rt env nowMs req rawBody
   = {| sig_isValid := false; sig_reason := "invalid_signature_format" |})
  /\ (forall ts h1,
        header_ts header = Some ts -> ts <> "" ->
        header_h1 header = Some h1 -> h1 <> "" ->
        JsString.parseInt ts = None ->
        verifyPaddleSignature rt env nowMs req rawBody
        = {| sig_isValid := false; sig_reason := "invalid_timestamp" |}).
Proof.
  intros Hne. rewrite verify_at_parsing by exact Hne. split.
  - intros [H | H]; rewrite H; [reflexivity | now rewrite orb_true_r].
  - intros ts h1 Hts Hts_ne Hh1 Hh1_ne Hnan.
    rewrite Hts, Hh1. cbn [present].
    apply String.eqb_neq in Hts_ne, Hh1_ne. rewrite Hts_ne, Hh1_ne.
    cbn [negb orb]. cbv zeta. now rewrite Hnan.
Qed.

Variables ts h1 : string.
Variable timestamp : Z.

Hypothesis ts_field : header_ts header = Some ts.
Hypothesis h1_field : header_h1 header = Some h1.
Hypothesis h1_nonempty : h1 <> "".
Hypothesis ts_parsed : JsString.parseInt ts = Some timestamp.

Lemma verify_at_window (rawBody : string) :
  verifyPaddleSignature rt env nowMs req rawBody =
  if WEBHOOK_TIMESTAMP_TOLERANCE_SECONDS <? Z.abs (nowMs / 1000 - timestamp) then
    {| sig_isValid := false; sig_reason := "timestamp_too_old" |}
  else
    match hmac_sha256_hex rt secret (ts ++ ":" ++ rawBody) with
    | Some computedHash =>
        let isValid := (JsString.toLowerCase computedHash
                        =? JsString.toLowerCase h1)%string in
        {| sig_isValid := isValid;
           sig_reason := if isValid then "valid" else "signature_mismatch" |}
    | None => {| sig_isValid := false; sig_reason := "hmac_computation_error" |}
    end.
Proof.
  rewrite verify_at_parsing
    by (apply (field_found_nonempty "ts=" ts); [discriminate | exact ts_field]).
  rewrite ts_field, h1_field. cbn [present].
  assert (Hts : (ts =? "")%string = false).
  { apply String.eqb_neq. intros ->. rewrite parseInt_empty in ts_parsed. discriminate. }
  apply String.eqb_neq in h1_nonempty. rewrite Hts, h1_nonempty. cbn [negb orb].
  cbv zeta. rewrite ts_parsed. reflexivity.
Qed.

(** C2.  In production, for a header whose timestamp is within 300 seconds
    of the clock, verification succeeds exactly when the lower-cased [h1]
    equals the lower-cased digest of ["<ts>:<rawBody>"] under the secret;
    it then reports [valid], and otherwise [signature_mismatch].  So a body
    changed into one whose digest differs from that of the signed body is
    rejected with [signature_mismatch]. *)
Theorem signature_valid_iff_hmac_matches (rawBody computedHash : string) :
  Z.abs (nowMs / 1000 - timestamp) <= 300 ->
  hmac_sha256_hex rt secret (ts ++ ":" ++ rawBody) = Some computedHash ->
  let r := verifyPaddleSignature rt env nowMs req rawBody in
  (sig_isValid r = true
   <-> JsString.toLowerCase computedHash = JsString.toLowerCase h1)
  /\ (sig_isValid r = true -> sig_reason r = "valid")
  /\ (sig_isValid r = false -> sig_reason r = "signature_mismatch")
  /\ (forall rawBody' computedHash',
         sig_isValid r = true ->
         hmac_sha256_hex rt secret (ts ++ ":" ++ rawBody') = Some computedHash' ->
         JsString.toLowerCase computedHash' <> JsString.toLowerCase computedHash ->
         verifyPaddleSignature rt env nowMs req rawBody'
         = {| sig_isValid := false; sig_reason := "signature_mismatch" |}).
Proof.
  intros Hwin Hmac r.
  assert (Hlt : (WEBHOOK_TIMESTAMP_TOLERANCE_SECONDS <? Z.abs (nowMs / 1000 - timestamp)) = false).
  { apply Z.ltb_ge. exact Hwin. }
  assert (Hr : r = {| sig_isValid := (JsString.toLowerCase computedHash
                                      =? JsString.toLowerCase h1)%string;
                      sig_reason := if (JsString.toLowerCase computedHash
                                        =? JsString.toLowerCase h1)%string
                                    then "valid" else "signature_mismatch" |}).
  { subst r. rewrite verify_at_window, Hlt, Hmac. reflexivity. }
  rewrite Hr. cbn [sig_isValid sig_reason].
  split; [apply String.eqb_eq|].
  split; [intros ->; reflexivity|].
  split; [intros ->; reflexivity|].
  intros rawBody' computedHash' Hvalid Hmac' Hdiff.
  apply String.eqb_eq in Hvalid.
  rewrite verify_at_window, Hlt, Hmac'. cbv zeta.
  rewrite <- Hvalid. apply String.eqb_neq in Hdiff. now rewrite Hdiff.
Qed.

(** C3.  In production, a header whose timestamp is more than 300 seconds
    away from the clock, in the past or in the future, is rejected with
    [timestamp_too_old], whatever the body and whatever the digest is. *)
Theorem stale_timestamp_rejected (rawBody : string) :
  300 < Z.abs (nowMs / 1000 - timestamp) ->
  verifyPaddleSignature rt env nowMs req rawBody
  = {| sig_isValid := false; sig_reason := "timestamp_too_old" |}.
Proof.
  intros Hout. rewrite verify_at_window.
  apply Z.ltb_lt in Hout. unfold WEBHOOK_TIMESTAMP_TOLERANCE_SECONDS.
  now rewrite Hout.
Qed.

End ProductionRequest.

(* ===================================================================== *)
(** ** Runs of the store monad *)

Section Runs.

Variable rt : Runtime.
Variable store : Store.
Variable clock : nat -> string.

(** Every call of every run of [m] satisfies [P]. *)
Local Notation "m 'only_calls' P" := (forall w : World store, Forall P (calls (m w)))
  (at level 70).

Lemma get_cases (v : JValue) (k : string) :
  (exists e, Js.get v k = Throw e /\ Js.truthy v = false)
  \/ Js.get v k = Normal (Js.opt_get v k).
Proof. destruct v; cbn; eauto. Qed.

Lemma get_truthy (v : JValue) (k : string) :
  Js.truthy v = true -> Js.get v k = Normal (Js.opt_get v k).
Proof. destruct v; cbn; intros; congruence. Qed.

Lemma truthy_or_object (v : JValue) (fields : list (string * JValue)) :
  Js.truthy (Js.or v (JObj fields)) = true.
Proof. unfold Js.or. destruct (Js.truthy v) eqn:E; [exact E | reflexivity]. Qed.


Lemma only_ret {A} (P : StoreCall -> Prop) (a : A) : ret store a only_calls P.
Proof. intros w. constructor. Qed.

Lemma only_lift {A} (P : StoreCall -> Prop) (c : Completion A) :
  lift store c only_calls P.
Proof. intros w. destruct c; constructor. Qed.

Lemma only_clock (P : StoreCall -> Prop) : Date_toISOString store clock only_calls P.
Proof. intros w. constructor. Qed.

Lemma only_call (P : StoreCall -> Prop) (c : StoreCall) :
  P c -> call store c only_calls P.
Proof.
  intros Hc w. unfold call. destruct (exec store c (state w)). cbn. auto.
Qed.

Lemma only_bind {A B} (P : StoreCall -> Prop) (m : M store A) (f : A -> M store B) :
  m only_calls P -> (forall a, f a only_calls P) -> bind store m f only_calls P.
Proof.
  intros Hm Hf w. unfold bind. specialize (Hm w).
  destruct (value (m w)); cbn; [apply Forall_app; split; auto | exact Hm].
Qed.

Lemma only_try {A} (P : StoreCall -> Prop) (m : M store A) (h : string -> M store A) :
  m only_calls P -> (forall e, h e only_calls P) -> try_catch store m h only_calls P.
Proof.
  intros Hm Hh w. unfold try_catch. specialize (Hm w).
  destruct (value (m w)); cbn; [exact Hm | apply Forall_app; split; auto].
Qed.

(** A property of the value read is enough after [v.k]. *)
Lemma only_get {B} (P : StoreCall -> Prop) (v : JValue) (k : string)
    (f : JValue -> M store B) :
  f (Js.opt_get v k) only_calls P ->
  bind store (lift store (Js.get v k)) f only_calls P.
Proof.
  intros Hf w. unfold bind.
  destruct (get_cases v k) as [(e & -> & _) | ->]; cbn; [constructor | apply Hf].
Qed.

(** *** [validateUser] *)

Lemma validateUser_calls (userId : JValue) (w : World store) :
  calls (validateUser store userId w) = [ProfilesSelectSingle userId].
Proof.
  unfold validateUser, try_catch, bind, call.
  destruct (exec store (ProfilesSelectSingle userId) (state w)) as [[profile|error] st]; cbn.
  - destruct (Js.get profile "id"); reflexivity.
  - destruct (code error =? "PGRST116")%string; reflexivity.
Qed.

Lemma validateUser_returns (userId : JValue) (w : World store) :
  exists v, value (validateUser store userId w) = Normal v.
Proof.
  unfold validateUser, try_catch, bind, call.
  destruct (exec store (ProfilesSelectSingle userId) (state w)) as [[profile|error] st]; cbn.
  - destruct (Js.get profile "id"); cbn; eauto.
  - destruct (code error =? "PGRST116")%string; cbn; eauto.
Qed.

Lemma validateUser_only (P : StoreCall -> Prop) (userId : JValue) :
  P (ProfilesSelectSingle userId) -> validateUser store userId only_calls P.
Proof. intros HP w. rewrite validateUser_calls. auto. Qed.

(** *** [upsertUserProfile] *)

(** The profile writes of [upsertUserProfile] carry a row built by
    [profileData], with or without [created_at]. *)
Lemma upsertUserProfile_only (P : StoreCall -> Prop)
    (userId customData : JValue) (subscriptionData : ProfileSubscriptionData) :
  (forall updated_at,
     let row := profileData userId (Js.opt_get customData "email")
                  (Js.opt_get customData "full_name") subscriptionData updated_at in
     P (ProfilesUpdateSingle (JObj row) userId)
     /\ forall created_at,
          P (ProfilesInsertSingle (JObj (row ++ [("created_at", JStr created_at)])))) ->
  upsertUserProfile store clock userId customData subscriptionData only_calls P.
Proof.
  intros HP. unfold upsertUserProfile.
  apply only_try; [|intros; apply only_ret].
  apply only_get, only_get, only_bind; [apply only_clock|]. intros updated_at.
  destruct (HP updated_at) as [Hupdate Hinsert].
  apply only_bind; [apply only_call, Hupdate|]. intros [updatedProfile | updateError].
  - apply only_bind; [apply only_lift | intros; apply only_ret].
  - destruct (code updateError =? "PGRST116")%string; [|apply only_ret].
    apply only_bind; [apply only_clock|]. intros created_at.
    apply only_bind; [apply only_call, Hinsert|]. intros [newProfile | createError].
    + apply only_bind; [apply only_lift | intros; apply only_ret].
    + apply only_ret.
Qed.

(** *** [upsertSubscription] *)

Lemma upsertSubscription_only (P : StoreCall -> Prop) (sd : SubscriptionData) :
  (forall row, P (SubscriptionsUpsertSingle row)) ->
  upsertSubscription store clock sd only_calls P.
Proof.
  intros HP. unfold upsertSubscription.
  apply only_try; [|intros; apply only_ret].
  apply only_bind; [apply only_clock|]. intros updated_at.
  apply only_bind; [apply only_call, HP|]. intros [subscription | error].
  - apply only_bind; [apply only_lift | intros; apply only_ret].
  - apply only_ret.
Qed.

(** Walks through a handler, leaving the store calls and the helpers. *)
Ltac walk :=
  repeat first
    [ simple apply only_ret
    | simple apply only_lift
    | simple apply only_clock
    | simple apply only_get
    | simple apply only_bind; [|intros ?]
    | match goal with
      | |- forall w, Forall _ (calls ((if ?b then _ else _) w)) => destruct b
      | |- forall w, Forall _ (calls (match ?r with Data _ => _ | Failure _ => _ end w)) =>
          destruct r
      end
    | progress cbv zeta ].

Lemma defaults_in_profileData (userId customData : JValue)
    (sd : ProfileSubscriptionData) (updated_at : string)
    (extra : list (string * JValue)) (c : StoreCall) :
  profile_row c
  = Some (JObj (profileData userId (Js.opt_get customData "email")
                  (Js.opt_get customData "full_name") sd updated_at ++ extra)) ->
  defaults_written customData c.
Proof.
  intros Hc row Hrow. rewrite Hc in Hrow. injection Hrow as <-.
  unfold profileData, Js.or. cbn.
  split; intros ->; reflexivity.
Qed.

Lemma upsertUserProfile_defaults (userId customData : JValue)
    (sd : ProfileSubscriptionData) :
  upsertUserProfile store clock userId customData sd
  only_calls defaults_written customData.
Proof.
  apply upsertUserProfile_only. intros updated_at row. split.
  - apply (defaults_in_profileData userId customData sd updated_at []).
    subst row. cbn [profile_row]. now rewrite app_nil_r.
  - intros created_at.
    now apply (defaults_in_profileData userId customData sd updated_at
                 [("created_at", JStr created_at)]).
Qed.

Lemma defaults_vacuous (customData : JValue) (c : StoreCall) :
  profile_row c = None -> defaults_written customData c.
Proof. intros Hc row Hrow. congruence. Qed.

(** *** Equations of runs *)

Lemma prepend_nil {A} (r : Run store A) : prepend [] r = r.
Proof. now destruct r. Qed.

Lemma prepend_prepend {A} (cs cs' : list StoreCall) (r : Run store A) :
  prepend cs (prepend cs' r) = prepend (cs ++ cs') r.
Proof. unfold prepend. cbn [value final calls]. now rewrite app_assoc. Qed.

Lemma bind_normal {A B} (m : M store A) (f : A -> M store B) (w : World store) (a : A) :
  value (m w) = Normal a ->
  bind store m f w = prepend (calls (m w)) (f a (final (m w))).
Proof. intros H. unfold bind. now rewrite H. Qed.

Lemma bind_throw {A B} (m : M store A) (f : A -> M store B) (w : World store) (e : string) :
  value (m w) = Throw e ->
  bind store m f w = Build_Run store B (Throw e) (final (m w)) (calls (m w)).
Proof. intros H. unfold bind. now rewrite H. Qed.

Lemma bind_ret {A B} (a : A) (f : A -> M store B) (w : World store) :
  bind store (ret store a) f w = f a w.
Proof. rewrite (bind_normal _ _ _ a) by reflexivity. apply prepend_nil. Qed.

Lemma bind_get {B} (v : JValue) (k : string) (f : JValue -> M store B) (w : World store) :
  Js.truthy v = true ->
  bind store (lift store (Js.get v k)) f w = f (Js.opt_get v k) w.
Proof. intros Hv. rewrite (get_truthy v k Hv). apply bind_ret. Qed.

Lemma bind_clock {B} (f : string -> M store B) (w : World store) :
  bind store (Date_toISOString store clock) f w = f (clock (ticks w)) (tick w).
Proof. rewrite (bind_normal _ _ _ (clock (ticks w))) by reflexivity. apply prepend_nil. Qed.

Lemma bind_call {B} (c : StoreCall) (f : Response -> M store B) (w : World store) :
  bind store (call store c) f w
  = prepend [c] (f (fst (exec store c (state w))) (after c w)).
Proof.
  unfold bind, call, after, prepend.
  destruct (exec store c (state w)) as [resp st]. reflexivity.
Qed.

Lemma try_normal {A} (m : M store A) (h : string -> M store A) (w : World store) (a : A) :
  value (m w) = Normal a -> try_catch store m h w = m w.
Proof. intros H. unfold try_catch. now rewrite H. Qed.

Lemma calls_try_ret {A} (m : M store A) (g : string -> A) (w : World store) :
  calls (try_catch store m (fun e => ret store (g e)) w) = calls (m w).
Proof.
  unfold try_catch. destruct (value (m w)); cbn [calls ret]; [reflexivity | apply app_nil_r].
Qed.

Lemma calls_bind_lift_ret {A B} (c : Completion A) (g : A -> B) (w : World store) :
  calls (bind store (lift store c) (fun a => ret store (g a)) w) = [].
Proof. now destruct c. Qed.

(** With a [customData] that is an object, the first call is the update,
    and an insert follows it or nothing does. *)
Lemma upsertUserProfile_calls (userId customData : JValue)
    (sd : ProfileSubscriptionData) (w : World store) :
  Js.truthy customData = true ->
  let row := profileData userId (Js.opt_get customData "email")
               (Js.opt_get customData "full_name") sd (clock (ticks w)) in
  calls (upsertUserProfile store clock userId customData sd w)
  = [ProfilesUpdateSingle (JObj row) userId]
  \/ calls (upsertUserProfile store clock userId customData sd w)
     = [ProfilesUpdateSingle (JObj row) userId;
        ProfilesInsertSingle
          (JObj (row ++ [("created_at", JStr (clock (S (ticks w))))]))].
Proof.
  intros Hcd row. unfold upsertUserProfile. rewrite calls_try_ret.
  rewrite !bind_get by exact Hcd. rewrite bind_clock. cbv zeta. fold row.
  rewrite bind_call. cbn [prepend calls app].
  destruct (fst (exec store (ProfilesUpdateSingle (JObj row) userId) (state (tick w))))
    as [updatedProfile | updateError].
  - left. now rewrite calls_bind_lift_ret.
  - destruct (code updateError =? "PGRST116")%string; [|now left].
    right. rewrite bind_clock, bind_call. cbn [prepend calls app].
    destruct (fst (exec store _ _)) as [newProfile | createError].
    + now rewrite calls_bind_lift_ret.
    + reflexivity.
Qed.

Lemma handleSubscriptionEvent_defaults (payload : JValue) :
  handleSubscriptionEvent rt store clock payload
  only_calls defaults_written (customData_of payload).
Proof.
  unfold handleSubscriptionEvent. walk.
  - now apply validateUser_only, defaults_vacuous.
  - now apply only_call, defaults_vacuous.
  - apply upsertUserProfile_defaults.
  - apply upsertSubscription_only. intros row. now apply defaults_vacuous.
Qed.

Lemma handleTransactionCompleted_defaults (payload : JValue) :
  handleTransactionCompleted rt store clock payload
  only_calls defaults_written (customData_of payload).
Proof.
  unfold handleTransactionCompleted. walk.
  - now apply validateUser_only, defaults_vacuous.
  - now apply only_call, defaults_vacuous.
  - apply upsertUserProfile_defaults.
Qed.

Lemma handleSubscriptionCanceled_defaults (payload : JValue) :
  handleSubscriptionCanceled rt store clock payload
  only_calls defaults_written (customData_of payload).
Proof.
  unfold handleSubscriptionCanceled. walk.
  - now apply validateUser_only, defaults_vacuous.
  - apply upsertUserProfile_defaults.
  - now apply only_call, defaults_vacuous.
Qed.

(** C10.  On the subscription, the transaction and the cancellation path,
    every profile row written, by the update of an existing profile or by
    the insert of a new one, has [email] set to ["unknown@example.com"] when
    the event's [custom_data] lacks [email], and [full_name] set to
    ["Unknown User"] when it lacks [full_name]; and the upsert always starts
    with the update, so an existing profile gets these values. *)
Theorem profile_defaults_overwrite (payload : JValue) (w : World store) :
  Forall (defaults_written (customData_of payload))
         (calls (handleSubscriptionEvent rt store clock payload w))
  /\ Forall (defaults_written (customData_of payload))
            (calls (handleTransactionCompleted rt store clock payload w))
  /\ Forall (defaults_written (customData_of payload))
            (calls (handleSubscriptionCanceled rt store clock payload w))
  /\ (forall (userId customData : JValue) (sd : ProfileSubscriptionData),
        Js.truthy customData = true ->
        exists row rest,
          calls (upsertUserProfile store clock userId customData sd w)
          = ProfilesUpdateSingle row userId :: rest
          /\ defaults_written customData (ProfilesUpdateSingle row userId)).
Proof.
  split; [apply handleSubscriptionEvent_defaults|].
  split; [apply handleTransactionCompleted_defaults|].
  split; [apply handleSubscriptionCanceled_defaults|].
  intros userId customData sd Hcd.
  destruct (upsertUserProfile_calls userId customData sd w Hcd) as [-> | ->];
    do 2 eexists; (split; [reflexivity|]);
    apply (defaults_in_profileData userId customData sd (clock (ticks w)) []);
    cbn [profile_row]; now rewrite app_nil_r.
Qed.

(** *** More equations and rules *)

Lemma bind_assoc {A B C} (m : M store A) (g : A -> M store B) (f : B -> M store C)
    (w : World store) :
  bind store (bind store m g) f w = bind store m (fun a => bind store (g a) f) w.
Proof.
  unfold bind. destruct (value (m w)); cbn [value final calls]; [|reflexivity].
  destruct (value (g a (final (m w)))); cbn [value final calls];
    [now rewrite app_assoc | reflexivity].
Qed.

Lemma bind_get_cases {B} (v : JValue) (k : string) (f : JValue -> M store B)
    (w : World store) :
  (exists e, value (bind store (lift store (Js.get v k)) f w) = Throw e)
  \/ bind store (lift store (Js.get v k)) f w = f (Js.opt_get v k) w.
Proof.
  destruct (get_cases v k) as [(e & -> & _) | ->]; [left; now exists e | right].
  apply bind_ret.
Qed.

Lemma try_ret_returns {A} (m : M store A) (g : string -> A) (w : World store) :
  exists a, value (try_catch store m (fun e => ret store (g e)) w) = Normal a.
Proof.
  unfold try_catch. destruct (value (m w)) eqn:E; cbn [value ret]; eauto.
Qed.

Lemma upsertUserProfile_returns (userId customData : JValue)
    (sd : ProfileSubscriptionData) (w : World store) :
  exists result, value (upsertUserProfile store clock userId customData sd w) = Normal result.
Proof. apply try_ret_returns. Qed.









(** One step of a run whose outcome is assumed normal: a property read
    throws and contradicts the assumption, or yields the property. *)
Ltac step_get :=
  match goal with
  | |- context [bind store (lift store (Js.get ?v ?k)) ?f ?w] =>
      destruct (bind_get_cases v k f w) as [[? He] | ->];
      [rewrite He; intros Hthrow; discriminate Hthrow|]
  end.

Lemma value_prepend {A} (cs : list StoreCall) (r : Run store A) :
  value (prepend cs r) = value r.
Proof. reflexivity. Qed.

Lemma calls_prepend {A} (cs : list StoreCall) (r : Run store A) :
  calls (prepend cs r) = (cs ++ calls r)%list.
Proof. reflexivity. Qed.

Lemma final_prepend {A} (cs : list StoreCall) (r : Run store A) :
  final (prepend cs r) = final r.
Proof. reflexivity. Qed.

(** *** Entering a handler *)

Lemma truthy_property (v : JValue) (k : string) :
  Js.truthy (Js.opt_get v k) = true -> Js.truthy v = true.
Proof.
  destruct v; cbn; try discriminate; try reflexivity.
  destruct (k =? "length")%string; cbn; [|discriminate].
  now destruct s.
Qed.

Lemma passed_valid (userId : JValue) (w : World store) :
  passed (validateUser store userId w) = true ->
  exists uv, value (validateUser store userId w) = Normal uv /\ uv_isValid uv = true.
Proof.
  unfold passed. destruct (value (validateUser store userId w)) as [uv|e];
    [eauto | discriminate].
Qed.

Lemma not_passed (userId : JValue) (w : World store) :
  passed (validateUser store userId w) = false ->
  exists uv, value (validateUser store userId w) = Normal uv /\ uv_isValid uv = false.
Proof.
  unfold passed. destruct (validateUser_returns userId w) as [uv ->]. eauto.
Qed.

Lemma get_not_nullish (v : JValue) (k : string) :
  Js.nullish v = false -> Js.get v k = Normal (Js.opt_get v k).
Proof. now destruct v. Qed.


Lemma nullish_truthy (v : JValue) : Js.nullish v = true -> Js.truthy v = false.
Proof. now destruct v. Qed.

Lemma get_nullish (v : JValue) (k : string) :
  Js.nullish v = true -> exists e, Js.get v k = Throw e.
Proof. destruct v; try discriminate; intros _; cbn; eauto. Qed.

Lemma try_ret_run {A} (m : M store A) (g : string -> A) (w : World store) :
  try_catch store m (fun e => ret store (g e)) w
  = match value (m w) with
    | Normal _ => m w
    | Throw e => Build_Run store A (Normal (g e)) (final (m w)) (calls (m w))
    end.
Proof.
  unfold try_catch. destruct (value (m w)); [reflexivity|].
  cbn [ret value final calls]. now rewrite app_nil_r.
Qed.

(** Reduces a run made of the primitives. *)
Ltac run_simpl := cbn [prepend value final calls ret throw lift bind app].

(** Entering a handler whose event data is there: the reads of the event,
    the names of its user, the lookup of the profile. *)
Ltac read_event Hdata :=
  pose proof (truthy_property _ _ Hdata) as Hpayload;
  rewrite !(bind_get _ _ _ _ Hpayload);
  rewrite (bind_get _ _ _ _ Hdata);
  rewrite bind_get by apply truthy_or_object.

Ltac name_user :=
  match goal with
  | |- context [Js.or (Js.opt_get (Js.opt_get ?p "data") "custom_data") (JObj [])] =>
      fold (customData_of p); fold (userId_of p)
  end.

Ltac pass_validation Hpassed :=
  destruct (passed_valid _ _ Hpassed) as (uv & Huv & Hvalid);
  rewrite (bind_normal _ _ _ _ Huv), validateUser_calls, Hvalid;
  cbn [negb].

(** *** The messages *)

(** A message with one value printed in it. *)
Lemma template_run {A} (v : JValue) (f : string -> A) (w : World store) :
  bind store (lift store (ToString rt v)) (fun printed => ret store (f printed)) w
  = Build_Run store A
      (match ToString rt v with
       | Normal printed => Normal (f printed)
       | Throw e => Throw e
       end) w [].
Proof. destruct (ToString rt v); reflexivity. Qed.

(** The error of a failed step is a string, which prints as itself. *)
Lemma validateUser_error (userId : JValue) (w : World store) (uv : UserValidation) :
  value (validateUser store userId w) = Normal uv ->
  uv_isValid uv = false ->
  exists msg, uv_error uv = JStr msg.
Proof.
  unfold validateUser. rewrite try_ret_run, bind_call.
  destruct (fst (exec store (ProfilesSelectSingle userId) (state w))) as [profile | e].
  - destruct (Js.get profile "id") as [id | msg]; run_simpl;
      intros [= <-]; cbn; [discriminate | eauto].
  - destruct (code e =? "PGRST116")%string; run_simpl;
      intros [= <-]; cbn; [discriminate | eauto].
Qed.

Lemma upsertUserProfile_error (userId customData : JValue)
    (sd : ProfileSubscriptionData) (w : World store) (result : UpsertResult) :
  value (upsertUserProfile store clock userId customData sd w) = Normal result ->
  up_success result = false ->
  exists msg, up_error result = JStr msg.
Proof.
  unfold upsertUserProfile. rewrite try_ret_run.
  destruct (Js.get customData "email") as [email | e1]; cbn [lift].
  2:{ rewrite (bind_throw _ _ _ e1) by reflexivity. run_simpl.
      intros [= <-]. cbn. eauto. }
  rewrite bind_ret.
  destruct (Js.get customData "full_name") as [full_name | e2]; cbn [lift].
  2:{ rewrite (bind_throw _ _ _ e2) by reflexivity. run_simpl.
      intros [= <-]. cbn. eauto. }
  rewrite bind_ret, bind_clock. cbv zeta. rewrite bind_call.
  destruct (fst (exec store _ _)) as [updated | e].
  - destruct (Js.get updated "id") as [id | msg]; run_simpl;
      intros [= <-]; cbn; [discriminate | eauto].
  - destruct (code e =? "PGRST116")%string.
    + rewrite bind_clock, bind_call.
      destruct (fst (exec store _ _)) as [created | e'].
      * destruct (Js.get created "id") as [id | msg]; run_simpl;
          intros [= <-]; cbn; [discriminate | eauto].
      * run_simpl. intros [= <-]. cbn. eauto.
    + run_simpl. intros [= <-]. cbn. eauto.
Qed.

(** The one call of [upsertSubscription]. *)
Lemma upsertSubscription_run (sd : SubscriptionData) (w : World store) :
  let c :=
    SubscriptionsUpsertSingle
      (JObj [ ("user_id", sd_userId sd);
              ("plan_id", sd_planId sd);
              ("paddle_subscription_id", sd_paddleSubscriptionId sd);
              ("status", sd_status sd);
              ("current_period_start", sd_currentPeriodStart sd);
              ("current_period_end", sd_currentPeriodEnd sd);
              ("updated_at", JStr (clock (ticks w))) ]) in
  exists result,
    value (upsertSubscription store clock sd w) = Normal result
    /\ calls (upsertSubscription store clock sd w) = [c]
    /\ (up_success result = true ->
        exists stored, fst (exec store c (state w)) = Data stored)
    /\ (up_success result = false -> exists msg, up_error result = JStr msg).
Proof.
  cbv zeta. unfold upsertSubscription.
  rewrite try_ret_run, bind_clock, bind_call.
  cbn [after tick state ticks].
  destruct (fst (exec store _ (state w))) as [subscription | e].
  - destruct (Js.get subscription "id") as [v | msg]; run_simpl;
      eexists; (split; [reflexivity|]); (split; [reflexivity|]); cbn;
      split; eauto; discriminate.
  - run_simpl. eexists. split; [reflexivity|]. split; [reflexivity|].
    cbn. split; [discriminate | eauto].
Qed.

(** The rows of a profile upsert: the update comes first, an insert may
    follow, and both carry the plan and the status given. *)
Lemma plan_in_profileData (userId email full_name : JValue)
    (sd : ProfileSubscriptionData) (updated_at : string)
    (extra : list (string * JValue)) :
  Js.opt_get (JObj (profileData userId email full_name sd updated_at ++ extra))
             "subscription_plan"
  = Js.or (psd_planName sd) (JStr "unknown")
  /\ Js.opt_get (JObj (profileData userId email full_name sd updated_at ++ extra))
                "subscription_status"
     = Js.or (psd_status sd) (JStr "active").
Proof. split; reflexivity. Qed.

Lemma upsertUserProfile_rows (userId customData : JValue)
    (sd : ProfileSubscriptionData) (w : World store) :
  Js.truthy customData = true ->
  exists row rest,
    calls (upsertUserProfile store clock userId customData sd w)
    = ProfilesUpdateSingle row userId :: rest
    /\ Js.opt_get row "subscription_plan" = Js.or (psd_planName sd) (JStr "unknown")
    /\ Js.opt_get row "subscription_status" = Js.or (psd_status sd) (JStr "active")
    /\ Forall (fun c => exists row',
                 c = ProfilesInsertSingle row'
                 /\ Js.opt_get row' "subscription_plan"
                    = Js.or (psd_planName sd) (JStr "unknown")
                 /\ Js.opt_get row' "subscription_status"
                    = Js.or (psd_status sd) (JStr "active")) rest.
Proof.
  intros Hcd.
  pose proof (plan_in_profileData userId (Js.opt_get customData "email")
                (Js.opt_get customData "full_name") sd (clock (ticks w))) as Hrow.
  destruct (Hrow []) as [Hplan Hstatus]. rewrite app_nil_r in Hplan, Hstatus.
  destruct (upsertUserProfile_calls userId customData sd w Hcd) as [-> | ->];
    do 2 eexists; (split; [reflexivity|]); (split; [exact Hplan|]);
    (split; [exact Hstatus|]).
  - constructor.
  - constructor; [|constructor]. eexists. split; [reflexivity|]. apply Hrow.
Qed.


(** *** A user that is not valid *)

Lemma invalid_user_stops (payload : JValue) (w : World store) :
  Js.truthy (Js.opt_get payload "data") = true ->
  passed (validateUser store (userId_of payload) w) = false ->
  exists uv msg,
    value (validateUser store (userId_of payload) w) = Normal uv
    /\ uv_error uv = JStr msg
    /\ let stopped :=
         Build_Run store HandlerResult
           (Normal (failure ("User validation failed: " ++ msg)))
           (final (validateUser store (userId_of payload) w))
           [ProfilesSelectSingle (userId_of payload)] in
       handleSubscriptionEvent rt store clock payload w = stopped
       /\ handleTransactionCompleted rt store clock payload w = stopped
       /\ handleSubscriptionCanceled rt store clock payload w = stopped.
Proof.
  intros Hdata Hfailed.
  destruct (not_passed _ _ Hfailed) as (uv & Huv & Hinvalid).
  destruct (validateUser_error _ _ _ Huv Hinvalid) as [msg Hmsg].
  exists uv, msg. split; [exact Huv|]. split; [exact Hmsg|]. cbv zeta.
  split; [|split].
  - unfold handleSubscriptionEvent. read_event Hdata. name_user.
    rewrite (bind_normal _ _ _ _ Huv), validateUser_calls, Hinvalid, Hmsg. reflexivity.
  - unfold handleTransactionCompleted. read_event Hdata. name_user.
    rewrite (bind_normal _ _ _ _ Huv), validateUser_calls, Hinvalid, Hmsg. reflexivity.
  - unfold handleSubscriptionCanceled. read_event Hdata. name_user.
    rewrite (bind_normal _ _ _ _ Huv), validateUser_calls, Hinvalid, Hmsg. reflexivity.
Qed.

(** *** The subscription handler, step by step *)

Lemma handleSubscriptionEvent_product_missing (payload : JValue) (w : World store) :
  Js.truthy (Js.opt_get payload "data") = true ->
  passed (validateUser store (userId_of payload) w) = true ->
  Js.truthy (subscription_productId (Js.opt_get payload "data")) = false ->
  handleSubscriptionEvent rt store clock payload w
  = prepend [ProfilesSelectSingle (userId_of payload)]
      (ret store (failure "Product ID missing in subscription data")
         (final (validateUser store (userId_of payload) w))).
Proof.
  intros Hdata Hpassed Hpid. unfold handleSubscriptionEvent.
  read_event Hdata. name_user. pass_validation Hpassed. cbv zeta.
  now rewrite Hpid.
Qed.

(** No plan: the message prints the product identifier, which may throw. *)
Lemma handleSubscriptionEvent_plan_missing (payload : JValue) (w : World store) :
  let productId := subscription_productId (Js.opt_get payload "data") in
  let w1 := final (validateUser store (userId_of payload) w) in
  Js.truthy (Js.opt_get payload "data") = true ->
  passed (validateUser store (userId_of payload) w) = true ->
  Js.truthy productId = true ->
  no_plan (fst (exec store (PlansSelectSingle productId) (state w1))) = true ->
  handleSubscriptionEvent rt store clock payload w
  = Build_Run store HandlerResult
      (match ToString rt productId with
       | Normal id =>
           Normal (failure ("Subscription plan not found for product ID: " ++ id))
       | Throw e => Throw e
       end)
      (after (PlansSelectSingle productId) w1)
      [ProfilesSelectSingle (userId_of payload); PlansSelectSingle productId].
Proof.
  cbv zeta. intros Hdata Hpassed Hpid Hnone. unfold handleSubscriptionEvent.
  read_event Hdata. name_user. pass_validation Hpassed. cbv zeta.
  rewrite Hpid. cbn [negb]. rewrite bind_call, prepend_prepend. cbn [app].
  destruct (fst (exec store _ _)) as [plan | error].
  - cbn [no_plan] in Hnone. rewrite Hnone. now rewrite template_run.
  - now rewrite template_run.
Qed.

(** A plan whose name is not a string: [plan.name.toLowerCase()] throws,
    after the two reads. *)
Lemma handleSubscriptionEvent_plan_unnamed (payload : JValue) (w : World store)
    (plan : JValue) (e : string) :
  let productId := subscription_productId (Js.opt_get payload "data") in
  let w1 := final (validateUser store (userId_of payload) w) in
  Js.truthy (Js.opt_get payload "data") = true ->
  passed (validateUser store (userId_of payload) w) = true ->
  Js.truthy productId = true ->
  fst (exec store (PlansSelectSingle productId) (state w1)) = Data plan ->
  Js.truthy plan = true ->
  Js.toLowerCase "plan.name" (Js.opt_get plan "name") = Throw e ->
  handleSubscriptionEvent rt store clock payload w
  = Build_Run store HandlerResult (Throw e)
      (after (PlansSelectSingle productId) w1)
      [ProfilesSelectSingle (userId_of payload); PlansSelectSingle productId].
Proof.
  cbv zeta. intros Hdata Hpassed Hpid Hfound Htruthy Hlower.
  unfold handleSubscriptionEvent.
  read_event Hdata. name_user. pass_validation Hpassed. cbv zeta.
  rewrite Hpid. cbn [negb]. rewrite bind_call, prepend_prepend. cbn [app].
  rewrite Hfound, Htruthy. cbn [negb]. rewrite Hlower.
  rewrite (bind_throw _ _ _ e) by reflexivity. reflexivity.
Qed.

Lemma lower_string (expr : string) (v : JValue) :
  (exists name, v = JStr name) \/ (exists e, Js.toLowerCase expr v = Throw e).
Proof. destruct v; cbn; eauto. Qed.

(** A plan with a name: the two upserts and the result. *)
Lemma handleSubscriptionEvent_plan_found (payload : JValue) (w : World store)
    (plan : JValue) (name : string) :
  let subscription := Js.opt_get payload "data" in
  let productId := subscription_productId subscription in
  let period := Js.opt_get subscription "current_billing_period" in
  let w1 := final (validateUser store (userId_of payload) w) in
  let p := upsertUserProfile store clock (userId_of payload) (customData_of payload)
             {| psd_status := Js.opt_get subscription "status";
                psd_planName := JStr (JsString.toLowerCase name);
                psd_customerId := Js.opt_get subscription "customer_id" |}
             (after (PlansSelectSingle productId) w1) in
  let q := upsertSubscription store clock
             {| sd_userId := userId_of payload;
                sd_planId := Js.opt_get plan "id";
                sd_paddleSubscriptionId := Js.opt_get subscription "id";
                sd_status := Js.opt_get subscription "status";
                sd_currentPeriodStart := Js.opt_get period "starts_at";
                sd_currentPeriodEnd := Js.opt_get period "ends_at" |}
             (final p) in
  let r := handleSubscriptionEvent rt store clock payload w in
  Js.truthy subscription = true ->
  passed (validateUser store (userId_of payload) w) = true ->
  Js.truthy productId = true ->
  fst (exec store (PlansSelectSingle productId) (state w1)) = Data plan ->
  Js.truthy plan = true ->
  Js.opt_get plan "name" = JStr name ->
  exists pr sr,
    value p = Normal pr
    /\ value q = Normal sr
    /\ if up_success pr then
         calls r = (ProfilesSelectSingle (userId_of payload)
                    :: PlansSelectSingle productId :: calls p ++ calls q)%list
         /\ if up_success sr then
              value r
              = match ToString rt (Js.opt_get subscription "status") with
                | Normal status =>
                    Normal (succeeded ("Subscription " ++ status
                                       ++ " processed successfully for plan " ++ name))
                | Throw e => Throw e
                end
            else
              exists msg,
                up_error sr = JStr msg
                /\ value r = Normal (failure ("Subscription update failed: " ++ msg))
       else
         calls r = (ProfilesSelectSingle (userId_of payload)
                    :: PlansSelectSingle productId :: calls p)%list
         /\ exists msg,
              up_error pr = JStr msg
              /\ value r = Normal (failure ("Profile update failed: " ++ msg)).
Proof.
  cbv zeta. intros Hdata Hpassed Hpid Hfound Htruthy Hname.
  unfold handleSubscriptionEvent.
  read_event Hdata. name_user. pass_validation Hpassed. cbv zeta.
  rewrite Hpid. cbn [negb]. rewrite bind_call, prepend_prepend. cbn [app].
  rewrite Hfound, Htruthy. cbn [negb]. rewrite Hname. cbn [Js.toLowerCase lift].
  rewrite bind_ret.
  match goal with
  | |- context [bind store (upsertUserProfile store clock ?u ?cd ?sd) _ ?w'] =>
      destruct (upsertUserProfile_returns u cd sd w') as [pr Hpr];
      pose proof (upsertUserProfile_error u cd sd w' pr Hpr) as Hperr;
      pose (wq := final (upsertUserProfile store clock u cd sd w'))
  end.
  rewrite (bind_normal _ _ _ _ Hpr), prepend_prepend. cbn [app].
  match goal with
  | |- context [upsertSubscription store clock ?sd] =>
      destruct (upsertSubscription_run sd wq) as (sr & Hsr & _ & _ & Hserr)
  end.
  unfold wq in *. clear wq.
  exists pr, sr. split; [exact Hpr|]. split; [exact Hsr|].
  destruct (up_success pr); cbn [negb].
  - rewrite (bind_normal _ _ _ _ Hsr), prepend_prepend.
    destruct (up_success sr); cbn [negb].
    + cbn [ToString Js.to_string]. 
      destruct (ToString rt (Js.opt_get (Js.opt_get payload "data") "status"))
        as [status | e]; cbn [lift].
      * rewrite !bind_ret. split; [|reflexivity].
        cbn [prepend calls ret app]. now rewrite app_nil_r.
      * rewrite (bind_throw _ _ _ e) by reflexivity. split; [|reflexivity].
        cbn [prepend calls throw app]. now rewrite app_nil_r.
    + destruct (Hserr eq_refl) as [msg Hmsg]. rewrite Hmsg.
      cbn [ToString Js.to_string lift]. rewrite bind_ret. split.
      * cbn [prepend calls ret app]. now rewrite app_nil_r.
      * exists msg. now split.
  - destruct (Hperr eq_refl) as [msg Hmsg]. rewrite Hmsg.
    cbn [ToString Js.to_string lift]. rewrite bind_ret. split.
    + cbn [prepend calls ret app]. now rewrite app_nil_r.
    + exists msg. now split.
Qed.


(** *** The transaction handler, step by step *)












(** *** The cancellation handler, step by step *)

Lemma handleSubscriptionCanceled_run (payload : JValue) (w : World store) :
  let subscription := Js.opt_get payload "data" in
  let status := Js.or (Js.opt_get subscription "status") (JStr "canceled") in
  let ends_at :=
    Js.opt_get (Js.opt_get subscription "current_billing_period") "ends_at" in
  let w1 := final (validateUser store (userId_of payload) w) in
  let p := upsertUserProfile store clock (userId_of payload) (customData_of payload)
             {| psd_status := status;
                psd_planName := JStr "free";
                psd_customerId := Js.opt_get subscription "customer_id" |} w1 in
  let update :=
    SubscriptionsUpdate
      (JObj [ ("status", status);
              ("updated_at", JStr (clock (ticks (final p))));
              ("current_period_end",
               if Js.truthy ends_at then ends_at
               else JStr (clock (S (ticks (final p))))) ])
      (Js.opt_get subscription "id") in
  let r := handleSubscriptionCanceled rt store clock payload w in
  Js.truthy subscription = true ->
  passed (validateUser store (userId_of payload) w) = true ->
  exists pr,
    value p = Normal pr
    /\ if up_success pr then
         calls r = (ProfilesSelectSingle (userId_of payload) :: calls p ++ [update])%list
         /\ value r
            = Normal match fst (exec store update (state (final p))) with
                     | Data _ =>
                         succeeded "Subscription cancellation processed successfully"
                     | Failure e =>
                         failure ("Subscription record update failed: " ++ message e)
                     end
       else
         calls r = (ProfilesSelectSingle (userId_of payload) :: calls p)%list
         /\ exists msg,
              up_error pr = JStr msg
              /\ value r = Normal (failure ("Profile update failed for cancellation: "
                                            ++ msg)).
Proof.
  cbv zeta. intros Hdata Hpassed. unfold handleSubscriptionCanceled.
  read_event Hdata. name_user. pass_validation Hpassed.
  match goal with
  | |- context [bind store (upsertUserProfile store clock ?u ?cd ?sd) _ ?w'] =>
      destruct (upsertUserProfile_returns u cd sd w') as [pr Hpr];
      pose proof (upsertUserProfile_error u cd sd w' pr Hpr) as Hperr
  end.
  rewrite (bind_normal _ _ _ _ Hpr), prepend_prepend. cbn [app].
  exists pr. split; [exact Hpr|].
  destruct (up_success pr); cbn [negb].
  - cbv zeta. rewrite bind_clock.
    destruct (Js.truthy (Js.opt_get (Js.opt_get (Js.opt_get payload "data")
                                       "current_billing_period") "ends_at")).
    + rewrite bind_ret, bind_call, prepend_prepend.
      cbn [after tick state ticks].
      destruct (fst (exec store _ _)); cbn [prepend calls value ret app];
        rewrite app_nil_r; now split.
    + rewrite bind_assoc, bind_clock, bind_ret, bind_call, prepend_prepend.
      cbn [after tick state ticks].
      destruct (fst (exec store _ _)); cbn [prepend calls value ret app];
        rewrite app_nil_r; now split.
  - destruct (Hperr eq_refl) as [msg Hmsg]. rewrite Hmsg.
    cbn [ToString Js.to_string lift]. rewrite bind_ret. split.
    + cbn [prepend calls ret app]. now rewrite app_nil_r.
    + exists msg. now split.
Qed.


(** *** The request handler *)

Lemma try_throw {A} (m : M store A) (h : string -> M store A) (w : World store)
    (e : string) :
  value (m w) = Throw e ->
  try_catch store m h w = prepend (calls (m w)) (h e (final (m w))).
Proof. intros H. unfold try_catch. now rewrite H. Qed.

Lemma validateWebhookPayload_spec (payload : JValue) :
  Js.nullish payload = false ->
  let event_type := Js.opt_get payload "event_type" in
  let event_id := Js.opt_get payload "event_id" in
  let data := Js.opt_get payload "data" in
  let userId := Js.opt_get (Js.opt_get data "custom_data") "userId" in
  validateWebhookPayload payload
  = Normal
      {| val_isValid := Js.truthy event_type && Js.truthy event_id
                        && Js.truthy data && Js.truthy userId;
         val_errors :=
           ((if Js.truthy event_type then [] else ["Missing event_type"])
            ++ (if Js.truthy event_id then [] else ["Missing event_id"])
            ++ (if Js.truthy data then [] else ["Missing data object"])
            ++ (if Js.truthy data && negb (Js.truthy userId)
                then ["Missing userId in custom_data"] else []))%list |}.
Proof.
  intros Hpayload. cbv zeta. unfold validateWebhookPayload.
  rewrite !(get_not_nullish payload) by exact Hpayload. cbn [bindC].
  destruct (Js.truthy (Js.opt_get payload "event_type")),
           (Js.truthy (Js.opt_get payload "event_id")),
           (Js.truthy (Js.opt_get payload "data")) eqn:Hdata;
    cbn [negb bindC andb app];
    try reflexivity;
    rewrite (get_truthy _ _ Hdata); cbn [bindC];
    destruct (Js.truthy (Js.opt_get (Js.opt_get (Js.opt_get payload "data")
                                       "custom_data") "userId"));
    reflexivity.
Qed.

(** A payload that passed validation is an object with its [data]. *)
Lemma valid_payload (payload : JValue) (v : ValidationResult) :
  validateWebhookPayload payload = Normal v -> val_isValid v = true ->
  Js.nullish payload = false /\ Js.truthy (Js.opt_get payload "data") = true.
Proof.
  intros Hv Hvalid.
  assert (Hpayload : Js.nullish payload = false) by (destruct payload; now try discriminate).
  split; [exact Hpayload|].
  rewrite (validateWebhookPayload_spec payload Hpayload) in Hv. cbv zeta in Hv.
  injection Hv as <-. cbn [val_isValid] in Hvalid.
  apply andb_prop in Hvalid as [Hvalid _]. now apply andb_prop in Hvalid as [_ Hdata].
Qed.

(** A request on its way to the event router. *)
Lemma serve_routed (env : Env) (nowMs : Z) (requestId : string) (req : Request)
    (rawBody : string) (payload : JValue) (v : ValidationResult) (w : World store) :
  method req <> "OPTIONS" ->
  validateEnvironment env = true ->
  text req = Normal rawBody ->
  sig_isValid (verifyPaddleSignature rt env nowMs req rawBody) = true ->
  JSON_parse rt rawBody = Some payload ->
  validateWebhookPayload payload = Normal v ->
  val_isValid v = true ->
  serve rt store clock env nowMs requestId req w
  = try_catch store
      (bind store (route rt store clock payload (Js.opt_get payload "event_type"))
         (fun result =>
            ret store
              (json_response 200
                 [ ("received", JBool (success result));
                   ("message", JStr (or_default (result_message result)
                                                "Event processed successfully"));
                   ("requestId", JStr requestId) ])))
      (fun _ =>
         ret store
           (json_response 500
              [ ("error", JStr "Internal server error");
                ("requestId", JStr requestId) ]))
      w.
Proof.
  intros Hmethod Henv Htext Hsig Hparse Hv Hvalid.
  destruct (valid_payload payload v Hv Hvalid) as [Hpayload _].
  unfold serve. apply String.eqb_neq in Hmethod.
  rewrite Hmethod, Henv, Htext. cbn [negb].
  unfold try_catch. cbv zeta.
  rewrite Hsig, Hparse. cbn [negb].
  rewrite !(get_not_nullish payload) by exact Hpayload. cbn [bindC].
  rewrite Hv. cbn [lift]. rewrite bind_ret, Hvalid. cbn [negb].
  rewrite (get_not_nullish payload) by exact Hpayload. cbn [lift].
  rewrite bind_ret. reflexivity.
Qed.

Lemma serve_answers (env : Env) (nowMs : Z) (requestId : string) (req : Request)
    (rawBody : string) (payload : JValue) (v : ValidationResult) (w : World store) :
  method req <> "OPTIONS" ->
  validateEnvironment env = true ->
  text req = Normal rawBody ->
  sig_isValid (verifyPaddleSignature rt env nowMs req rawBody) = true ->
  JSON_parse rt rawBody = Some payload ->
  validateWebhookPayload payload = Normal v ->
  val_isValid v = true ->
  let h := route rt store clock payload (Js.opt_get payload "event_type") w in
  let r := serve rt store clock env nowMs requestId req w in
  (forall res,
     value h = Normal res ->
     value r
     = Normal (json_response 200
                 [ ("received", JBool (success res));
                   ("message", JStr (or_default (result_message res)
                                                "Event processed successfully"));
                   ("requestId", JStr requestId) ])
     /\ calls r = calls h /\ final r = final h)
  /\ (forall e,
        value h = Throw e ->
        value r
        = Normal (json_response 500
                    [ ("error", JStr "Internal server error");
                      ("requestId", JStr requestId) ])
        /\ calls r = calls h /\ final r = final h).
Proof.
  intros Hmethod Henv Htext Hsig Hparse Hv Hvalid h r. subst r.
  rewrite (serve_routed env nowMs requestId req rawBody payload v w) by assumption.
  fold h. split.
  - intros res Hres.
    match goal with
    | |- context [try_catch store (bind store ?m ?k) ?handler w] =>
        pose proof (bind_normal m k w res Hres) as Hbind;
        rewrite (try_normal (bind store m k) handler w
                   (json_response 200
                      [ ("received", JBool (success res));
                        ("message", JStr (or_default (result_message res)
                                                     "Event processed successfully"));
                        ("requestId", JStr requestId) ]))
          by (rewrite Hbind; reflexivity);
        rewrite Hbind
    end.
    fold h. rewrite value_prepend, calls_prepend, final_prepend.
    cbn [ret value calls final]. now rewrite app_nil_r.
  - intros e He.
    match goal with
    | |- context [try_catch store (bind store ?m ?k) ?handler w] =>
        pose proof (bind_throw m k w e He) as Hbind;
        rewrite (try_throw (bind store m k) handler w e)
          by (rewrite Hbind; reflexivity);
        rewrite Hbind
    end.
    fold h. rewrite value_prepend, calls_prepend, final_prepend.
    cbn [ret value calls final]. now rewrite app_nil_r.
Qed.

(** C9 (amended).  For a request that passed signature verification and
    payload validation: when the handler returns a result, with success or
    with failure, the response has status 200, [received] is the result's
    success flag and [message] its message; when the handler throws, the
    response has status 500.  In particular a subscription.created or
    subscription.updated event of a user who passed validation, whose
    product identifier matches no plan, is answered after two reads of the
    store and no write: with status 200, [received: false] and the message
    "Subscription plan not found for product ID: ..." where the identifier
    is printed, and with status 500 where the identifier cannot be
    printed. *)
Theorem handler_result_answers_200 (env : Env) (nowMs : Z) (requestId : string)
    (req : Request) (rawBody : string) (payload : JValue) (v : ValidationResult)
    (w : World store) :
  method req <> "OPTIONS" ->
  validateEnvironment env = true ->
  text req = Normal rawBody ->
  sig_isValid (verifyPaddleSignature rt env nowMs req rawBody) = true ->
  JSON_parse rt rawBody = Some payload ->
  validateWebhookPayload payload = Normal v ->
  val_isValid v = true ->
  let h := route rt store clock payload (Js.opt_get payload "event_type") w in
  let r := serve rt store clock env nowMs requestId req w in
  let productId := subscription_productId (Js.opt_get payload "data") in
  let w1 := final (validateUser store (userId_of payload) w) in
  (forall res,
     value h = Normal res ->
     value r
     = Normal (json_response 200
                 [ ("received", JBool (success res));
                   ("message", JStr (or_default (result_message res)
                                                "Event processed successfully"));
                   ("requestId", JStr requestId) ])
     /\ calls r = calls h /\ final r = final h)
  /\ (forall e,
        value h = Throw e ->
        value r
        = Normal (json_response 500
                    [ ("error", JStr "Internal server error");
                      ("requestId", JStr requestId) ])
        /\ calls r = calls h /\ final r = final h)
  /\ (Js.opt_get payload "event_type" = JStr "subscription.created"
      \/ Js.opt_get payload "event_type" = JStr "subscription.updated" ->
      passed (validateUser store (userId_of payload) w) = true ->
      Js.truthy productId = true ->
      no_plan (fst (exec store (PlansSelectSingle productId) (state w1))) = true ->
      value r
      = Normal match ToString rt productId with
               | Normal id =>
                   json_response 200
                     [ ("received", JBool false);
                       ("message",
                        JStr ("Subscription plan not found for product ID: " ++ id));
                       ("requestId", JStr requestId) ]
               | Throw _ =>
                   json_response 500
                     [ ("error", JStr "Internal server error");
                       ("requestId", JStr requestId) ]
               end
      /\ calls r = [ProfilesSelectSingle (userId_of payload); PlansSelectSingle productId]
      /\ read_only (calls r)).
Proof.
  intros Hmethod Henv Htext Hsig Hparse Hv Hvalid h r productId w1.
  destruct (serve_answers env nowMs requestId req rawBody payload v w
              Hmethod Henv Htext Hsig Hparse Hv Hvalid) as [Hreturns Hthrows].
  split; [exact Hreturns|]. split; [exact Hthrows|].
  intros Hevent Hpassed Hpid Hnone.
  destruct (valid_payload payload v Hv Hvalid) as [_ Hdata].
  assert (Hh : route rt store clock payload (Js.opt_get payload "event_type") w
               = handleSubscriptionEvent rt store clock payload w).
  { now destruct Hevent as [-> | ->]. }
  rewrite (handleSubscriptionEvent_plan_missing payload w Hdata Hpassed Hpid Hnone) in Hh.
  fold productId w1 in Hh.
  assert (Hreads : read_only [ProfilesSelectSingle (userId_of payload);
                              PlansSelectSingle productId])
    by (repeat constructor).
  destruct (ToString rt productId) as [id | e].
  - destruct (Hreturns (failure ("Subscription plan not found for product ID: " ++ id)))
      as (Hvalue & Hcalls & _); [now rewrite Hh|].
    subst r. rewrite Hvalue, Hcalls, Hh. now repeat split.
  - destruct (Hthrows e) as (Hvalue & Hcalls & _); [now rewrite Hh|].
    subst r. rewrite Hvalue, Hcalls, Hh. now repeat split.
Qed.

(* ===================================================================== *)
(** ** Further properties of the store operations *)

(** X4.  The user lookup never throws and makes one call, a read.  The
    user is valid when the store returns a row, and also when it reports
    PGRST116, no row, with a [null] profile; any other error makes the user
    invalid, with the store's message. *)
Theorem validateUser_outcomes (userId : JValue) (w : World store) :
  let resp := fst (exec store (ProfilesSelectSingle userId) (state w)) in
  let r := validateUser store userId w in
  calls r = [ProfilesSelectSingle userId]
  /\ final r = after (ProfilesSelectSingle userId) w
  /\ exists uv,
       value r = Normal uv
       /\ (forall profile, resp = Data profile -> Js.nullish profile = false ->
           uv_isValid uv = true /\ uv_profile uv = profile)
       /\ (forall e, resp = Failure e -> code e = "PGRST116" ->
           uv_isValid uv = true /\ uv_profile uv = JNull)
       /\ (forall e, resp = Failure e -> code e <> "PGRST116" ->
           uv_isValid uv = false /\ uv_error uv = JStr (message e))
       /\ (forall profile, resp = Data profile -> Js.nullish profile = true ->
           uv_isValid uv = false).
Proof.
  cbv zeta. unfold validateUser. rewrite try_ret_run, bind_call.
  destruct (fst (exec store (ProfilesSelectSingle userId) (state w)))
    as [profile | e].
  - destruct (Js.nullish profile) eqn:Hnull.
    + destruct (get_nullish profile "id" Hnull) as [msg ->]. run_simpl.
      repeat split. eexists. split; [reflexivity|].
      repeat split; intros; cbn; try congruence; try discriminate.
    + rewrite (get_not_nullish profile "id" Hnull). run_simpl.
      repeat split. eexists. split; [reflexivity|].
      repeat split; intros; cbn; try congruence; try discriminate.
  - destruct (code e =? "PGRST116")%string eqn:Hcode; run_simpl;
      repeat split; eexists; (split; [reflexivity|]);
      repeat split; intros; cbn; try congruence; try discriminate;
      first [apply String.eqb_eq in Hcode | apply String.eqb_neq in Hcode];
      congruence.
Qed.

(** X5.  The profile upsert never throws.  It updates first; it inserts
    only when the update reports PGRST116, no row; any other update error
    ends it with that error's message and without an insert; an insert error
    ends it with the insert's message. *)
Theorem upsertUserProfile_outcomes (userId customData : JValue)
    (sd : ProfileSubscriptionData) (w : World store) :
  Js.truthy customData = true ->
  let row := profileData userId (Js.opt_get customData "email")
               (Js.opt_get customData "full_name") sd (clock (ticks w)) in
  let update := ProfilesUpdateSingle (JObj row) userId in
  let insert :=
    ProfilesInsertSingle
      (JObj (row ++ [("created_at", JStr (clock (S (ticks w))))])) in
  let updated := fst (exec store update (state w)) in
  let inserted := fst (exec store insert (snd (exec store update (state w)))) in
  let r := upsertUserProfile store clock userId customData sd w in
  exists result,
    value r = Normal result
    /\ (forall profile, updated = Data profile ->
        calls r = [update]
        /\ (Js.nullish profile = false ->
            up_success result = true /\ up_row result = profile))
    /\ (forall e, updated = Failure e -> code e <> "PGRST116" ->
        calls r = [update]
        /\ up_success result = false /\ up_error result = JStr (message e))
    /\ (forall e, updated = Failure e -> code e = "PGRST116" ->
        calls r = [update; insert]
        /\ (forall e', inserted = Failure e' ->
            up_success result = false /\ up_error result = JStr (message e'))
        /\ (forall profile, inserted = Data profile -> Js.nullish profile = false ->
            up_success result = true /\ up_row result = profile)).
Proof.
  intros Hcd. cbv zeta. unfold upsertUserProfile.
  rewrite try_ret_run, !bind_get by exact Hcd. rewrite bind_clock. cbv zeta.
  rewrite bind_call.
  cbn [after tick state ticks].
  destruct (fst (exec store _ (state w))) as [profile | e] eqn:Hupdated.
  - destruct (Js.nullish profile) eqn:Hnull.
    + destruct (get_nullish profile "id" Hnull) as [msg ->]. run_simpl.
      eexists. split; [reflexivity|].
      repeat split; intros; cbn; try congruence; try discriminate.
    + rewrite (get_not_nullish profile "id" Hnull). run_simpl.
      eexists. split; [reflexivity|].
      repeat split; intros; cbn; try congruence; try discriminate.
  - destruct (code e =? "PGRST116")%string eqn:Hcode.
    + apply String.eqb_eq in Hcode.
      rewrite bind_clock, bind_call. cbn [after tick state ticks].
      match goal with
      | |- context [fst (exec store ?c ?st)] =>
          destruct (fst (exec store c st)) as [profile | e'] eqn:Hinserted
      end.
      * destruct (Js.nullish profile) eqn:Hnull.
        -- destruct (get_nullish profile "id" Hnull) as [msg ->]. run_simpl.
           eexists. split; [reflexivity|].
           repeat split; intros; cbn; try congruence; try discriminate.
        -- rewrite (get_not_nullish profile "id" Hnull). run_simpl.
           eexists. split; [reflexivity|].
           repeat split; intros; cbn; try congruence; try discriminate.
      * run_simpl. eexists. split; [reflexivity|].
        repeat split; intros; cbn; try congruence; try discriminate.
    + apply String.eqb_neq in Hcode. run_simpl.
      eexists. split; [reflexivity|].
      repeat split; intros; cbn; try congruence; try discriminate.
Qed.

(** X6.  The subscription upsert never throws and makes one call: the
    upsert of a row with the user, the plan, the Paddle subscription, the
    status, the two period bounds and the clock reading.  It succeeds when
    the store returns the row, and fails with the store's message
    otherwise. *)
Theorem upsertSubscription_outcomes (sd : SubscriptionData) (w : World store) :
  let row :=
    JObj [ ("user_id", sd_userId sd);
           ("plan_id", sd_planId sd);
           ("paddle_subscription_id", sd_paddleSubscriptionId sd);
           ("status", sd_status sd);
           ("current_period_start", sd_currentPeriodStart sd);
           ("current_period_end", sd_currentPeriodEnd sd);
           ("updated_at", JStr (clock (ticks w))) ] in
  let resp := fst (exec store (SubscriptionsUpsertSingle row) (state w)) in
  let r := upsertSubscription store clock sd w in
  calls r = [SubscriptionsUpsertSingle row]
  /\ exists result,
       value r = Normal result
       /\ (forall subscription, resp = Data subscription ->
           Js.nullish subscription = false ->
           up_success result = true /\ up_row result = subscription)
       /\ (forall e, resp = Failure e ->
           up_success result = false /\ up_error result = JStr (message e)).
Proof.
  cbv zeta. unfold upsertSubscription.
  rewrite try_ret_run, bind_clock, bind_call.
  cbn [after tick state ticks].
  destruct (fst (exec store _ (state w))) as [subscription | e].
  - destruct (Js.nullish subscription) eqn:Hnull.
    + destruct (get_nullish subscription "id" Hnull) as [msg ->]. run_simpl.
      split; [reflexivity|]. eexists. split; [reflexivity|].
      repeat split; intros; cbn; try congruence; try discriminate.
    + rewrite (get_not_nullish subscription "id" Hnull). run_simpl.
      split; [reflexivity|]. eexists. split; [reflexivity|].
      repeat split; intros; cbn; try congruence; try discriminate.
  - run_simpl. split; [reflexivity|]. eexists. split; [reflexivity|].
    repeat split; intros; cbn; try congruence; try discriminate.
Qed.

(* ===================================================================== *)
(** ** Further properties of the handlers *)

(** X7.  When the user lookup fails, each of the three handlers returns the
    failure "User validation failed: ..." with the store's message, which is
    a string, having made that one read and nothing else. *)
Theorem invalid_user_stops_handlers (payload : JValue) (w : World store) :
  Js.truthy (Js.opt_get payload "data") = true ->
  passed (validateUser store (userId_of payload) w) = false ->
  exists uv msg,
    value (validateUser store (userId_of payload) w) = Normal uv
    /\ uv_error uv = JStr msg
    /\ let stopped :=
         Build_Run store HandlerResult
           (Normal (failure ("User validation failed: " ++ msg)))
           (final (validateUser store (userId_of payload) w))
           [ProfilesSelectSingle (userId_of payload)] in
       handleSubscriptionEvent rt store clock payload w = stopped
       /\ handleTransactionCompleted rt store clock payload w = stopped
       /\ handleSubscriptionCanceled rt store clock payload w = stopped.
Proof.
  intros Hdata Hfailed.
  destruct (invalid_user_stops payload w Hdata Hfailed)
    as (uv & msg & Huv & Hmsg & Hstopped).
  exists uv, msg. split; [exact Huv|]. split; [exact Hmsg|]. exact Hstopped.
Qed.

(** *** The order of the calls *)

Local Notation "m 'ordered_from' lo 'below' hi" :=
  (forall w : World store,
     increasing lo (calls (m w))
     /\ Forall (fun c => (rank c < hi)%nat) (calls (m w)))
  (at level 70, lo at level 9, hi at level 9).

Lemma increasing_weaken (lo lo' : nat) (cs : list StoreCall) :
  (lo' <= lo)%nat -> increasing lo cs -> increasing lo' cs.
Proof. destruct cs; cbn; [trivial|]. intros Hle [Hc Hrest]. split; [lia | exact Hrest]. Qed.

Lemma increasing_app (cs1 cs2 : list StoreCall) :
  forall lo mid : nat,
    (lo <= mid)%nat ->
    increasing lo cs1 -> Forall (fun c => (rank c < mid)%nat) cs1 ->
    increasing mid cs2 ->
    increasing lo (cs1 ++ cs2).
Proof.
  induction cs1 as [|c cs1 IH]; intros lo mid Hle H1 Hbound H2; cbn [app].
  - now apply (increasing_weaken mid).
  - destruct H1 as [Hc Hrest]. inversion Hbound as [|? ? Hcb Hrestb]; subst.
    split; [exact Hc|]. apply (IH (S (rank c)) mid); auto.
Qed.

Lemma increasing_length (cs : list StoreCall) :
  forall lo hi : nat,
    increasing lo cs -> Forall (fun c => (rank c < hi)%nat) cs ->
    (List.length cs + lo <= Nat.max lo hi)%nat.
Proof.
  induction cs as [|c cs IH]; intros lo hi H Hbound; cbn [List.length]; [lia|].
  destruct H as [Hc Hrest]. inversion Hbound as [|? ? Hcb Hrestb]; subst.
  specialize (IH (S (rank c)) hi Hrest Hrestb). lia.
Qed.

Lemma ordered_silent {A} (lo : nat) (m : M store A) :
  (forall w, calls (m w) = []) -> m ordered_from lo below lo.
Proof. intros H w. rewrite H. now split. Qed.

Lemma ordered_widen {A} (lo mid hi : nat) (m : M store A) :
  (mid <= hi)%nat -> m ordered_from lo below mid -> m ordered_from lo below hi.
Proof.
  intros Hle H w. destruct (H w) as [Hinc Hbound]. split; [exact Hinc|].
  eapply Forall_impl; [|exact Hbound]. cbv beta. intros; lia.
Qed.

Lemma ordered_later {A} (lo lo' hi : nat) (m : M store A) :
  (lo' <= lo)%nat -> m ordered_from lo below hi -> m ordered_from lo' below hi.
Proof.
  intros Hle H w. destruct (H w) as [Hinc Hbound]. split; [|exact Hbound].
  now apply (increasing_weaken lo).
Qed.

Lemma ordered_call (lo hi : nat) (c : StoreCall) :
  (lo <= rank c < hi)%nat -> call store c ordered_from lo below hi.
Proof.
  intros [Hlo Hhi] w. unfold call. destruct (exec store c (state w)).
  cbn [calls increasing]. repeat split; auto.
Qed.

Lemma ordered_bind {A B} (lo mid hi : nat) (m : M store A) (f : A -> M store B) :
  (lo <= mid <= hi)%nat ->
  m ordered_from lo below mid ->
  (forall a, f a ordered_from mid below hi) ->
  bind store m f ordered_from lo below hi.
Proof.
  intros [Hlo Hhi] Hm Hf w. destruct (Hm w) as [Hinc Hbound].
  assert (Hwide : Forall (fun c => (rank c < hi)%nat) (calls (m w))).
  { eapply Forall_impl; [|exact Hbound]. cbv beta. intros; lia. }
  unfold bind. destruct (value (m w)) as [a|e]; cbn [calls]; [|now split].
  destruct (Hf a (final (m w))) as [Hinc' Hbound']. split.
  - now apply (increasing_app _ _ lo mid).
  - apply Forall_app. now split.
Qed.

Lemma ordered_after {A B} (lo hi : nat) (m : M store A) (f : A -> M store B) :
  (lo <= hi)%nat ->
  (forall w, calls (m w) = []) ->
  (forall a, f a ordered_from lo below hi) ->
  bind store m f ordered_from lo below hi.
Proof.
  intros Hle Hm Hf. apply (ordered_bind lo lo hi); [lia | | exact Hf].
  now apply ordered_silent.
Qed.

Lemma ordered_try {A} (lo hi : nat) (m : M store A) (g : string -> A) :
  m ordered_from lo below hi ->
  try_catch store m (fun e => ret store (g e)) ordered_from lo below hi.
Proof.
  intros Hm w. rewrite try_ret_run. specialize (Hm w).
  destruct (value (m w)); [exact Hm|]. exact Hm.
Qed.

Lemma calls_lift {A} (c : Completion A) (w : World store) :
  calls (lift store c w) = [].
Proof. now destruct c. Qed.

(** Skips the steps that make no call. *)
Ltac quiet :=
  repeat first
    [ simple apply ordered_after;
      [lia | intros; first [apply calls_lift | reflexivity] | intros ?]
    | progress cbv zeta ].

Lemma ordered_ret {A} (lo hi : nat) (a : A) :
  (lo <= hi)%nat -> ret store a ordered_from lo below hi.
Proof. intros Hle w. now split. Qed.

Lemma validateUser_ordered (userId : JValue) :
  validateUser store userId ordered_from 0 below 1.
Proof.
  intros w. rewrite validateUser_calls. cbn. repeat split; auto.
Qed.

Lemma upsertUserProfile_ordered (userId customData : JValue)
    (sd : ProfileSubscriptionData) :
  upsertUserProfile store clock userId customData sd ordered_from 2 below 4.
Proof.
  unfold upsertUserProfile. apply ordered_try. quiet.
  apply (ordered_bind 2 3 4); [lia | apply ordered_call; cbn; lia |].
  intros [updatedProfile | updateError].
  - quiet. apply ordered_ret; lia.
  - destruct (code updateError =? "PGRST116")%string; [|apply ordered_ret; lia].
    quiet. apply (ordered_bind 3 4 4); [lia | apply ordered_call; cbn; lia |].
    intros [newProfile | createError]; [quiet|]; apply ordered_ret; lia.
Qed.

Lemma upsertSubscription_ordered (sd : SubscriptionData) :
  upsertSubscription store clock sd ordered_from 4 below 5.
Proof.
  unfold upsertSubscription. apply ordered_try. quiet.
  apply (ordered_bind 4 5 5); [lia | apply ordered_call; cbn; lia |].
  intros [subscription | e]; [quiet|]; apply ordered_ret; lia.
Qed.

(** A result, after the values of its message were printed. *)
Ltac ended := quiet; apply ordered_ret; lia.

Lemma handleSubscriptionEvent_ordered (payload : JValue) :
  handleSubscriptionEvent rt store clock payload ordered_from 0 below 5.
Proof.
  unfold handleSubscriptionEvent. quiet.
  apply (ordered_bind 0 1 5); [lia | apply validateUser_ordered |].
  intros uv. destruct (negb (uv_isValid uv)); [ended|]. cbv zeta.
  destruct (negb (Js.truthy _)); [ended|].
  apply (ordered_bind 1 2 5); [lia | apply ordered_call; cbn; lia |].
  intros [plan | e]; [|ended].
  destruct (negb (Js.truthy plan)); [ended|]. quiet.
  apply (ordered_bind 2 4 5); [lia | apply upsertUserProfile_ordered |].
  intros profileResult.
  destruct (negb (up_success profileResult)); [ended|]. cbv zeta.
  apply (ordered_bind 4 5 5); [lia | apply upsertSubscription_ordered |].
  intros subscriptionResult.
  destruct (negb (up_success subscriptionResult)); ended.
Qed.

Lemma handleTransactionCompleted_ordered (payload : JValue) :
  handleTransactionCompleted rt store clock payload ordered_from 0 below 4.
Proof.
  unfold handleTransactionCompleted. quiet.
  apply (ordered_bind 0 1 4); [lia | apply validateUser_ordered |].
  intros uv. destruct (negb (uv_isValid uv)); [ended|]. quiet.
  match goal with
  | |- forall w, _ /\ Forall _ (calls ((if ?b then _ else _) w)) => destruct b
  end; [|ended]. quiet.
  destruct (Js.truthy _); [|ended].
  apply (ordered_bind 1 2 4); [lia | apply ordered_call; cbn; lia |].
  intros [plan | e]; [|ended].
  destruct (Js.truthy plan); [|ended]. quiet.
  apply (ordered_bind 2 4 4); [lia | apply upsertUserProfile_ordered |].
  intros profileResult.
  destruct (negb (up_success profileResult)); ended.
Qed.

Lemma handleSubscriptionCanceled_ordered (payload : JValue) :
  handleSubscriptionCanceled rt store clock payload ordered_from 0 below 6.
Proof.
  unfold handleSubscriptionCanceled. quiet.
  apply (ordered_bind 0 1 6); [lia | apply validateUser_ordered |].
  intros uv. destruct (negb (uv_isValid uv)); [ended|].
  apply (ordered_bind 1 4 6); [lia | |].
  { apply (ordered_later 2); [lia | apply upsertUserProfile_ordered]. }
  intros profileResult.
  destruct (negb (up_success profileResult)); [ended|]. quiet.
  apply ordered_after; [lia | |].
  { intros w. destruct (Js.truthy _); [reflexivity|].
    rewrite bind_clock. reflexivity. }
  intros current_period_end.
  apply (ordered_bind 4 6 6); [lia | apply ordered_call; cbn; lia |].
  intros [data | e]; apply ordered_ret; lia.
Qed.

(** X8.  In every run of a handler the store calls come in one order, each
    kind at most once: the profile lookup, the plan lookup, the profile
    update, the profile insert, the upsert into [user_subscriptions], the
    update of [user_subscriptions].  A subscription event makes at most five
    calls and never the plain update of [user_subscriptions]; a transaction
    event makes at most four and never touches [user_subscriptions]. *)
Theorem handlers_call_in_order (payload : JValue) (w : World store) :
  (increasing 0 (calls (handleSubscriptionEvent rt store clock payload w))
   /\ Forall (fun c => (rank c < 5)%nat)
             (calls (handleSubscriptionEvent rt store clock payload w))
   /\ (List.length (calls (handleSubscriptionEvent rt store clock payload w)) <= 5)%nat)
  /\ (increasing 0 (calls (handleTransactionCompleted rt store clock payload w))
      /\ Forall (fun c => (rank c < 4)%nat)
                (calls (handleTransactionCompleted rt store clock payload w))
      /\ (List.length (calls (handleTransactionCompleted rt store clock payload w))
          <= 4)%nat)
  /\ increasing 0 (calls (handleSubscriptionCanceled rt store clock payload w)).
Proof.
  destruct (handleSubscriptionEvent_ordered payload w) as [Hs Hsb].
  destruct (handleTransactionCompleted_ordered payload w) as [Ht Htb].
  destruct (handleSubscriptionCanceled_ordered payload w) as [Hc _].
  repeat split; try assumption.
  - pose proof (increasing_length _ 0 5 Hs Hsb). lia.
  - pose proof (increasing_length _ 0 4 Ht Htb). lia.
Qed.

(** *** The subscription handler, to its end *)

(** X9.  A subscription event is reported as processed only if its user
    passed validation, the plan of its product was found with a name that
    is a string, the profile upsert made its update first and succeeded, and
    the store then accepted, as the last call and in the state the profile
    upsert left, the upsert into [user_subscriptions] of the row that
    carries the user, the plan's id, the event's subscription id and status,
    the two bounds of its billing period and the clock.  The message names
    the status as printed and the plan. *)
Theorem subscription_success_stores_subscription (payload : JValue) (w : World store)
    (res : HandlerResult) :
  let subscription := Js.opt_get payload "data" in
  let productId := subscription_productId subscription in
  let userId := userId_of payload in
  let period := Js.opt_get subscription "current_billing_period" in
  let w1 := final (validateUser store userId w) in
  let r := handleSubscriptionEvent rt store clock payload w in
  Js.truthy subscription = true ->
  value r = Normal res ->
  success res = true ->
  exists plan name status,
    passed (validateUser store userId w) = true
    /\ fst (exec store (PlansSelectSingle productId) (state w1)) = Data plan
    /\ Js.opt_get plan "name" = JStr name
    /\ ToString rt (Js.opt_get subscription "status") = Normal status
    /\ let p := upsertUserProfile store clock userId (customData_of payload)
                  {| psd_status := Js.opt_get subscription "status";
                     psd_planName := JStr (JsString.toLowerCase name);
                     psd_customerId := Js.opt_get subscription "customer_id" |}
                  (after (PlansSelectSingle productId) w1) in
       let row :=
         JObj [ ("user_id", userId);
                ("plan_id", Js.opt_get plan "id");
                ("paddle_subscription_id", Js.opt_get subscription "id");
                ("status", Js.opt_get subscription "status");
                ("current_period_start", Js.opt_get period "starts_at");
                ("current_period_end", Js.opt_get period "ends_at");
                ("updated_at", JStr (clock (ticks (final p)))) ] in
       (exists profile, value p = Normal profile /\ up_success profile = true)
       /\ (exists update rest,
             calls p = ProfilesUpdateSingle update userId :: rest
             /\ Js.opt_get update "subscription_plan" = stored_plan name)
       /\ calls r = (ProfilesSelectSingle userId :: PlansSelectSingle productId
                     :: calls p ++ [SubscriptionsUpsertSingle row])%list
       /\ (exists stored,
             fst (exec store (SubscriptionsUpsertSingle row) (state (final p)))
             = Data stored)
       /\ result_message res
          = Some ("Subscription " ++ status ++ " processed successfully for plan "
                  ++ name).
Proof.
  cbv zeta. intros Hdata Hres Hsuccess.
  destruct (passed (validateUser store (userId_of payload) w)) eqn:Hpassed.
  2:{ destruct (invalid_user_stops payload w Hdata Hpassed)
        as (uv & msg & _ & _ & Hstopped & _).
      rewrite Hstopped in Hres. injection Hres as <-. discriminate Hsuccess. }
  destruct (Js.truthy (subscription_productId (Js.opt_get payload "data"))) eqn:Hpid.
  2:{ rewrite handleSubscriptionEvent_product_missing in Hres by assumption.
      injection Hres as <-. discriminate Hsuccess. }
  destruct (no_plan (fst (exec store
                            (PlansSelectSingle
                               (subscription_productId (Js.opt_get payload "data")))
                            (state (final (validateUser store (userId_of payload) w))))))
    eqn:Hnone.
  { rewrite (handleSubscriptionEvent_plan_missing payload w Hdata Hpassed Hpid Hnone)
      in Hres.
    cbn [value] in Hres. destruct (ToString rt _); [|discriminate Hres].
    injection Hres as <-. discriminate Hsuccess. }
  destruct (fst (exec store _ _)) as [plan | err] eqn:Hfound; [|discriminate Hnone].
  cbn [no_plan] in Hnone. apply negb_false_iff in Hnone.
  destruct (lower_string "plan.name" (Js.opt_get plan "name"))
    as [[name Hname] | [e Hlower]].
  2:{ rewrite (handleSubscriptionEvent_plan_unnamed payload w plan e) in Hres
        by assumption.
      discriminate Hres. }
  destruct (handleSubscriptionEvent_plan_found payload w plan name
              Hdata Hpassed Hpid Hfound Hnone Hname)
    as (pr & sr & Hpr & Hsr & Hrun).
  destruct (up_success pr) eqn:Hps.
  2:{ destruct Hrun as (_ & msg & _ & Hvalue). rewrite Hvalue in Hres.
      injection Hres as <-. discriminate Hsuccess. }
  destruct Hrun as [Hcalls Hrun].
  destruct (up_success sr) eqn:Hss.
  2:{ destruct Hrun as (msg & _ & Hvalue). rewrite Hvalue in Hres.
      injection Hres as <-. discriminate Hsuccess. }
  rewrite Hrun in Hres.
  destruct (ToString rt (Js.opt_get (Js.opt_get payload "data") "status"))
    as [status | e] eqn:Hstatus; [|discriminate Hres].
  injection Hres as <-.
  exists plan, name, status.
  split; [reflexivity|]. split; [reflexivity|]. split; [exact Hname|].
  split; [reflexivity|].
  match type of Hsr with
  | value (upsertSubscription store clock ?sd ?w') = _ =>
      destruct (upsertSubscription_run sd w') as (sr' & Hsr' & Hq & Hstored & _)
  end.
  rewrite Hsr in Hsr'. injection Hsr' as <-.
  rewrite Hq in Hcalls.
  match type of Hpr with
  | value (upsertUserProfile store clock ?u ?cd ?sd ?w') = _ =>
      destruct (upsertUserProfile_rows u cd sd w' (truthy_or_object _ _))
        as (update & rest & Hrows & Hplan & _)
  end.
  split; [now exists pr|].
  split; [now exists update, rest|].
  split; [exact Hcalls|].
  split; [exact (Hstored Hss) | reflexivity].
Qed.

(** X10.  A subscription event throws in three cases only.  No plan was
    found and the product identifier cannot be printed in the message: the
    handler has made its two reads and no write.  The plan was found and its
    name is not a string, so that [plan.name.toLowerCase()] fails: again two
    reads and no write.  Both upserts succeeded and the event's status
    cannot be printed in the message: the handler throws after its writes.
    So an event whose product identifier and status are strings or absent
    throws only on a plan without a name. *)
Theorem subscription_event_throws_only (payload : JValue) (w : World store)
    (e : string) :
  let subscription := Js.opt_get payload "data" in
  let productId := subscription_productId subscription in
  let userId := userId_of payload in
  let period := Js.opt_get subscription "current_billing_period" in
  let w1 := final (validateUser store userId w) in
  let found := fst (exec store (PlansSelectSingle productId) (state w1)) in
  let r := handleSubscriptionEvent rt store clock payload w in
  Js.truthy subscription = true ->
  value r = Throw e ->
  (no_plan found = true
   /\ ToString rt productId = Throw e
   /\ calls r = [ProfilesSelectSingle userId; PlansSelectSingle productId]
   /\ read_only (calls r))
  \/ (exists plan,
        found = Data plan /\ Js.truthy plan = true
        /\ Js.toLowerCase "plan.name" (Js.opt_get plan "name") = Throw e
        /\ (forall name, Js.opt_get plan "name" <> JStr name)
        /\ calls r = [ProfilesSelectSingle userId; PlansSelectSingle productId]
        /\ read_only (calls r))
  \/ (exists plan name profile stored,
        found = Data plan /\ Js.truthy plan = true
        /\ Js.opt_get plan "name" = JStr name
        /\ ToString rt (Js.opt_get subscription "status") = Throw e
        /\ let p := upsertUserProfile store clock userId (customData_of payload)
                      {| psd_status := Js.opt_get subscription "status";
                         psd_planName := JStr (JsString.toLowerCase name);
                         psd_customerId := Js.opt_get subscription "customer_id" |}
                      (after (PlansSelectSingle productId) w1) in
           let q := upsertSubscription store clock
                      {| sd_userId := userId;
                         sd_planId := Js.opt_get plan "id";
                         sd_paddleSubscriptionId := Js.opt_get subscription "id";
                         sd_status := Js.opt_get subscription "status";
                         sd_currentPeriodStart := Js.opt_get period "starts_at";
                         sd_currentPeriodEnd := Js.opt_get period "ends_at" |}
                      (final p) in
           value p = Normal profile /\ up_success profile = true
           /\ value q = Normal stored /\ up_success stored = true
           /\ calls r = (ProfilesSelectSingle userId :: PlansSelectSingle productId
                         :: calls p ++ calls q)%list).
Proof.
  cbv zeta. intros Hdata Hres.
  assert (Hreads : read_only
                     [ProfilesSelectSingle (userId_of payload);
                      PlansSelectSingle
                        (subscription_productId (Js.opt_get payload "data"))])
    by (repeat constructor).
  destruct (passed (validateUser store (userId_of payload) w)) eqn:Hpassed.
  2:{ destruct (invalid_user_stops payload w Hdata Hpassed)
        as (uv & msg & _ & _ & Hstopped & _).
      rewrite Hstopped in Hres. discriminate Hres. }
  destruct (Js.truthy (subscription_productId (Js.opt_get payload "data"))) eqn:Hpid.
  2:{ rewrite handleSubscriptionEvent_product_missing in Hres by assumption.
      discriminate Hres. }
  destruct (no_plan (fst (exec store
                            (PlansSelectSingle
                               (subscription_productId (Js.opt_get payload "data")))
                            (state (final (validateUser store (userId_of payload) w))))))
    eqn:Hnone.
  { left.
    rewrite (handleSubscriptionEvent_plan_missing payload w Hdata Hpassed Hpid Hnone)
      in Hres |- *.
    cbn [value calls] in Hres |- *.
    destruct (ToString rt _) as [id | e']; [discriminate Hres|].
    injection Hres as ->. now repeat split. }
  right.
  destruct (fst (exec store _ _)) as [plan | err] eqn:Hfound; [|discriminate Hnone].
  cbn [no_plan] in Hnone. apply negb_false_iff in Hnone.
  destruct (lower_string "plan.name" (Js.opt_get plan "name"))
    as [[name Hname] | [e' Hlower]].
  2:{ left. exists plan.
      rewrite (handleSubscriptionEvent_plan_unnamed payload w plan e') in Hres |- *
        by assumption.
      cbn [value calls] in Hres |- *. injection Hres as ->.
      split; [reflexivity|]. split; [exact Hnone|]. split; [exact Hlower|].
      split; [|now split].
      intros name Hname. rewrite Hname in Hlower. discriminate Hlower. }
  right.
  destruct (handleSubscriptionEvent_plan_found payload w plan name
              Hdata Hpassed Hpid Hfound Hnone Hname)
    as (pr & sr & Hpr & Hsr & Hrun).
  destruct (up_success pr) eqn:Hps.
  2:{ destruct Hrun as (_ & msg & _ & Hvalue). rewrite Hvalue in Hres.
      discriminate Hres. }
  destruct Hrun as [Hcalls Hrun].
  destruct (up_success sr) eqn:Hss.
  2:{ destruct Hrun as (msg & _ & Hvalue). rewrite Hvalue in Hres.
      discriminate Hres. }
  rewrite Hrun in Hres.
  destruct (ToString rt (Js.opt_get (Js.opt_get payload "data") "status"))
    as [status | e'] eqn:Hstatus; [discriminate Hres|].
  injection Hres as ->.
  exists plan, name, pr, sr. now repeat split.
Qed.

(** *** The cancellation handler never throws *)

Lemma handleSubscriptionCanceled_returns (payload : JValue) (w : World store) :
  Js.truthy (Js.opt_get payload "data") = true ->
  exists res, value (handleSubscriptionCanceled rt store clock payload w) = Normal res.
Proof.
  intros Hdata.
  destruct (passed (validateUser store (userId_of payload) w)) eqn:Hpassed.
  - destruct (handleSubscriptionCanceled_run payload w Hdata Hpassed)
      as (pr & _ & Hrun).
    destruct (up_success pr).
    + destruct Hrun as [_ Hvalue]. eexists. exact Hvalue.
    + destruct Hrun as (_ & msg & _ & Hvalue). eexists. exact Hvalue.
  - destruct (invalid_user_stops payload w Hdata Hpassed)
      as (uv & msg & _ & _ & _ & _ & Hstopped).
    rewrite Hstopped. eexists. reflexivity.
Qed.

(** X11.  A validated [subscription.canceled] event is always answered
    with status 200 and the handler's result: the cancellation handler
    returns whatever the store answers, and the answer 500 of the catch-all
    is out of its reach. *)
Theorem cancellation_always_answered (env : Env) (nowMs : Z) (requestId : string)
    (req : Request) (rawBody : string) (payload : JValue) (v : ValidationResult)
    (w : World store) :
  method req <> "OPTIONS" ->
  validateEnvironment env = true ->
  text req = Normal rawBody ->
  sig_isValid (verifyPaddleSignature rt env nowMs req rawBody) = true ->
  JSON_parse rt rawBody = Some payload ->
  validateWebhookPayload payload = Normal v ->
  val_isValid v = true ->
  Js.opt_get payload "event_type" = JStr "subscription.canceled" ->
  exists res,
    value (handleSubscriptionCanceled rt store clock payload w) = Normal res
    /\ value (serve rt store clock env nowMs requestId req w)
       = Normal (json_response 200
                   [ ("received", JBool (success res));
                     ("message", JStr (or_default (result_message res)
                                                  "Event processed successfully"));
                     ("requestId", JStr requestId) ])
    /\ calls (serve rt store clock env nowMs requestId req w)
       = calls (handleSubscriptionCanceled rt store clock payload w).
Proof.
  intros Hmethod Henv Htext Hsig Hparse Hv Hvalid Htype.
  destruct (valid_payload payload v Hv Hvalid) as [_ Hdata].
  destruct (handleSubscriptionCanceled_returns payload w Hdata) as [res Hres].
  exists res. split; [exact Hres|].
  destruct (serve_answers env nowMs requestId req rawBody payload v w
              Hmethod Henv Htext Hsig Hparse Hv Hvalid) as [Hnormal _].
  rewrite Htype in Hnormal. cbn [route] in Hnormal.
  destruct (Hnormal res Hres) as (Hvalue & Hcalls & _).
  split; assumption.
Qed.

(* ===================================================================== *)
(** ** Further properties of the request handler *)

(** The reasons of the verifier. *)
Lemma verify_reasons (env : Env) (nowMs : Z)
    (req : Request) (rawBody : string) :
  let r := verifyPaddleSignature rt env nowMs req rawBody in
  (sig_isValid r = true ->
   sig_reason r = "valid" \/ sig_reason r = "bypassed_for_development")
  /\ (sig_isValid r = false ->
      (sig_reason r = "missing_signing_secret"
       /\ APP_ENVIRONMENT env = "production"
       /\ present (PADDLE_WEBHOOK_SIGNING_SECRET env) = false)
      \/ In (sig_reason r) rejection_reasons).
Proof.
  cbv zeta. unfold verifyPaddleSignature, rejection_reasons.
  destruct (APP_ENVIRONMENT env =? "production")%string eqn:Hprod; cbn [negb];
    [|split; [now right | discriminate]].
  apply String.eqb_eq in Hprod.
  destruct (present (PADDLE_WEBHOOK_SIGNING_SECRET env)) eqn:Hsecret; cbn [negb];
    [|split; [discriminate | now left]].
  repeat match goal with
         | |- context [if ?b then _ else _] => destruct b eqn:?
         | |- context [match ?o with Some _ => _ | None => _ end] => destruct o eqn:?
         end;
    cbn [sig_isValid sig_reason In]; split; intros; try discriminate; auto 10.
Qed.

(** With a valid environment the secret is there, and a rejection is about
    the request. *)
Lemma configured_reason (env : Env) (nowMs : Z) (req : Request) (rawBody : string) :
  validateEnvironment env = true ->
  sig_isValid (verifyPaddleSignature rt env nowMs req rawBody) = false ->
  In (sig_reason (verifyPaddleSignature rt env nowMs req rawBody)) rejection_reasons.
Proof.
  intros Henv Hsig.
  destruct (verify_reasons env nowMs req rawBody) as [_ Hreason].
  destruct (Hreason Hsig) as [(_ & Hprod & Hsecret) | Hin]; [|exact Hin].
  exfalso. unfold validateEnvironment in Henv.
  destruct (0 <? _)%nat; [discriminate|].
  rewrite Hprod, String.eqb_refl, Hsecret in Henv. discriminate.
Qed.

(** The [default] branch of the switch. *)
Lemma route_default (payload : JValue) (s : string) :
  handled s = true
  \/ route rt store clock payload (JStr s)
     = ret store (succeeded ("Event type " ++ s ++ " acknowledged but not processed")).
Proof.
  unfold route.
  set (other := bind store (lift store (ToString rt (JStr s))) _).
  change (ret store (succeeded ("Event type " ++ s ++ " acknowledged but not processed")))
    with other.
  generalize other
             (handleSubscriptionEvent rt store clock payload)
             (handleTransactionCompleted rt store clock payload)
             (handleSubscriptionCanceled rt store clock payload).
  clear other. intros other subscribed completed canceled.
  repeat (match goal with
          | |- _ \/ match ?x with EmptyString => _ | String _ _ => _ end = _ =>
              is_var x; destruct x as [|[? ? ? ? ? ? ? ?] ?]
          | |- _ \/ (if ?b then _ else _) = _ => is_var b; destruct b
          end; try (right; reflexivity));
    left; reflexivity.
Qed.

Lemma route_other (payload : JValue) (s : string) :
  handled s = false ->
  route rt store clock payload (JStr s)
  = ret store (succeeded ("Event type " ++ s ++ " acknowledged but not processed")).
Proof.
  intros H. destruct (route_default payload s) as [Hhandled | Hroute];
    [congruence | exact Hroute].
Qed.

(** A request is answered on the spot, or reaches the event router. *)
Lemma serve_cases (env : Env) (nowMs : Z) (requestId : string) (req : Request)
    (w : World store) :
  (exists resp,
     serve rt store clock env nowMs requestId req w
     = Build_Run store HttpResponse (Normal resp) w []
     /\ In (status resp) [200; 400; 401; 500])
  \/ (exists rawBody payload v,
        method req <> "OPTIONS"
        /\ validateEnvironment env = true
        /\ text req = Normal rawBody
        /\ sig_isValid (verifyPaddleSignature rt env nowMs req rawBody) = true
        /\ JSON_parse rt rawBody = Some payload
        /\ validateWebhookPayload payload = Normal v
        /\ val_isValid v = true).
Proof.
  unfold serve.
  destruct (method req =? "OPTIONS")%string eqn:Hmethod.
  { left. eexists. split; [reflexivity | cbn; auto]. }
  destruct (validateEnvironment env) eqn:Henv; cbn [negb].
  2:{ left. eexists. split; [reflexivity | cbn; auto]. }
  destruct (text req) as [rawBody | e] eqn:Htext.
  2:{ left. eexists. split; [reflexivity | cbn; auto]. }
  rewrite try_ret_run. cbv zeta.
  destruct (sig_isValid (verifyPaddleSignature rt env nowMs req rawBody)) eqn:Hsig;
    cbn [negb].
  2:{ left. eexists. split; [reflexivity | cbn; auto]. }
  destruct (JSON_parse rt rawBody) as [payload|] eqn:Hparse.
  2:{ left. eexists. split; [reflexivity | cbn; auto]. }
  destruct (Js.nullish payload) eqn:Hnull.
  { destruct (get_nullish payload "event_type" Hnull) as [msg ->]. cbn [bindC].
    left. eexists. split; [reflexivity | cbn; auto]. }
  rewrite !(get_not_nullish payload) by exact Hnull. cbn [bindC].
  destruct (validateWebhookPayload payload) as [v | e] eqn:Hv; cbn [lift].
  2:{ rewrite (bind_throw _ _ _ e) by reflexivity.
      left. eexists. split; [reflexivity | cbn; auto]. }
  rewrite bind_ret.
  destruct (val_isValid v) eqn:Hvalid; cbn [negb].
  2:{ left. eexists. split; [reflexivity | cbn; auto]. }
  right. exists rawBody, payload, v. apply String.eqb_neq in Hmethod.
  repeat split; assumption.
Qed.

(** X12.  The request handler never throws.  It answers with one of the
    statuses 200, 400, 401 and 500, and a request answered with 400 or 401
    has not reached the store. *)
Theorem serve_always_answers (env : Env) (nowMs : Z) (requestId : string)
    (req : Request) (w : World store) :
  exists resp,
    value (serve rt store clock env nowMs requestId req w) = Normal resp
    /\ In (status resp) [200; 400; 401; 500]
    /\ (status resp = 400 \/ status resp = 401 ->
        calls (serve rt store clock env nowMs requestId req w) = []
        /\ final (serve rt store clock env nowMs requestId req w) = w).
Proof.
  destruct (serve_cases env nowMs requestId req w)
    as [(resp & -> & Hstatus)
       | (rawBody & payload & v & Hmethod & Henv & Htext & Hsig & Hparse & Hv & Hvalid)].
  - exists resp. cbn [value calls final]. auto.
  - destruct (serve_answers env nowMs requestId req rawBody payload v w
                Hmethod Henv Htext Hsig Hparse Hv Hvalid) as [Hnormal Hthrow].
    destruct (value (route rt store clock payload (Js.opt_get payload "event_type") w))
      as [res | e] eqn:Hroute.
    + destruct (Hnormal res eq_refl) as (-> & _). eexists. split; [reflexivity|].
      split; [cbn; auto|]. cbn. intros [H | H]; discriminate H.
    + destruct (Hthrow e eq_refl) as (-> & _). eexists. split; [reflexivity|].
      split; [cbn; auto|]. cbn. intros [H | H]; discriminate H.
Qed.

(** X13.  The store is reached only by a request that is not a preflight,
    on a valid environment, whose signature was verified, whose body parsed
    to a payload that passed validation, and whose event type is one of
    [subscription.created], [subscription.updated], [transaction.completed]
    and [subscription.canceled].  The calls are then those of the handler. *)
Theorem store_reached_only_when_verified (env : Env) (nowMs : Z) (requestId : string)
    (req : Request) (w : World store) :
  calls (serve rt store clock env nowMs requestId req w) <> [] ->
  method req <> "OPTIONS"
  /\ validateEnvironment env = true
  /\ exists rawBody payload v event_type,
       text req = Normal rawBody
       /\ sig_isValid (verifyPaddleSignature rt env nowMs req rawBody) = true
       /\ JSON_parse rt rawBody = Some payload
       /\ validateWebhookPayload payload = Normal v
       /\ val_isValid v = true
       /\ Js.opt_get payload "event_type" = JStr event_type
       /\ handled event_type = true
       /\ calls (serve rt store clock env nowMs requestId req w)
          = calls (route rt store clock payload (JStr event_type) w).
Proof.
  intros Hcalls.
  destruct (serve_cases env nowMs requestId req w)
    as [(resp & Hrun & _)
       | (rawBody & payload & v & Hmethod & Henv & Htext & Hsig & Hparse & Hv & Hvalid)].
  { rewrite Hrun in Hcalls. now contradiction Hcalls. }
  split; [exact Hmethod|]. split; [exact Henv|].
  assert (Hsame : calls (serve rt store clock env nowMs requestId req w)
                  = calls (route rt store clock payload
                             (Js.opt_get payload "event_type") w)).
  { destruct (serve_answers env nowMs requestId req rawBody payload v w
                Hmethod Henv Htext Hsig Hparse Hv Hvalid) as [Hnormal Hthrow].
    destruct (value (route rt store clock payload (Js.opt_get payload "event_type") w))
      as [res | e] eqn:Hroute.
    - now destruct (Hnormal res eq_refl) as (_ & -> & _).
    - now destruct (Hthrow e eq_refl) as (_ & -> & _). }
  rewrite Hsame in Hcalls.
  destruct (Js.opt_get payload "event_type") as [| |b|n|event_type|l|l] eqn:Htype;
    try (cbn [route] in Hcalls; rewrite calls_bind_lift_ret in Hcalls;
         now contradiction Hcalls).
  destruct (handled event_type) eqn:Hhandled.
  - exists rawBody, payload, v, event_type. repeat split; assumption.
  - rewrite (route_other payload event_type Hhandled) in Hcalls.
    now contradiction Hcalls.
Qed.

(** X14.  A request whose signature is not verified is answered with 401
    and the verifier's reason, before the body is parsed and with the store
    untouched.  As the environment was validated first, the reason is about
    the request, never about a missing secret. *)
Theorem unverified_request_rejected (env : Env) (nowMs : Z) (requestId : string)
    (req : Request) (rawBody : string) (w : World store) :
  method req <> "OPTIONS" ->
  validateEnvironment env = true ->
  text req = Normal rawBody ->
  sig_isValid (verifyPaddleSignature rt env nowMs req rawBody) = false ->
  serve rt store clock env nowMs requestId req w
  = Build_Run store HttpResponse
      (Normal (json_response 401
                 [ ("error", JStr "Signature verification failed");
                   ("reason",
                    JStr (sig_reason (verifyPaddleSignature rt env nowMs req rawBody))) ]))
      w []
  /\ In (sig_reason (verifyPaddleSignature rt env nowMs req rawBody)) rejection_reasons.
Proof.
  intros Hmethod Henv Htext Hsig. split; [|now apply configured_reason].
  unfold serve. apply String.eqb_neq in Hmethod.
  rewrite Hmethod, Henv, Htext. cbn [negb].
  rewrite try_ret_run. cbv zeta. rewrite Hsig. reflexivity.
Qed.

(** X15.  A verified body that does not parse, or that parses to [null], is
    answered with 400 "Invalid JSON payload", the store untouched. *)
Theorem unparsable_body_rejected (env : Env) (nowMs : Z) (requestId : string)
    (req : Request) (rawBody : string) (w : World store) :
  method req <> "OPTIONS" ->
  validateEnvironment env = true ->
  text req = Normal rawBody ->
  sig_isValid (verifyPaddleSignature rt env nowMs req rawBody) = true ->
  JSON_parse rt rawBody = None
  \/ (exists payload, JSON_parse rt rawBody = Some payload /\ Js.nullish payload = true) ->
  serve rt store clock env nowMs requestId req w
  = Build_Run store HttpResponse
      (Normal (json_response 400 [("error", JStr "Invalid JSON payload")])) w [].
Proof.
  intros Hmethod Henv Htext Hsig Hparse.
  unfold serve. apply String.eqb_neq in Hmethod.
  rewrite Hmethod, Henv, Htext. cbn [negb].
  rewrite try_ret_run. cbv zeta. rewrite Hsig. cbn [negb].
  destruct Hparse as [-> | (payload & -> & Hnull)]; [reflexivity|].
  destruct (get_nullish payload "event_type" Hnull) as [msg ->]. reflexivity.
Qed.

(** X16.  A verified payload that misses a required field is answered with
    400 "Invalid payload structure" and the validator's errors as details,
    of which there is at least one; the store is untouched. *)
Theorem invalid_payload_rejected (env : Env) (nowMs : Z) (requestId : string)
    (req : Request) (rawBody : string) (payload : JValue) (w : World store) :
  method req <> "OPTIONS" ->
  validateEnvironment env = true ->
  text req = Normal rawBody ->
  sig_isValid (verifyPaddleSignature rt env nowMs req rawBody) = true ->
  JSON_parse rt rawBody = Some payload ->
  Js.nullish payload = false ->
  Js.truthy (Js.opt_get payload "event_type")
  && Js.truthy (Js.opt_get payload "event_id")
  && Js.truthy (Js.opt_get payload "data")
  && Js.truthy (Js.opt_get (Js.opt_get (Js.opt_get payload "data") "custom_data")
                           "userId") = false ->
  exists errors,
    validateWebhookPayload payload
    = Normal {| val_isValid := false; val_errors := errors |}
    /\ errors <> []
    /\ serve rt store clock env nowMs requestId req w
       = Build_Run store HttpResponse
           (Normal (json_response 400
                      [ ("error", JStr "Invalid payload structure");
                        ("details", JArr (map JStr errors)) ]))
           w [].
Proof.
  intros Hmethod Henv Htext Hsig Hparse Hnull Hinvalid.
  pose proof (validateWebhookPayload_spec payload Hnull) as Hv. cbv zeta in Hv.
  rewrite Hinvalid in Hv.
  eexists. split; [exact Hv|]. split.
  - destruct (Js.truthy (Js.opt_get payload "event_type")); [|discriminate].
    destruct (Js.truthy (Js.opt_get payload "event_id")); [|discriminate].
    destruct (Js.truthy (Js.opt_get payload "data")); [|discriminate].
    cbn [andb] in Hinvalid. rewrite Hinvalid. discriminate.
  - unfold serve. apply String.eqb_neq in Hmethod.
    rewrite Hmethod, Henv, Htext. cbn [negb].
    rewrite try_ret_run. cbv zeta. rewrite Hsig, Hparse. cbn [negb].
    rewrite !(get_not_nullish payload) by exact Hnull. cbn [bindC].
    rewrite Hv. cbn [lift]. rewrite bind_ret. reflexivity.
Qed.

(** X17.  A validated event of any other type is acknowledged: status 200,
    [received: true], the message "Event type ... acknowledged but not
    processed", and the store untouched. *)
Theorem unhandled_event_acknowledged (env : Env) (nowMs : Z) (requestId : string)
    (req : Request) (rawBody : string) (payload : JValue) (v : ValidationResult)
    (event_type : string) (w : World store) :
  method req <> "OPTIONS" ->
  validateEnvironment env = true ->
  text req = Normal rawBody ->
  sig_isValid (verifyPaddleSignature rt env nowMs req rawBody) = true ->
  JSON_parse rt rawBody = Some payload ->
  validateWebhookPayload payload = Normal v ->
  val_isValid v = true ->
  Js.opt_get payload "event_type" = JStr event_type ->
  handled event_type = false ->
  serve rt store clock env nowMs requestId req w
  = Build_Run store HttpResponse
      (Normal (json_response 200
                 [ ("received", JBool true);
                   ("message", JStr ("Event type " ++ event_type
                                     ++ " acknowledged but not processed"));
                   ("requestId", JStr requestId) ]))
      w [].
Proof.
  intros Hmethod Henv Htext Hsig Hparse Hv Hvalid Htype Hother.
  rewrite (serve_routed env nowMs requestId req rawBody payload v w) by assumption.
  rewrite Htype, (route_other payload event_type Hother).
  rewrite try_ret_run, bind_ret. reflexivity.
Qed.

Lemma validateEnvironment_true (env : Env) :
  validateEnvironment env = true
  <-> present (SUPABASE_URL env) = true
      /\ present (SUPABASE_SERVICE_ROLE_KEY env) = true
      /\ (APP_ENVIRONMENT env = "production" ->
          present (PADDLE_WEBHOOK_SIGNING_SECRET env) = true).
Proof.
  unfold validateEnvironment. cbn [filter].
  destruct (present (SUPABASE_URL env)), (present (SUPABASE_SERVICE_ROLE_KEY env));
    cbn [negb List.length Nat.ltb Nat.leb];
    try (split; [discriminate | intros (H1 & H2 & _); discriminate]).
  destruct (String.eqb_spec (APP_ENVIRONMENT env) "production") as [Hprod | Hdev];
    cbn [andb].
  - destruct (present (PADDLE_WEBHOOK_SIGNING_SECRET env)); cbn [negb].
    + split; auto.
    + split; [discriminate | intros (_ & _ & H); now apply H].
  - split; [|reflexivity]. intros _. repeat split. intros Hprod. contradiction.
Qed.

(** X18.  A server that lacks the Supabase URL or the service role key, or
    that runs in production without the signing secret, answers every
    request but the preflight with 500 "Server configuration error": it
    reads no body, verifies no signature and never reaches the store. *)
Theorem misconfigured_server_refuses (env : Env) (nowMs : Z) (requestId : string)
    (req : Request) (w : World store) :
  method req <> "OPTIONS" ->
  present (SUPABASE_URL env) = false
  \/ present (SUPABASE_SERVICE_ROLE_KEY env) = false
  \/ (APP_ENVIRONMENT env = "production"
      /\ present (PADDLE_WEBHOOK_SIGNING_SECRET env) = false) ->
  serve rt store clock env nowMs requestId req w
  = Build_Run store HttpResponse
      (Normal (json_response 500 [("error", JStr "Server configuration error")])) w [].
Proof.
  intros Hmethod Hmissing.
  assert (Henv : validateEnvironment env = false).
  { destruct (validateEnvironment env) eqn:Henv; [|reflexivity].
    apply validateEnvironment_true in Henv as (Hurl & Hkey & Hsecret).
    destruct Hmissing as [H | [H | [Hprod H]]]; try congruence.
    specialize (Hsecret Hprod). congruence. }
  unfold serve. apply String.eqb_neq in Hmethod.
  now rewrite Hmethod, Henv.
Qed.

End Runs.

(* ===================================================================== *)
(** ** Payload validation *)

(** C5 (amended).  For a payload other than [null], the validator returns,
    in this order, the error of every rule it checks and finds violated:
    [event_type], [event_id] and [data] always, and [custom_data.userId]
    only when [data] is there; the payload is valid exactly when the four
    are there. *)
Theorem validate_reports_every_checked_rule (payload : JValue) :
  payload <> JNull -> payload <> JUndefined ->
  let event_type := Js.opt_get payload "event_type" in
  let event_id := Js.opt_get payload "event_id" in
  let data := Js.opt_get payload "data" in
  let userId := Js.opt_get (Js.opt_get data "custom_data") "userId" in
  validateWebhookPayload payload
  = Normal
      {| val_isValid := Js.truthy event_type && Js.truthy event_id
                        && Js.truthy data && Js.truthy userId;
         val_errors :=
           ((if Js.truthy event_type then [] else ["Missing event_type"])
            ++ (if Js.truthy event_id then [] else ["Missing event_id"])
            ++ (if Js.truthy data then [] else ["Missing data object"])
            ++ (if Js.truthy data && negb (Js.truthy userId)
                then ["Missing userId in custom_data"] else []))%list |}.
Proof.
  intros Hnull Hundefined. apply validateWebhookPayload_spec.
  destruct payload; try reflexivity; congruence.
Qed.

(* ===================================================================== *)
(** * The properties on the reference store *)

Module Examples.
Import Reference.
Import Scenarios.

(** ** Signature verification *)

Lemma verify_environment_gate_witness :
  (APP_ENVIRONMENT development <> "production"
   /\ verifyPaddleSignature (runtime []) development 0 (post None "{}") "{}"
      = {| sig_isValid := true; sig_reason := "bypassed_for_development" |})
  /\ (APP_ENVIRONMENT production_without_secret = "production"
      /\ present (PADDLE_WEBHOOK_SIGNING_SECRET production_without_secret) = false
      /\ verifyPaddleSignature (runtime []) production_without_secret 0
           (post (Some "ts=0;h1=c0") "{}") "{}"
         = {| sig_isValid := false; sig_reason := "missing_signing_secret" |})
  /\ sig_reason (verifyPaddleSignature (runtime []) production 0
                   (post (Some "ts=0;h1=c0") "{}") "{}")
     <> "bypassed_for_development".
Proof.
  assert (Hdev : APP_ENVIRONMENT development <> "production") by discriminate.
  split; [|split].
  - split; [exact Hdev|].
    exact (proj1 (verify_environment_gate (runtime []) development 0
                    (post None "{}") "{}") Hdev).
  - split; [reflexivity|]. split; [reflexivity|].
    exact (proj1 (proj2 (verify_environment_gate (runtime []) production_without_secret 0
                           (post (Some "ts=0;h1=c0") "{}") "{}"))
             eq_refl eq_refl).
  - exact (proj2 (proj2 (verify_environment_gate (runtime []) production 0
                           (post (Some "ts=0;h1=c0") "{}") "{}"))
             eq_refl).
Defined.

Lemma signature_valid_iff_hmac_matches_witness :
  Z.abs (1700000123456 / 1000 - 1700000000) <= 300
  /\ hmac_sha256_hex (runtime []) "whsec_k" ("1700000000" ++ ":" ++ "{}") = Some "C1534"
  /\ verifyPaddleSignature (runtime []) production 1700000123456 signed "{}"
     = {| sig_isValid := true; sig_reason := "valid" |}
  /\ verifyPaddleSignature (runtime []) production 1700000123456 signed "{ }"
     = {| sig_isValid := false; sig_reason := "signature_mismatch" |}.
Proof.
  assert (Hwin : Z.abs (1700000123456 / 1000 - 1700000000) <= 300)
    by (vm_compute; discriminate).
  pose proof (signature_valid_iff_hmac_matches (runtime []) production 1700000123456
                signed "whsec_k" "ts=1700000000;h1=c1534"
                eq_refl eq_refl ltac:(discriminate) eq_refl
                "1700000000" "c1534" 1700000000
                eq_refl eq_refl ltac:(discriminate) eq_refl
                "{}" "C1534" Hwin eq_refl) as (Hiff & Hvalid & _ & Hchanged).
  split; [exact Hwin|]. split; [reflexivity|].
  assert (Hok : sig_isValid (verifyPaddleSignature (runtime []) production
                               1700000123456 signed "{}") = true)
    by (apply Hiff; reflexivity).
  split; [vm_compute; reflexivity|].
  apply (Hchanged "{ }" "C1566" Hok); [reflexivity | discriminate].
Defined.

Lemma stale_timestamp_rejected_witness :
  300 < Z.abs (1700001000000 / 1000 - 1700000000)
  /\ verifyPaddleSignature (runtime []) production 1700001000000 signed "{}"
     = {| sig_isValid := false; sig_reason := "timestamp_too_old" |}.
Proof.
  assert (Hout : 300 < Z.abs (1700001000000 / 1000 - 1700000000))
    by (vm_compute; reflexivity).
  split; [exact Hout|].
  exact (stale_timestamp_rejected (runtime []) production 1700001000000
           signed "whsec_k" "ts=1700000000;h1=c1534"
           eq_refl eq_refl ltac:(discriminate) eq_refl
           "1700000000" "c1534" 1700000000
           eq_refl eq_refl ltac:(discriminate) eq_refl
           "{}" Hout).
Defined.

(** C4, as stated, fails: a timestamp that is no integer is reported as
    [invalid_timestamp], not as [invalid_signature_format]. *)
Lemma unparsable_timestamp_counterexample :
  header_ts "ts=abc;h1=c1534" = Some "abc"
  /\ header_h1 "ts=abc;h1=c1534" = Some "c1534"
  /\ JsString.parseInt "abc" = None
  /\ verifyPaddleSignature (runtime []) production 1700000123456
       (post (Some "ts=abc;h1=c1534") "{}") "{}"
     = {| sig_isValid := false; sig_reason := "invalid_timestamp" |}
  /\ "invalid_timestamp" <> "invalid_signature_format".
Proof. repeat split. discriminate. Qed.

Lemma malformed_header_rejected_witness :
  (present (header_ts "h1=c1534") = false
   /\ verifyPaddleSignature (runtime []) production 1700000123456
        (post (Some "h1=c1534") "{}") "{}"
      = {| sig_isValid := false; sig_reason := "invalid_signature_format" |})
  /\ (JsString.parseInt "abc" = None
      /\ verifyPaddleSignature (runtime []) production 1700000123456
           (post (Some "ts=abc;h1=c1534") "{}") "{}"
         = {| sig_isValid := false; sig_reason := "invalid_timestamp" |}).
Proof.
  split; (split; [reflexivity|]).
  - apply (proj1 (malformed_header_rejected (runtime []) production 1700000123456
                    (post (Some "h1=c1534") "{}") "whsec_k" "h1=c1534"
                    eq_refl eq_refl ltac:(discriminate) eq_refl
                    "{}" ltac:(discriminate))).
    left. reflexivity.
  - apply (proj2 (malformed_header_rejected (runtime []) production 1700000123456
                    (post (Some "ts=abc;h1=c1534") "{}") "whsec_k" "ts=abc;h1=c1534"
                    eq_refl eq_refl ltac:(discriminate) eq_refl
                    "{}" ltac:(discriminate)) "abc" "c1534");
      try reflexivity; discriminate.
Defined.

(** ** Payload validation *)

(** C5, as stated, fails: the empty object lacks [custom_data.userId] like
    the three other fields, and the validator reports the three others
    only. *)
Lemma missing_data_hides_userId_counterexample :
  Js.truthy (Js.opt_get (Js.opt_get (Js.opt_get (JObj []) "data") "custom_data") "userId")
  = false
  /\ validateWebhookPayload (JObj [])
     = Normal {| val_isValid := false;
                 val_errors := ["Missing event_type"; "Missing event_id";
                                "Missing data object"] |}
  /\ ~ In "Missing userId in custom_data"
          ["Missing event_type"; "Missing event_id"; "Missing data object"].
Proof.
  repeat split. intros [H | [H | [H | []]]]; discriminate H.
Qed.

Lemma validate_reports_every_checked_rule_witness :
  created_unknown_product <> JNull
  /\ created_unknown_product <> JUndefined
  /\ validateWebhookPayload
       (JObj [("event_type", JStr "subscription.created");
              ("data", JObj [("custom_data", JObj [("email", JStr "bo@example.org")])])])
     = Normal {| val_isValid := false;
                 val_errors := ["Missing event_id"; "Missing userId in custom_data"] |}
  /\ validateWebhookPayload created_unknown_product
     = Normal {| val_isValid := true; val_errors := [] |}.
Proof.
  split; [discriminate|]. split; [discriminate|]. split.
  - exact (validate_reports_every_checked_rule
             (JObj [("event_type", JStr "subscription.created");
                    ("data", JObj [("custom_data",
                                    JObj [("email", JStr "bo@example.org")])])])
             ltac:(discriminate) ltac:(discriminate)).
  - exact (validate_reports_every_checked_rule created_unknown_product
             ltac:(discriminate) ltac:(discriminate)).
Defined.

(** ** Subscription events *)



(** ** Transaction events *)



(** ** Cancellation events *)


(** ** Requests *)

Lemma handler_result_answers_200_witness :
  let rt := runtime [created_unknown_product] in
  let req := post None (stringify created_unknown_product) in
  (method req <> "OPTIONS"
   /\ validateEnvironment development = true
   /\ sig_isValid (verifyPaddleSignature rt development 0 req
                     (stringify created_unknown_product)) = true
   /\ JSON_parse rt (stringify created_unknown_product) = Some created_unknown_product
   /\ validateWebhookPayload created_unknown_product
      = Normal {| val_isValid := true; val_errors := [] |}
   /\ passed (validateUser store (userId_of created_unknown_product) (world tables)) = true)
  /\ value (serve rt store clock development 0 "req_1" req (world tables))
     = Normal (json_response 200
                 [ ("received", JBool false);
                   ("message",
                    JStr "Subscription plan not found for product ID: pri_invalid_product_id");
                   ("requestId", JStr "req_1") ])
  /\ calls (serve rt store clock development 0 "req_1" req (world tables))
     = [ProfilesSelectSingle (JStr "user_2");
        PlansSelectSingle (JStr "pri_invalid_product_id")]
  /\ read_only (calls (serve rt store clock development 0 "req_1" req (world tables))).
Proof.
  intros rt req.
  assert (Hmethod : method req <> "OPTIONS") by discriminate.
  split; [repeat split; exact Hmethod|].
  destruct (handler_result_answers_200 rt store clock development 0 "req_1" req
              (stringify created_unknown_product) created_unknown_product
              {| val_isValid := true; val_errors := [] |} (world tables)
              Hmethod eq_refl eq_refl eq_refl eq_refl eq_refl eq_refl)
    as (_ & _ & Hscenario).
  exact (Hscenario (or_introl eq_refl) eq_refl eq_refl eq_refl).
Defined.

(** C9, as stated, fails: this request passes signature verification and
    payload validation, its handler throws on the [null] line item, and the
    response has status 500. *)
Lemma null_line_item_counterexample :
  let rt := runtime [purchase_null_item] in
  let req := post None (stringify purchase_null_item) in
  sig_isValid (verifyPaddleSignature rt development 0 req (stringify purchase_null_item))
  = true
  /\ JSON_parse rt (stringify purchase_null_item) = Some purchase_null_item
  /\ validateWebhookPayload purchase_null_item
     = Normal {| val_isValid := true; val_errors := [] |}
  /\ value (handleTransactionCompleted rt store clock purchase_null_item (world tables))
     = Throw "Cannot read properties of null (reading 'product_id')"
  /\ value (serve rt store clock development 0 "req_1" req (world tables))
     = Normal (json_response 500
                 [ ("error", JStr "Internal server error");
                   ("requestId", JStr "req_1") ]).
Proof. repeat split. Qed.

(** ** Profile defaults *)

Lemma profile_defaults_overwrite_witness :
  Js.truthy (customData_of canceled) = true
  /\ Js.truthy (Js.opt_get (customData_of canceled) "email") = false
  /\ Js.lookup "email" (hd [] (profiles tables)) = JStr "ann@example.org"
  /\ (exists row rest,
        calls (upsertUserProfile store clock (userId_of canceled) (customData_of canceled)
                 {| psd_status := JStr "canceled"; psd_planName := JStr "free";
                    psd_customerId := JStr "ctm_1" |} (world tables))
        = ProfilesUpdateSingle row (userId_of canceled) :: rest
        /\ Js.opt_get row "email" = JStr "unknown@example.com"
        /\ Js.opt_get row "full_name" = JStr "Unknown User")
  /\ Forall (defaults_written (customData_of canceled))
            (calls (handleSubscriptionCanceled (runtime []) store clock canceled (world tables)))
  /\ Js.lookup "email"
       (hd [] (profiles (state (final (handleSubscriptionCanceled (runtime []) store clock canceled
                                         (world tables))))))
     = JStr "unknown@example.com".
Proof.
  destruct (profile_defaults_overwrite (runtime []) store clock canceled (world tables))
    as (_ & _ & Hcanceled & Hupsert).
  split; [reflexivity|]. split; [reflexivity|]. split; [reflexivity|].
  split; [|split; [exact Hcanceled | reflexivity]].
  destruct (Hupsert (userId_of canceled) (customData_of canceled)
              {| psd_status := JStr "canceled"; psd_planName := JStr "free";
                 psd_customerId := JStr "ctm_1" |} eq_refl)
    as (row & rest & Hcalls & Hdefaults).
  exists row, rest. split; [exact Hcalls|].
  destruct (Hdefaults row eq_refl) as [Hemail Hname].
  split; [exact (Hemail eq_refl) | exact (Hname eq_refl)].
Defined.

End Examples.

(* ===================================================================== *)
(** * Further properties *)

(* ===================================================================== *)
(** ** The header format and the timestamp *)

Lemma split_free (sep : ascii) (s : string) :
  free sep s = true -> JsString.split sep s = [s].
Proof.
  induction s as [|c s IH]; [reflexivity|]. cbn [free JsString.split].
  intros H. apply andb_prop in H as [Hc Hs]. apply negb_true_iff in Hc.
  now rewrite Hc, (IH Hs).
Qed.

Lemma split_free_sep (sep : ascii) (s rest : string) :
  free sep s = true ->
  JsString.split sep (s ++ String sep rest) = s :: JsString.split sep rest.
Proof.
  induction s as [|c s IH]; cbn [free JsString.split append].
  - intros _. now rewrite Ascii.eqb_refl.
  - intros H. apply andb_prop in H as [Hc Hs]. apply negb_true_iff in Hc.
    now rewrite Hc, (IH Hs).
Qed.

Lemma free_append (sep : ascii) (s t : string) :
  free sep (s ++ t) = free sep s && free sep t.
Proof.
  induction s as [|c s IH]; [reflexivity|]. cbn [free append].
  now rewrite IH, andb_assoc.
Qed.

Lemma signature_header_fields (ts h1 : string) :
  plain ts = true -> plain h1 = true ->
  header_ts (signature_header ts h1) = Some ts
  /\ header_h1 (signature_header ts h1) = Some h1.
Proof.
  unfold plain. intros Hts Hh1.
  apply andb_prop in Hts as [Hts_semi Hts_eq].
  apply andb_prop in Hh1 as [Hh1_semi Hh1_eq].
  assert (Hsplit : JsString.split ";" (signature_header ts h1)
                   = ["ts=" ++ ts; "h1=" ++ h1]).
  { unfold signature_header.
    change ("ts=" ++ ts ++ ";h1=" ++ h1) with (("ts=" ++ ts) ++ String ";" ("h1=" ++ h1)).
    rewrite split_free_sep by (rewrite free_append, Hts_semi; reflexivity).
    rewrite split_free by (rewrite free_append, Hh1_semi; reflexivity).
    reflexivity. }
  unfold header_ts, header_h1, header_field. rewrite Hsplit. split.
  - assert (Hfind : find (JsString.startsWith "ts=") ["ts=" ++ ts; "h1=" ++ h1]
                    = Some ("ts=" ++ ts)).
    { cbn. destruct ts; reflexivity. }
    rewrite Hfind.
    change ("ts=" ++ ts) with ("ts" ++ String "=" ts).
    rewrite split_free_sep by reflexivity.
    now rewrite split_free.
  - assert (Hfind : find (JsString.startsWith "h1=") ["ts=" ++ ts; "h1=" ++ h1]
                    = Some ("h1=" ++ h1)).
    { cbn. destruct h1; reflexivity. }
    rewrite Hfind.
    change ("h1=" ++ h1) with ("h1" ++ String "=" h1).
    rewrite split_free_sep by reflexivity.
    now rewrite split_free.
Qed.

Lemma digits_uint (d : Decimal.uint) :
  forall a : nat,
    JsString.digits (Some (Z.of_nat a)) (NilEmpty.string_of_uint d)
    = Some (Z.of_nat (Nat.of_uint_acc d a)).
Proof.
  induction d; intros a; cbn [NilEmpty.string_of_uint Nat.of_uint_acc JsString.digits];
    [reflexivity|..];
    match goal with
    | |- context [JsString.digit_of ?c] =>
        let v := eval vm_compute in (JsString.digit_of c) in
        change (JsString.digit_of c) with v
    end;
    cbv iota; rewrite <- IHd; do 2 f_equal; rewrite Nat.tail_mul_spec; lia.
Qed.

Lemma parseInt_uint (d : Decimal.uint) :
  JsString.parseInt (NilZero.string_of_uint d) = Some (Z.of_nat (Nat.of_uint d)).
Proof.
  destruct d; [reflexivity|..];
    unfold JsString.parseInt, NilZero.string_of_uint, Nat.of_uint;
    cbn [NilEmpty.string_of_uint Nat.of_uint_acc JsString.skip_spaces];
    match goal with
    | |- context [JsString.is_space ?c] =>
        change (JsString.is_space c) with false
    end;
    cbv iota;
    cbn [JsString.digits];
    match goal with
    | |- context [JsString.digit_of ?c] =>
        let v := eval vm_compute in (JsString.digit_of c) in
        change (JsString.digit_of c) with v
    end;
    cbv iota;
    match goal with
    | |- JsString.digits (Some ?z) _ = Some (Z.of_nat (Nat.of_uint_acc _ ?k)) =>
        change z with (Z.of_nat k)
    end;
    apply digits_uint.
Qed.

(** [parseInt] reads a decimal numeral back. *)
Lemma parseInt_decimal (n : nat) :
  JsString.parseInt (Js.decimal n) = Some (Z.of_nat n).
Proof. unfold Js.decimal. now rewrite parseInt_uint, Unsigned.of_to. Qed.

Lemma free_uint (sep : ascii) (d : Decimal.uint) :
  JsString.digit_of sep = None -> free sep (NilEmpty.string_of_uint d) = true.
Proof.
  intros Hsep. induction d; cbn [NilEmpty.string_of_uint free]; [reflexivity|..];
    rewrite IHd, andb_true_r; apply negb_true_iff, Ascii.eqb_neq;
    intros <-; discriminate Hsep.
Qed.

Lemma plain_decimal (n : nat) : plain (Js.decimal n) = true.
Proof.
  unfold plain, Js.decimal, NilZero.string_of_uint.
  destruct (Nat.to_uint n) eqn:E; [reflexivity|..]; rewrite <- E;
    now rewrite !free_uint.
Qed.

Lemma decimal_nonempty (n : nat) : Js.decimal n <> "".
Proof.
  unfold Js.decimal, NilZero.string_of_uint. destruct (Nat.to_uint n); discriminate.
Qed.

(** X1.  The fields of a header written as [ts=<ts>;h1=<h1>] are read back
    as they were written, provided neither contains [;] or [=]. *)
Theorem header_fields_read_back (ts h1 : string) :
  plain ts = true -> plain h1 = true ->
  header_ts (signature_header ts h1) = Some ts
  /\ header_h1 (signature_header ts h1) = Some h1.
Proof. apply signature_header_fields. Qed.

(** ** Acceptance and rejection *)

(** X2.  What a sender does is accepted: in production, a request whose
    header is [ts=<seconds>;h1=<digest>], with [digest] the keyed digest of
    ["<seconds>:<rawBody>"] and [seconds] within 300 of the clock, is
    valid. *)
Theorem sender_signature_accepted (rt : Runtime) (env : Env) (nowMs : Z)
    (req : Request) (secret : string) (seconds : nat) (rawBody digest : string) :
  APP_ENVIRONMENT env = "production" ->
  PADDLE_WEBHOOK_SIGNING_SECRET env = Some secret ->
  secret <> "" ->
  hmac_sha256_hex rt secret (Js.decimal seconds ++ ":" ++ rawBody) = Some digest ->
  digest <> "" ->
  plain digest = true ->
  headers_get req "Paddle-Signature"
  = Some (signature_header (Js.decimal seconds) digest) ->
  Z.abs (nowMs / 1000 - Z.of_nat seconds) <= 300 ->
  verifyPaddleSignature rt env nowMs req rawBody
  = {| sig_isValid := true; sig_reason := "valid" |}.
Proof.
  intros Hprod Hsecret Hsecret_ne Hmac Hdigest_ne Hplain Hheader Hwin.
  destruct (signature_header_fields (Js.decimal seconds) digest
              (plain_decimal seconds) Hplain) as [Hts Hh1].
  rewrite (verify_at_window rt env nowMs req secret
             (signature_header (Js.decimal seconds) digest)
             Hprod Hsecret Hsecret_ne Hheader
             (Js.decimal seconds) digest (Z.of_nat seconds)
             Hts Hh1 Hdigest_ne (parseInt_decimal seconds)).
  apply Z.ltb_ge in Hwin. unfold WEBHOOK_TIMESTAMP_TOLERANCE_SECONDS.
  rewrite Hwin, Hmac. cbv zeta. now rewrite String.eqb_refl.
Qed.

(** X3.  Nothing else is accepted in production: a valid result means that
    a secret is configured, that the header has a [ts] and an [h1], that
    [ts] starts with an integer within 300 seconds of the clock, and that
    the lower-cased digest of ["<ts>:<rawBody>"] is the lower-cased [h1];
    its reason is then [valid]. *)
Theorem accepted_in_production (rt : Runtime) (env : Env) (nowMs : Z)
    (req : Request) (rawBody : string) :
  APP_ENVIRONMENT env = "production" ->
  sig_isValid (verifyPaddleSignature rt env nowMs req rawBody) = true ->
  exists secret header ts h1 timestamp computedHash,
    PADDLE_WEBHOOK_SIGNING_SECRET env = Some secret
    /\ secret <> ""
    /\ headers_get req "Paddle-Signature" = Some header
    /\ header_ts header = Some ts
    /\ header_h1 header = Some h1
    /\ h1 <> ""
    /\ JsString.parseInt ts = Some timestamp
    /\ Z.abs (nowMs / 1000 - timestamp) <= 300
    /\ hmac_sha256_hex rt secret (ts ++ ":" ++ rawBody) = Some computedHash
    /\ JsString.toLowerCase computedHash = JsString.toLowerCase h1
    /\ sig_reason (verifyPaddleSignature rt env nowMs req rawBody) = "valid".
Proof.
  intros Hprod. unfold verifyPaddleSignature, header_ts, header_h1.
  rewrite Hprod, String.eqb_refl. cbn [negb].
  destruct (PADDLE_WEBHOOK_SIGNING_SECRET env) as [secret|]; [|discriminate].
  cbn [present]. destruct (secret =? "")%string eqn:Hsecret; [discriminate|].
  cbn [negb].
  destruct (headers_get req "Paddle-Signature") as [header|]; [|discriminate].
  cbn [present]. destruct (header =? "")%string; [discriminate|]. cbn [negb].
  destruct (header_field "ts=" (JsString.split ";" header)) as [ts|] eqn:Hts;
    [|discriminate].
  destruct (header_field "h1=" (JsString.split ";" header)) as [h1|] eqn:Hfield;
    [|cbn [present negb]; rewrite orb_true_r; discriminate].
  cbn [present]. destruct (ts =? "")%string; [discriminate|].
  destruct (h1 =? "")%string eqn:Hh1; [discriminate|]. cbn [negb orb]. cbv zeta.
  destruct (JsString.parseInt ts) as [timestamp|] eqn:Hparse; [|discriminate].
  destruct (WEBHOOK_TIMESTAMP_TOLERANCE_SECONDS <? Z.abs (nowMs / 1000 - timestamp))
    eqn:Hwin; [discriminate|].
  destruct (hmac_sha256_hex rt secret (ts ++ ":" ++ rawBody)) as [computedHash|]
    eqn:Hmac; [|discriminate].
  cbn [sig_isValid sig_reason]. intros Heq. rewrite Heq.
  exists secret, header, ts, h1, timestamp, computedHash.
  apply String.eqb_neq in Hsecret, Hh1. apply Z.ltb_ge in Hwin.
  apply String.eqb_eq in Heq. now repeat split.
Qed.

(* ===================================================================== *)
(** ** The logger *)

(** The entries kept of an array: the last [maxLogs] of them. *)
Lemma addLog_keeps (r : Logger.Reading) (level message : string) (data : JValue)
    (logs : list Logger.LogEntry) :
  let c := {| Logger.call_reading := r; Logger.call_level := level;
              Logger.call_message := message; Logger.call_data := data |} in
  let pushed := (logs ++ [Logger.entry_of c])%list in
  fst (Logger.addLog r level message data logs)
  = skipn (List.length pushed - Logger.maxLogs) pushed.
Proof.
  cbv zeta. unfold Logger.addLog, Logger.entry_of. cbn [fst Logger.call_reading
    Logger.call_level Logger.call_message Logger.call_data].
  destruct (Nat.ltb_spec Logger.maxLogs
              (List.length (logs ++ [ {| Logger.log_timestamp := Logger.now r;
                                         Logger.log_level := level;
                                         Logger.log_message := message;
                                         Logger.log_data :=
                                           if Js.truthy data
                                           then Some (Logger.stringify r data) else None;
                                         Logger.log_requestId := Logger.random r |} ])%list))
    as [Hover | Hfits]; [reflexivity|].
  replace (_ - Logger.maxLogs)%nat with 0%nat by lia. reflexivity.
Qed.

Lemma keep_latest_twice {A} (n : nat) (l m : list A) :
  let kept := skipn (List.length l - n) l in
  skipn (List.length (kept ++ m) - n) (kept ++ m)%list
  = skipn (List.length (l ++ m) - n) (l ++ m)%list.
Proof.
  cbv zeta. rewrite !length_app, length_skipn.
  destruct (Nat.le_gt_cases (List.length l) n) as [Hfits | Hover].
  - replace (List.length l - n)%nat with 0%nat by lia. cbn [skipn].
    now rewrite Nat.sub_0_r.
  - replace (List.length l - (List.length l - n) + List.length m - n)%nat
      with (List.length m) by lia.
    replace (List.length l + List.length m - n)%nat
      with (List.length m + (List.length l - n))%nat by lia.
    rewrite <- skipn_skipn. f_equal.
    rewrite skipn_app.
    replace (List.length l - n - List.length l)%nat with 0%nat by lia.
    reflexivity.
Qed.

Lemma after_calls_keeps (cs : list Logger.Call) :
  forall logs : list Logger.LogEntry,
    (List.length logs <= Logger.maxLogs)%nat ->
    Logger.after_calls cs logs
    = skipn (List.length (logs ++ map Logger.entry_of cs) - Logger.maxLogs)
            (logs ++ map Logger.entry_of cs)%list.
Proof.
  induction cs as [|c cs IH]; intros logs Hlogs.
  - cbn [Logger.after_calls fold_left map]. rewrite app_nil_r.
    replace (_ - Logger.maxLogs)%nat with 0%nat by lia. reflexivity.
  - unfold Logger.after_calls in *. cbn [fold_left map].
    destruct c as [r level message data].
    cbn [Logger.call_reading Logger.call_level Logger.call_message Logger.call_data].
    rewrite addLog_keeps. cbv zeta.
    rewrite IH.
    + rewrite (keep_latest_twice Logger.maxLogs). now rewrite <- app_assoc.
    + rewrite length_skipn, length_app. cbn [List.length]. lia.
Qed.

(** X19.  The logger keeps the most recent hundred entries: after any
    sequence of calls on a fresh logger, [getLogs()] is the entries of the
    last [maxLogs] calls, in the order of the calls, and never holds more
    than [maxLogs] entries. *)
Theorem logger_keeps_latest (cs : list Logger.Call) :
  Logger.after_calls cs []
  = skipn (List.length cs - Logger.maxLogs) (map Logger.entry_of cs)
  /\ List.length (Logger.after_calls cs []) = Nat.min (List.length cs) Logger.maxLogs.
Proof.
  assert (H : Logger.after_calls cs []
              = skipn (List.length cs - Logger.maxLogs) (map Logger.entry_of cs)).
  { rewrite after_calls_keeps by (cbn; lia). cbn [app]. now rewrite length_map. }
  split; [exact H|].
  rewrite H, length_skipn, length_map. lia.
Qed.

(* ===================================================================== *)
(** * The further properties on the reference store *)

Module FurtherExamples.

Import Reference.
Import Scenarios.

(** ** The signature *)

Lemma header_fields_read_back_witness :
  (plain "1000" = true /\ plain "C1239" = true)
  /\ header_ts "ts=1000;h1=C1239" = Some "1000"
  /\ header_h1 "ts=1000;h1=C1239" = Some "C1239".
Proof.
  split; [split; reflexivity|].
  exact (header_fields_read_back "1000" "C1239" eq_refl eq_refl).
Defined.

(** The sender's request, received five seconds after it was signed. *)
Lemma sender_signature_accepted_witness :
  (hmac_sha256_hex (runtime []) "whsec_k" "1000:{}" = Some "C1239"
   /\ headers_get sent "Paddle-Signature" = Some "ts=1000;h1=C1239"
   /\ Z.abs (1005000 / 1000 - 1000) <= 300)
  /\ verifyPaddleSignature (runtime []) production 1005000 sent "{}"
     = {| sig_isValid := true; sig_reason := "valid" |}.
Proof.
  split; [repeat split; vm_compute; discriminate|].
  apply (sender_signature_accepted (runtime []) production 1005000 sent
           "whsec_k" 1000 "{}" "C1239");
    try reflexivity; discriminate.
Defined.

Lemma accepted_in_production_witness :
  (APP_ENVIRONMENT production = "production"
   /\ sig_isValid (verifyPaddleSignature (runtime []) production 1005000 sent "{}") = true)
  /\ exists ts h1 timestamp,
       header_ts "ts=1000;h1=C1239" = Some ts
       /\ header_h1 "ts=1000;h1=C1239" = Some h1
       /\ JsString.parseInt ts = Some timestamp
       /\ Z.abs (1005000 / 1000 - timestamp) <= 300.
Proof.
  assert (Hvalid : sig_isValid (verifyPaddleSignature (runtime []) production 1005000
                                  sent "{}") = true)
    by (vm_compute; reflexivity).
  split; [split; [reflexivity | exact Hvalid]|].
  destruct (accepted_in_production (runtime []) production 1005000 sent "{}"
              eq_refl Hvalid)
    as (secret & header & ts & h1 & timestamp & computedHash
        & _ & _ & Hheader & Hts & Hh1 & _ & Hparse & Hwindow & _).
  injection Hheader as <-.
  exists ts, h1, timestamp. repeat split; assumption.
Defined.

(** ** The store operations *)

(** The known user is found. *)
Lemma validateUser_outcomes_witness :
  exists uv,
    value (validateUser store (JStr "user_1") (world tables)) = Normal uv
    /\ uv_isValid uv = true
    /\ Js.opt_get (uv_profile uv) "email" = JStr "ann@example.org".
Proof.
  destruct (validateUser_outcomes store (JStr "user_1") (world tables))
    as (_ & _ & uv & Hvalue & Hfound & _).
  destruct (Hfound _ eq_refl eq_refl) as [Hvalid Hprofile].
  exists uv. rewrite Hprofile. repeat split; assumption.
Defined.

(** A user without a profile gets one: the update finds no row, the insert
    follows. *)
Lemma upsertUserProfile_outcomes_witness :
  let customData := JObj [ ("userId", JStr "user_2"); ("email", JStr "bo@example.org") ] in
  let sd := {| psd_status := JStr "active"; psd_planName := JStr "premium";
               psd_customerId := JStr "ctm_1" |} in
  let r := upsertUserProfile store clock (JStr "user_2") customData sd (world tables) in
  Js.truthy customData = true
  /\ exists result,
       value r = Normal result
       /\ List.length (calls r) = 2%nat
       /\ up_success result = true
       /\ Js.opt_get (up_row result) "subscription_plan" = JStr "premium".
Proof.
  intros customData sd r. split; [reflexivity|].
  destruct (upsertUserProfile_outcomes store clock (JStr "user_2") customData sd
              (world tables) eq_refl)
    as (result & Hvalue & _ & _ & Hinsert).
  destruct (Hinsert _ eq_refl eq_refl) as (Hcalls & _ & Hinserted).
  destruct (Hinserted _ eq_refl eq_refl) as [Hsuccess Hrow].
  exists result. subst r. rewrite Hcalls, Hrow. repeat split; assumption.
Defined.

Lemma upsertSubscription_outcomes_witness :
  let sd := {| sd_userId := JStr "user_1"; sd_planId := JStr "plan_premium";
               sd_paddleSubscriptionId := JStr "sub_1"; sd_status := JStr "active";
               sd_currentPeriodStart := JUndefined;
               sd_currentPeriodEnd := JUndefined |} in
  let r := upsertSubscription store clock sd (world tables) in
  exists result,
    value r = Normal result
    /\ up_success result = true
    /\ Js.opt_get (up_row result) "paddle_subscription_id" = JStr "sub_1".
Proof.
  intros sd r.
  destruct (upsertSubscription_outcomes store clock sd (world tables))
    as (_ & result & Hvalue & Hstored & _).
  destruct (Hstored _ eq_refl eq_refl) as [Hsuccess Hrow].
  exists result. rewrite Hrow. repeat split; assumption.
Defined.

(** ** The handlers *)

(** With the store down, the three handlers stop at the lookup. *)
Lemma invalid_user_stops_handlers_witness :
  (Js.truthy (Js.opt_get created "data") = true
   /\ passed (validateUser store_down (userId_of created) world_down) = false)
  /\ value (handleSubscriptionEvent (runtime []) store_down clock created world_down)
     = Normal (failure "User validation failed: connection failure")
  /\ value (handleTransactionCompleted (runtime []) store_down clock created world_down)
     = Normal (failure "User validation failed: connection failure")
  /\ value (handleSubscriptionCanceled (runtime []) store_down clock created world_down)
     = Normal (failure "User validation failed: connection failure")
  /\ calls (handleSubscriptionEvent (runtime []) store_down clock created world_down)
     = [ProfilesSelectSingle (JStr "user_2")].
Proof.
  split; [split; reflexivity|].
  destruct (invalid_user_stops_handlers (runtime []) store_down clock created world_down
              eq_refl eq_refl)
    as (uv & msg & Huv & Hmsg & Hsubscription & Htransaction & Hcancellation).
  injection Huv as <-. injection Hmsg as <-.
  rewrite Hsubscription, Htransaction, Hcancellation. repeat split.
Defined.

(** A new user subscribes to the premium plan. *)
Lemma subscription_success_stores_subscription_witness :
  let r := handleSubscriptionEvent (runtime []) store clock created (world tables) in
  let res := succeeded "Subscription active processed successfully for plan Premium" in
  (Js.truthy (Js.opt_get created "data") = true
   /\ value r = Normal res
   /\ success res = true)
  /\ exists plan profile_calls row stored,
       Js.opt_get plan "name" = JStr "Premium"
       /\ calls r = (ProfilesSelectSingle (JStr "user_2")
                     :: PlansSelectSingle (JStr "pro_premium_001")
                     :: profile_calls ++ [SubscriptionsUpsertSingle row])%list
       /\ List.length profile_calls = 2%nat
       /\ Js.opt_get row "plan_id" = Js.opt_get plan "id"
       /\ Js.opt_get row "paddle_subscription_id" = JStr "sub_1"
       /\ Js.opt_get stored "paddle_subscription_id" = JStr "sub_1".
Proof.
  intros r res.
  assert (Hvalue : value r = Normal res) by (vm_compute; reflexivity).
  split; [split; [reflexivity | split; [exact Hvalue | reflexivity]]|].
  destruct (subscription_success_stores_subscription (runtime []) store clock created
              (world tables) res eq_refl Hvalue eq_refl)
    as (plan & name & status & _ & Hfound & Hname & _
        & _ & _ & Hcalls & (stored & Hstored) & _).
  injection Hfound as <-. injection Hname as <-.
  exists premium_plan. do 2 eexists. exists stored.
  split; [reflexivity|]. split; [exact Hcalls|].
  split; [reflexivity|]. split; [reflexivity|]. split; [reflexivity|].
  vm_compute in Hstored. injection Hstored as <-. reflexivity.
Defined.

(** The three ways a subscription event throws: an identifier without a
    plan that cannot be printed, a plan without a name, a status that cannot
    be printed. *)
Lemma subscription_event_throws_only_witness :
  (Js.truthy (Js.opt_get created_unprintable_product "data") = true
   /\ value (handleSubscriptionEvent (runtime []) store clock created_unprintable_product
               (world tables))
      = Throw "Cannot convert object to primitive value"
   /\ value (handleSubscriptionEvent (runtime []) store clock created_unnamed_plan
               (world tables_nameless_plan))
      = Throw "Cannot read properties of undefined (reading 'toLowerCase')"
   /\ value (handleSubscriptionEvent (runtime []) store clock created_unprintable_status
               (world tables))
      = Throw "Cannot convert object to primitive value")
  /\ read_only (calls (handleSubscriptionEvent (runtime []) store clock
                         created_unprintable_product (world tables)))
  /\ read_only (calls (handleSubscriptionEvent (runtime []) store clock
                         created_unnamed_plan (world tables_nameless_plan)))
  /\ List.length (calls (handleSubscriptionEvent (runtime []) store clock
                           created_unprintable_status (world tables))) = 5%nat.
Proof.
  assert (Hproduct : value (handleSubscriptionEvent (runtime []) store clock
                              created_unprintable_product (world tables))
                     = Throw "Cannot convert object to primitive value")
    by (vm_compute; reflexivity).
  assert (Hplan : value (handleSubscriptionEvent (runtime []) store clock
                           created_unnamed_plan (world tables_nameless_plan))
                  = Throw "Cannot read properties of undefined (reading 'toLowerCase')")
    by (vm_compute; reflexivity).
  assert (Hstatus : value (handleSubscriptionEvent (runtime []) store clock
                             created_unprintable_status (world tables))
                    = Throw "Cannot convert object to primitive value")
    by (vm_compute; reflexivity).
  split; [repeat split; assumption|].
  split; [|split].
  - destruct (subscription_event_throws_only (runtime []) store clock
                created_unprintable_product (world tables) _ eq_refl Hproduct)
      as [(_ & _ & _ & Hreads)
         | [(plan & Hfound & _) | (plan & name & pr & sr & Hfound & _)]];
      [exact Hreads | discriminate Hfound | discriminate Hfound].
  - destruct (subscription_event_throws_only (runtime []) store clock
                created_unnamed_plan (world tables_nameless_plan) _ eq_refl Hplan)
      as [(Hnone & _)
         | [(plan & _ & _ & _ & _ & _ & Hreads)
           | (plan & name & pr & sr & Hfound & _ & Hname & _)]].
    + discriminate Hnone.
    + exact Hreads.
    + injection Hfound as <-. discriminate Hname.
  - destruct (subscription_event_throws_only (runtime []) store clock
                created_unprintable_status (world tables) _ eq_refl Hstatus)
      as [(Hnone & _)
         | [(plan & Hfound & _ & Hlower & _)
           | (plan & name & pr & sr & _ & _ & _ & _ & _ & _ & _ & _ & Hcalls)]].
    + discriminate Hnone.
    + injection Hfound as <-. discriminate Hlower.
    + rewrite Hcalls. reflexivity.
Defined.

(** ** Requests *)

Lemma cancellation_always_answered_witness :
  let rt := runtime [canceled] in
  let req := post None (stringify canceled) in
  (method req <> "OPTIONS"
   /\ validateEnvironment development = true
   /\ sig_isValid (verifyPaddleSignature rt development 0 req (stringify canceled)) = true
   /\ JSON_parse rt (stringify canceled) = Some canceled
   /\ validateWebhookPayload canceled
      = Normal {| val_isValid := true; val_errors := [] |}
   /\ Js.opt_get canceled "event_type" = JStr "subscription.canceled")
  /\ exists res,
       value (handleSubscriptionCanceled rt store clock canceled (world tables)) = Normal res
       /\ status_of (value (serve rt store clock development 0 "req_1" req (world tables)))
          = Some 200.
Proof.
  intros rt req.
  assert (Hmethod : method req <> "OPTIONS") by discriminate.
  split; [repeat split; exact Hmethod|].
  destruct (cancellation_always_answered rt store clock development 0 "req_1" req
              (stringify canceled) canceled
              {| val_isValid := true; val_errors := [] |} (world tables)
              Hmethod eq_refl eq_refl eq_refl eq_refl eq_refl eq_refl eq_refl)
    as (res & Hres & Hvalue & _).
  exists res. split; [exact Hres|]. rewrite Hvalue. reflexivity.
Defined.

(** A forged request is answered 401, the store untouched. *)
Lemma serve_always_answers_witness :
  let r := serve (runtime []) store clock production 1700000000000 "req_1" forged
             (world tables) in
  status_of (value r) = Some 401 /\ calls r = [] /\ final r = world tables.
Proof.
  intros r.
  destruct (serve_always_answers (runtime []) store clock production 1700000000000
              "req_1" forged (world tables))
    as (resp & Hvalue & _ & Hquiet).
  assert (Hstatus : status_of (value r) = Some 401) by (vm_compute; reflexivity).
  split; [exact Hstatus|].
  apply Hquiet. right. subst r. rewrite Hvalue in Hstatus. cbn in Hstatus.
  now injection Hstatus.
Defined.

Lemma store_reached_only_when_verified_witness :
  let rt := runtime [canceled] in
  let req := post None (stringify canceled) in
  let r := serve rt store clock development 0 "req_1" req (world tables) in
  calls r <> []
  /\ exists event_type,
       Js.opt_get canceled "event_type" = JStr event_type
       /\ handled event_type = true
       /\ calls r = calls (route rt store clock canceled (JStr event_type) (world tables)).
Proof.
  intros rt req r.
  assert (Hcalls : calls r <> []) by (vm_compute; discriminate).
  split; [exact Hcalls|].
  destruct (store_reached_only_when_verified rt store clock development 0 "req_1" req
              (world tables) Hcalls)
    as (_ & _ & rawBody & payload & v & event_type
        & Htext & _ & Hparse & _ & _ & Htype & Hhandled & Hsame).
  injection Htext as <-.
  assert (Hpayload : Some canceled = Some payload) by exact Hparse.
  injection Hpayload as <-.
  exists event_type. repeat split; assumption.
Defined.

Lemma unverified_request_rejected_witness :
  (method forged <> "OPTIONS"
   /\ validateEnvironment production = true
   /\ text forged = Normal "{}"
   /\ sig_isValid (verifyPaddleSignature (runtime []) production 1700000000000 forged "{}")
      = false)
  /\ serve (runtime []) store clock production 1700000000000 "req_1" forged (world tables)
     = Build_Run store HttpResponse
         (Normal (json_response 401
                    [ ("error", JStr "Signature verification failed");
                      ("reason", JStr "signature_mismatch") ]))
         (world tables) [].
Proof.
  assert (Hmethod : method forged <> "OPTIONS") by discriminate.
  assert (Hsig : sig_isValid (verifyPaddleSignature (runtime []) production 1700000000000
                                forged "{}") = false)
    by (vm_compute; reflexivity).
  split; [repeat split; assumption|].
  destruct (unverified_request_rejected (runtime []) store clock production
              1700000000000 "req_1" forged "{}" (world tables)
              Hmethod eq_refl eq_refl Hsig) as [Hrun _].
  rewrite Hrun. vm_compute. reflexivity.
Defined.

(** A body the parser refuses. *)
Lemma unparsable_body_rejected_witness :
  let req := post None "{" in
  (method req <> "OPTIONS"
   /\ validateEnvironment development = true
   /\ sig_isValid (verifyPaddleSignature (runtime []) development 0 req "{") = true
   /\ JSON_parse (runtime []) "{" = None)
  /\ serve (runtime []) store clock development 0 "req_1" req (world tables)
     = Build_Run store HttpResponse
         (Normal (json_response 400 [("error", JStr "Invalid JSON payload")]))
         (world tables) [].
Proof.
  intros req.
  assert (Hmethod : method req <> "OPTIONS") by discriminate.
  split; [repeat split; exact Hmethod|].
  exact (unparsable_body_rejected (runtime []) store clock development 0 "req_1" req
           "{" (world tables) Hmethod eq_refl eq_refl eq_refl (or_introl eq_refl)).
Defined.

(** An event without identifier and user: two errors. *)
Lemma invalid_payload_rejected_witness :
  let rt := runtime [incomplete] in
  let req := post None (stringify incomplete) in
  (method req <> "OPTIONS"
   /\ validateEnvironment development = true
   /\ sig_isValid (verifyPaddleSignature rt development 0 req (stringify incomplete)) = true
   /\ JSON_parse rt (stringify incomplete) = Some incomplete
   /\ Js.nullish incomplete = false)
  /\ serve rt store clock development 0 "req_1" req (world tables)
     = Build_Run store HttpResponse
         (Normal (json_response 400
                    [ ("error", JStr "Invalid payload structure");
                      ("details", JArr [ JStr "Missing event_id";
                                         JStr "Missing userId in custom_data" ]) ]))
         (world tables) [].
Proof.
  intros rt req.
  assert (Hmethod : method req <> "OPTIONS") by discriminate.
  split; [repeat split; exact Hmethod|].
  destruct (invalid_payload_rejected rt store clock development 0 "req_1" req
              (stringify incomplete) incomplete (world tables)
              Hmethod eq_refl eq_refl eq_refl eq_refl eq_refl eq_refl)
    as (errors & Herrors & _ & Hrun).
  injection Herrors as <-. exact Hrun.
Defined.

Lemma unhandled_event_acknowledged_witness :
  let rt := runtime [adjusted] in
  let req := post None (stringify adjusted) in
  (method req <> "OPTIONS"
   /\ validateEnvironment development = true
   /\ sig_isValid (verifyPaddleSignature rt development 0 req (stringify adjusted)) = true
   /\ JSON_parse rt (stringify adjusted) = Some adjusted
   /\ validateWebhookPayload adjusted
      = Normal {| val_isValid := true; val_errors := [] |}
   /\ handled "adjustment.created" = false)
  /\ serve rt store clock development 0 "req_1" req (world tables)
     = Build_Run store HttpResponse
         (Normal (json_response 200
                    [ ("received", JBool true);
                      ("message",
                       JStr "Event type adjustment.created acknowledged but not processed");
                      ("requestId", JStr "req_1") ]))
         (world tables) [].
Proof.
  intros rt req.
  assert (Hmethod : method req <> "OPTIONS") by discriminate.
  split; [repeat split; exact Hmethod|].
  exact (unhandled_event_acknowledged rt store clock development 0 "req_1" req
           (stringify adjusted) adjusted
           {| val_isValid := true; val_errors := [] |} "adjustment.created" (world tables)
           Hmethod eq_refl eq_refl eq_refl eq_refl eq_refl eq_refl eq_refl eq_refl).
Defined.

(** In production without the secret even a signed request is refused. *)
Lemma misconfigured_server_refuses_witness :
  (method signed <> "OPTIONS"
   /\ APP_ENVIRONMENT production_without_secret = "production"
   /\ present (PADDLE_WEBHOOK_SIGNING_SECRET production_without_secret) = false)
  /\ serve (runtime []) store clock production_without_secret 1700000000000 "req_1"
       signed (world tables)
     = Build_Run store HttpResponse
         (Normal (json_response 500 [("error", JStr "Server configuration error")]))
         (world tables) [].
Proof.
  assert (Hmethod : method signed <> "OPTIONS") by discriminate.
  split; [repeat split; exact Hmethod|].
  exact (misconfigured_server_refuses (runtime []) store clock production_without_secret
           1700000000000 "req_1" signed (world tables) Hmethod
           (or_intror (or_intror (conj eq_refl eq_refl)))).
Defined.

End FurtherExamples.
